(** * qlex: the dataset and retrieval bookkeeping of [app/main.py]

    A shallow embedding of the route handlers of [app/main.py] that manage
    datasets (Chroma collections plus the JSON metadata file), ingest
    documents and hand queries to the retrieval pipeline, together with the
    properties the specification states about them.

    Python values are modelled as follows.
    - [str] is a list of Unicode code points, so [len] is [length];
    - a dict used as a map is a [gmap], a [set] is a [gset];
    - a Chroma collection is the ordered list of its records;
    - code that can raise returns a [result]; [try_except] is the
      [try: ... except Exception: ...] statement. *)

From Stdlib Require Import ZArith NArith Lia String Ascii Decimal DecimalPos DecimalZ.
From stdpp Require Import gmap list fin_maps.

(** ** Python strings *)

Definition char : Type := N.
Definition str : Type := list char.

(** A Python string literal with ASCII contents. *)
Definition py (s : string) : str :=
  List.map N_of_ascii (list_ascii_of_string s).

Section StringOps.

Local Open Scope N_scope.

(** Decimal rendering of a Python [int], as the f-string does it. *)
Fixpoint uint_digits (u : Decimal.uint) : str :=
  match u with
  | Decimal.Nil => []
  | Decimal.D0 u => 48 :: uint_digits u
  | Decimal.D1 u => 49 :: uint_digits u
  | Decimal.D2 u => 50 :: uint_digits u
  | Decimal.D3 u => 51 :: uint_digits u
  | Decimal.D4 u => 52 :: uint_digits u
  | Decimal.D5 u => 53 :: uint_digits u
  | Decimal.D6 u => 54 :: uint_digits u
  | Decimal.D7 u => 55 :: uint_digits u
  | Decimal.D8 u => 56 :: uint_digits u
  | Decimal.D9 u => 57 :: uint_digits u
  end.

Definition str_of_int (z : Z) : str :=
  match Z.to_int z with
  | Decimal.Pos u => uint_digits u
  | Decimal.Neg u => 45 :: uint_digits u
  end.

(** [s.lstrip(chars)], [s.rstrip(chars)] and [s.strip(chars)]. *)
Fixpoint lstrip (p : char -> bool) (s : str) : str :=
  match s with
  | [] => []
  | c :: s' => if p c then lstrip p s' else s
  end.

Definition rstrip (p : char -> bool) (s : str) : str :=
  reverse (lstrip p (reverse s)).

Definition strip (p : char -> bool) (s : str) : str :=
  rstrip p (lstrip p s).

(** [sep.join(parts)]. *)
Fixpoint join (sep : str) (parts : list str) : str :=
  match parts with
  | [] => []
  | [p] => p
  | p :: rest => p ++ sep ++ join sep rest
  end.

End StringOps.

(** ** Exceptions *)

Inductive exn : Type :=
  | TypeError
  | IndexError
  | KeyError
  | ImportError
  | NotFoundError
  | IOError
  | BackendError.

(** [str(e)] *)
Definition exn_message (e : exn) : str :=
  match e with
  | TypeError => py "TypeError"
  | IndexError => py "string index out of range"
  | KeyError => py "KeyError"
  | ImportError => py "ImportError"
  | NotFoundError => py "Collection does not exist."
  | IOError => py "IOError"
  | BackendError => py "BackendError"
  end.

Inductive result (A : Type) : Type :=
  | Ok (a : A)
  | Raise (e : exn).
Arguments Ok {A} a.
Arguments Raise {A} e.

Definition bind {A B} (r : result A) (k : A -> result B) : result B :=
  match r with
  | Ok a => k a
  | Raise e => Raise e
  end.

(** [try: body  except Exception: handler] *)
Definition try_except {A} (body : result A) (handler : exn -> result A) : result A :=
  match body with
  | Ok a => Ok a
  | Raise e => handler e
  end.

Declare Scope py_scope.
Delimit Scope py_scope with py.
Notation "x <- c ;; k" := (bind c (fun x => k))
  (at level 100, c at next level, right associativity) : py_scope.

(** ** Dataset-name sanitising ([create_dataset], [upload_documents]) *)

Module Sanitize.

Local Open Scope N_scope.

Definition dash : char := 45.        (* '-' *)
Definition underscore : char := 95.  (* '_' *)
Definition letter_x : char := 120.   (* 'x' *)

Definition is_digit (c : char) : bool := (48 <=? c) && (c <=? 57).
Definition is_upper (c : char) : bool := (65 <=? c) && (c <=? 90).
Definition is_lower (c : char) : bool := (97 <=? c) && (c <=? 122).

(** The ASCII part of [str.isalnum]. *)
Definition ascii_isalnum (c : char) : bool :=
  is_digit c || is_upper c || is_lower c.

(** [c in '-_'] for a one-character [c]. *)
Definition in_dash_underscore (c : char) : bool :=
  (c =? dash) || (c =? underscore).

(** [s[0]] and [s[-1]]: both raise [IndexError] on the empty string. *)
Definition index_first (s : str) : result char :=
  match s with
  | [] => Raise IndexError
  | c :: _ => Ok c
  end.

Definition index_last (s : str) : result char :=
  match last s with
  | None => Raise IndexError
  | Some c => Ok c
  end.

(** [s[1:]] and [s[:-1]]. *)
Definition slice_from_1 (s : str) : str := drop 1 s.
Definition slice_to_last (s : str) : str := take (length s - 1)%nat s.

Section WithIsalnum.

(** [str.isalnum] on one code point: the Unicode table is the interpreter's. *)
Variable isalnum : char -> bool.

(** The sanitising block shared by [create_dataset] (lines 489-500) and
    [upload_documents] (lines 800-811).  [now] is [int(time.time())]. *)
Definition sanitize_name (now : Z) (dataset_name : str) : result str :=
  let sanitized_name :=
    List.map (fun c => if isalnum c || in_dash_underscore c then c else dash)
             dataset_name in
  let sanitized_name := strip in_dash_underscore sanitized_name in
  let sanitized_name :=
    if (60 <? length sanitized_name)%nat then take 60 sanitized_name
    else sanitized_name in
  let sanitized_name :=
    if (length sanitized_name <? 3)%nat then py "dataset-" ++ str_of_int now
    else sanitized_name in
  (c0 <- index_first sanitized_name ;;
   let sanitized_name :=
     if negb (isalnum c0) then letter_x :: slice_from_1 sanitized_name
     else sanitized_name in
   c1 <- index_last sanitized_name ;;
   let sanitized_name :=
     if negb (isalnum c1) then slice_to_last sanitized_name ++ [letter_x]
     else sanitized_name in
   Ok sanitized_name)%py.

End WithIsalnum.

(** The three parts of the name invariant. *)
Definition charset_ok (isalnum : char -> bool) (s : str) : Prop :=
  Forall (fun c => isalnum c || in_dash_underscore c = true) s.

Definition length_ok (s : str) : Prop :=
  (3 <= length s <= 60)%nat.

Definition ends_ok (isalnum : char -> bool) (s : str) : Prop :=
  (exists c, head s = Some c /\ isalnum c = true) /\
  (exists c, last s = Some c /\ isalnum c = true).

End Sanitize.

(** ** Batched insertion ([process_documents], [upload_documents],
       [upload_documents_to_dataset]) *)

Module Batching.

(** [range(0, stop, step)] for a positive [step]. *)
Definition py_range (stop step : nat) : list nat :=
  List.map (fun k => k * step) (seq 0 ((stop + step - 1) / step)).

(** [l[i:j]] for [0 <= i <= j]; Python clips the slice at [len(l)]. *)
Definition slice {A} (l : list A) (i j : nat) : list A :=
  take (j - i) (drop i l).

Definition BATCH : nat := 100.

(** The arguments of the successive [collection.add] calls of
    [for i in range(0, len(documents), 100): ...]. *)
Definition batches {A B C} (documents : list A) (metadatas : list B) (ids : list C)
  : list (list A * list B * list C) :=
  List.map (fun i => (slice documents i (i + BATCH),
                      slice metadatas i (i + BATCH),
                      slice ids i (i + BATCH)))
           (py_range (length documents) BATCH).

End Batching.

(** ** PDF text extraction ([robust_extract_text_from_pdf]) *)

Module Extract.

(** What the three external extractors do on one file.  An external call
    either returns or raises; a page or image is read inside the loop, so it
    has an outcome of its own. *)
Record pdf_file : Type := {
  (** [partition_pdf(pdf_path, strategy="hi_res")]; an element is [None] when
      it has no [text] attribute or its text is [None]. *)
  partition_hi_res : result (list (option str));
  (** [partition_pdf(pdf_path)] *)
  partition_plain : result (list (option str));
  (** [open] and [PyPDF2.PdfReader], then [page.extract_text()] per page. *)
  pypdf_pages : result (list (result (option str)));
  (** the [pdf2image] import and [convert_from_path], then
      [pytesseract.image_to_string] per image. *)
  ocr_images : result (list (result str))
}.

(** The two local variables every method updates. *)
Record locals : Type := {
  all_text : list str;
  extraction_success : bool
}.

(** Statements: they update the locals and may raise; an assignment made
    before a raise stays made. *)
Definition M (A : Type) : Type := locals -> result A * locals.

Definition ret {A} (a : A) : M A := fun s => (Ok a, s).

Definition mbind {A B} (m : M A) (k : A -> M B) : M B :=
  fun s =>
    match m s with
    | (Ok a, s') => k a s'
    | (Raise e, s') => (Raise e, s')
    end.

Definition lift {A} (r : result A) : M A := fun s => (r, s).

Definition get : M locals := fun s => (Ok s, s).

(** [try: body  except Exception as e: print(...)] *)
Definition try_print (body : M unit) : M unit :=
  fun s =>
    match body s with
    | (Ok _, s') => (Ok tt, s')
    | (Raise _, s') => (Ok tt, s')
    end.

Declare Scope extract_scope.
Delimit Scope extract_scope with ex.
Notation "x <- c ;; k" := (mbind c (fun x => k))
  (at level 100, c at next level, right associativity) : extract_scope.
Notation "c ;;; k" := (mbind c (fun _ => k))
  (at level 100, right associativity) : extract_scope.

Local Open Scope extract_scope.

Definition append_text (t : str) : M unit :=
  fun s => (Ok tt, {| all_text := all_text s ++ [t];
                      extraction_success := extraction_success s |}).

Definition extend_text (ts : list str) : M unit :=
  fun s => (Ok tt, {| all_text := all_text s ++ ts;
                      extraction_success := extraction_success s |}).

Definition set_success : M unit :=
  fun s => (Ok tt, {| all_text := all_text s; extraction_success := true |}).

(** Truth value of a [str] and of an optional [str]. *)
Definition truthy (s : str) : bool :=
  match s with [] => false | _ => true end.

Definition truthy_opt (o : option str) : bool :=
  match o with None => false | Some s => truthy s end.

Section WithInterpreter.

(** [str.isspace] on one code point, and the module constant set by the
    [import pytesseract] at the top of the file. *)
Variable isspace : char -> bool.
Variable PYTESSERACT_AVAILABLE : bool.

(** [text and text.strip()] *)
Definition has_visible_text (o : option str) : bool :=
  match o with
  | None => false
  | Some s => truthy s && truthy (strip isspace s)
  end.

(** METHOD 1: the [for element in elements] loop. *)
Fixpoint collect_elements (elements : list (option str)) : M unit :=
  match elements with
  | [] => ret tt
  | element :: rest =>
      match element with
      | Some t =>
          if truthy t
          then append_text t ;;; set_success ;;; collect_elements rest
          else collect_elements rest
      | None => collect_elements rest
      end
  end.

(** The inner [try: ... except TypeError: ...] around [partition_pdf]. *)
Definition partition (f : pdf_file) : result (list (option str)) :=
  match partition_hi_res f with
  | Raise TypeError => partition_plain f
  | r => r
  end.

Definition method1 (f : pdf_file) : M unit :=
  try_print (elements <- lift (partition f) ;; collect_elements elements).

(** METHOD 2: the [for page_num in range(len(pdf_reader.pages))] loop;
    [pdf_text] is the list local to the method. *)
Fixpoint collect_pages (pages : list (result (option str))) (page_num : nat)
    (pdf_text : list str) : M (list str) :=
  match pages with
  | [] => ret pdf_text
  | page :: rest =>
      text <- lift page ;;
      if has_visible_text text
      then set_success ;;;
           collect_pages rest (S page_num)
             (pdf_text ++ [py "Page " ++ str_of_int (Z.of_nat (page_num + 1))
                             ++ py ": " ++ default [] text])
      else collect_pages rest (S page_num) pdf_text
  end.

Definition method2 (f : pdf_file) : M unit :=
  try_print (
    pages <- lift (pypdf_pages f) ;;
    pdf_text <- collect_pages pages 0 [] ;;
    s <- get ;;
    if extraction_success s then extend_text pdf_text else ret tt).

(** METHOD 3: the [for i, image in enumerate(images)] loop. *)
Fixpoint collect_images (images : list (result str)) (i : nat)
    (ocr_text : list str) : M (list str) :=
  match images with
  | [] => ret ocr_text
  | image :: rest =>
      text <- lift image ;;
      if has_visible_text (Some text)
      then set_success ;;;
           collect_images rest (S i)
             (ocr_text ++ [py "Page " ++ str_of_int (Z.of_nat (i + 1))
                             ++ py " (OCR): " ++ text])
      else collect_images rest (S i) ocr_text
  end.

Definition method3 (f : pdf_file) : M unit :=
  try_print (
    images <- lift (ocr_images f) ;;
    ocr_text <- collect_images images 0 [] ;;
    s <- get ;;
    if extraction_success s then extend_text ocr_text else ret tt).

Definition extract_body (f : pdf_file) : M (list str) :=
  method1 f ;;;
  s <- get ;;
  if extraction_success s
     && (100 <? length (strip isspace (concat (all_text s))))
  then ret (all_text s)
  else
    method2 f ;;;
    s <- get ;;
    (if negb (extraction_success s) && PYTESSERACT_AVAILABLE
     then method3 f else ret tt) ;;;
    s <- get ;;
    if negb (extraction_success s) || bool_decide (all_text s = [])
    then ret []
    else ret (all_text s).

Definition robust_extract_text_from_pdf (f : pdf_file) : result (list str) :=
  fst (extract_body f {| all_text := []; extraction_success := false |}).

(** Whether a method comes across any text: for the loops of methods 2 and
    3 only the pages read before a failure count. *)
Fixpoint read_before_failure {A} (items : list (result A)) : list A :=
  match items with
  | Ok a :: rest => a :: read_before_failure rest
  | _ => []
  end.

Definition method1_finds_text (f : pdf_file) : bool :=
  match partition f with
  | Ok elements => existsb truthy_opt elements
  | Raise _ => false
  end.

Definition method2_finds_text (f : pdf_file) : bool :=
  match pypdf_pages f with
  | Ok pages => existsb has_visible_text (read_before_failure pages)
  | Raise _ => false
  end.



End WithInterpreter.

End Extract.

(** ** The chunk store and the dataset metadata file *)

Module Store.

(** Values held in chunk metadata, in the metadata file and in JSON bodies. *)
Inductive value : Type :=
  | VNone
  | VBool (b : bool)
  | VInt (z : Z)
  | VStr (s : str).

#[global] Instance value_eq_dec : EqDecision value.
Proof. solve_decision. Defined.

Definition value_encode (v : value) : unit + bool + Z + str :=
  match v with
  | VNone => inl (inl (inl tt))
  | VBool b => inl (inl (inr b))
  | VInt z => inl (inr z)
  | VStr s => inr s
  end.

Definition value_decode (x : unit + bool + Z + str) : value :=
  match x with
  | inl (inl (inl _)) => VNone
  | inl (inl (inr b)) => VBool b
  | inl (inr z) => VInt z
  | inr s => VStr s
  end.

#[global] Instance value_countable : Countable value.
Proof.
  apply (inj_countable' value_encode value_decode).
  intros []; reflexivity.
Defined.

Abbreviation dict := (gmap str value).

(** Truth value of a Python object. *)
Definition truthy_value (v : value) : bool :=
  match v with
  | VNone => false
  | VBool b => b
  | VInt z => negb (z =? 0)%Z
  | VStr s => Extract.truthy s
  end.

(** [True == 1] and [False == 0] in Python, also as set elements. *)
Definition hash_key (v : value) : value :=
  match v with
  | VBool b => VInt (if b then 1 else 0)
  | _ => v
  end.

Definition py_eq (a b : value) : bool :=
  bool_decide (hash_key a = hash_key b).

(** [d.get(key)] and [d.get(key, default)] *)
Definition dict_get (d : dict) (key : string) : value :=
  default VNone (d !! py key).

Definition dict_get_default (d : dict) (key : string) (dflt : value) : value :=
  default dflt (d !! py key).

(** [str(v)] inside an f-string. *)
Definition str_of_value (v : value) : str :=
  match v with
  | VNone => py "None"
  | VBool true => py "True"
  | VBool false => py "False"
  | VInt z => str_of_int z
  | VStr s => s
  end.

(** One record of a collection. *)
Record Chunk : Type := {
  chunk_id : str;
  chunk_document : str;
  chunk_metadata : dict
}.

(** The persistent state the handlers work on.  [undeletable] and
    [unreadable] are the collections on which the backend refuses
    [delete_collection], respectively [Collection.get]; [metadata_writable]
    tells whether the metadata file can be written. *)
Record World : Type := {
  chroma : gmap str (list Chunk);
  undeletable : gset str;
  unreadable : gset str;
  dataset_metadata : gmap str dict;
  metadata_writable : bool
}.

Definition set_chroma (w : World) (c : gmap str (list Chunk)) : World :=
  {| chroma := c; undeletable := undeletable w; unreadable := unreadable w;
     dataset_metadata := dataset_metadata w;
     metadata_writable := metadata_writable w |}.

Definition set_dataset_metadata (w : World) (md : gmap str dict) : World :=
  {| chroma := chroma w; undeletable := undeletable w;
     unreadable := unreadable w; dataset_metadata := md;
     metadata_writable := metadata_writable w |}.

(** *** The Chroma client *)

Definition list_collections (w : World) : list str :=
  (map_to_list (chroma w)).*1.

Definition get_collection (w : World) (name : str) : result (list Chunk) :=
  match chroma w !! name with
  | Some c => Ok c
  | None => Raise NotFoundError
  end.

Definition create_collection (w : World) (name : str) : World :=
  set_chroma w (<[name := []]> (chroma w)).

Definition get_or_create_collection (w : World) (name : str) : World :=
  match chroma w !! name with
  | Some _ => w
  | None => create_collection w name
  end.

Definition delete_collection (w : World) (name : str) : result World :=
  match chroma w !! name with
  | None => Raise NotFoundError
  | Some _ =>
      if decide (name ∈ undeletable w) then Raise BackendError
      else Ok (set_chroma w (delete name (chroma w)))
  end.

(** [collection.count()] *)
Definition count (w : World) (name : str) : nat :=
  length (default [] (chroma w !! name)).

(** [collection.get(include=["metadatas"])]: the ids and the metadatas. *)
Definition collection_get (w : World) (name : str)
  : result (list str * list dict) :=
  if decide (name ∈ unreadable w) then Raise BackendError
  else
    let c := default [] (chroma w !! name) in
    Ok (chunk_id <$> c, chunk_metadata <$> c).

(** [collection.add(documents=..., metadatas=..., ids=...)] *)
Definition make_chunk (id document : str) (metadata : dict) : Chunk :=
  {| chunk_id := id; chunk_document := document; chunk_metadata := metadata |}.

Fixpoint zip_chunks (documents : list str) (metadatas : list dict)
    (ids : list str) : list Chunk :=
  match documents, metadatas, ids with
  | d :: ds, m :: ms, i :: ids' => make_chunk i d m :: zip_chunks ds ms ids'
  | _, _, _ => []
  end.

Definition collection_add (w : World) (name : str)
    (documents : list str) (metadatas : list dict) (ids : list str) : World :=
  set_chroma w
    (<[name := default [] (chroma w !! name)
               ++ zip_chunks documents metadatas ids]> (chroma w)).

(** [collection.delete(ids=...)] *)
Definition collection_delete (w : World) (name : str) (ids : list str) : World :=
  set_chroma w
    (<[name := filter (fun c => chunk_id c ∉ ids)
                      (default [] (chroma w !! name))]> (chroma w)).

(** *** The metadata file *)

Definition load_dataset_metadata (w : World) : gmap str dict :=
  dataset_metadata w.

(** An [IOError] while writing is printed and swallowed. *)
Definition save_dataset_metadata (w : World) (metadata : gmap str dict) : World :=
  if metadata_writable w then set_dataset_metadata w metadata else w.

(** *** Counting documents *)

(** The loop
    [for meta in results["metadatas"]: source = meta.get("source"); if source: unique_sources.add(source)] *)
Definition add_source (unique_sources : gset value) (meta : dict) : gset value :=
  let source := dict_get meta "source" in
  if truthy_value source then unique_sources ∪ {[hash_key source]}
  else unique_sources.

Definition unique_sources (metadatas : list dict) : gset value :=
  foldl add_source ∅ metadatas.

End Store.

(** ** Dataset routes ([get_datasets], [delete_dataset],
       [delete_document_from_dataset]) *)

Module Datasets.

Import Store.

(** [jsonify(body), status] *)
Record response : Type := {
  status : nat;
  body : dict
}.

Definition jsonify (fields : list (str * value)) (code : nat) : response :=
  {| status := code; body := list_to_map fields |}.

(** One entry of [DEFAULT_DATASETS] in [app.config]: a dict with a ["name"]. *)
Record default_dataset : Type := {
  dd_name : str;
  dd_fields : dict
}.

Definition default_dict (d : default_dataset) : dict :=
  <[py "name" := VStr (dd_name d)]> (dd_fields d).

Definition quoted (prefix : string) (name : str) (suffix : string) : str :=
  py prefix ++ py "'" ++ name ++ py "'" ++ py suffix.

Section WithConfig.

Variable DEFAULT_DATASETS : list default_dataset.

(** *** [GET /api/datasets] *)

(** The body of [for name in collection_names], with its [try]/[except]. *)
Definition dataset_entry (w : World) (dataset_metadata : gmap str dict)
    (name : str) : dict :=
  let attempt :=
    (_ <- get_collection w name ;;
     results <- collection_get w name ;;
     let unique := unique_sources results.2 in
     let doc_count := VInt (Z.of_nat (size unique)) in
     let metadata := default ∅ (dataset_metadata !! name) in
     let description :=
       dict_get_default metadata "description"
         (VStr (py "Custom dataset with " ++ str_of_value doc_count
                ++ py " entries")) in
     let author := dict_get metadata "author" in
     let topic := dict_get metadata "topic" in
     let linkedin_url := dict_get metadata "linkedin_url" in
     let custom_instructions := dict_get metadata "custom_instructions" in
     let last_update_date := dict_get metadata "last_update_date" in
     let document_count := dict_get_default metadata "document_count" doc_count in
     Ok (list_to_map
           [(py "name", VStr name);
            (py "description", description);
            (py "author", author);
            (py "topic", topic);
            (py "linkedin_url", linkedin_url);
            (py "custom_instructions", custom_instructions);
            (py "last_update_date", last_update_date);
            (py "document_count", document_count);
            (py "is_custom", VBool true)] : dict))%py in
  match attempt with
  | Ok entry => entry
  | Raise _ =>
      let description :=
        dict_get_default (default ∅ (dataset_metadata !! name)) "description"
          (VStr (py "Custom dataset")) in
      list_to_map
        [(py "name", VStr name);
         (py "description", description);
         (py "is_custom", VBool true)]
  end.

(** The body of [for dataset in DEFAULT_DATASETS]. *)
Definition add_default (all_datasets : list dict) (dataset : default_dataset)
  : list dict :=
  if existsb (fun d => py_eq (dict_get d "name") (VStr (dd_name dataset)))
             all_datasets
  then all_datasets
  else all_datasets ++ [<[py "is_custom" := VBool false]> (default_dict dataset)].

(** Nothing in the body raises here, so the outer [except] with its
    one-entry fallback list is not reached. *)
Definition get_datasets (w : World) : list dict :=
  let collection_names := list_collections w in
  let dataset_metadata := load_dataset_metadata w in
  let all_datasets := dataset_entry w dataset_metadata <$> collection_names in
  foldl add_default all_datasets DEFAULT_DATASETS.

(** *** [DELETE /api/datasets/<dataset_name>] *)

Definition delete_dataset (w : World) (dataset_name : str) : response * World :=
  if bool_decide (dataset_name ∈ dd_name <$> DEFAULT_DATASETS)
  then (jsonify [(py "error", VStr (py "Cannot delete default dataset"))] 400, w)
  else
    (* Attempt to delete from Chroma *)
    let '(deleted_from_chroma, deletion_messages, w) :=
      match delete_collection w dataset_name with
      | Ok w' =>
          (true,
           [quoted "Collection " dataset_name " deleted from ChromaDB."], w')
      | Raise e =>
          match get_collection w dataset_name with
          | Ok _ =>
              (false,
               [quoted "Failed to delete collection " dataset_name
                       " from ChromaDB: " ++ exn_message e], w)
          | Raise _ =>
              (true,
               [quoted "Collection " dataset_name
                       " not found in ChromaDB (considered successfully removed)."],
               w)
          end
      end in
    (* Attempt to delete from metadata *)
    let dataset_metadata := load_dataset_metadata w in
    let '(deleted_from_metadata, deletion_messages, w) :=
      if bool_decide (dataset_name ∈ dom dataset_metadata)
      then (true,
            deletion_messages
              ++ [quoted "Dataset " dataset_name " deleted from metadata."],
            save_dataset_metadata w (delete dataset_name dataset_metadata))
      else (true,
            deletion_messages
              ++ [quoted "Dataset " dataset_name
                         " not found in metadata (considered successfully removed from metadata)."],
            w) in
    let details := join (py " ") deletion_messages in
    if deleted_from_chroma && deleted_from_metadata
    then (jsonify [(py "success", VBool true);
                   (py "message",
                    VStr (quoted "Dataset " dataset_name
                                 " successfully deleted. Details: " ++ details))]
                  200, w)
    else if deleted_from_metadata
    then (jsonify [(py "success", VBool true);
                   (py "message",
                    VStr (quoted "Dataset " dataset_name
                                 " removed. Status: " ++ details))]
                  200, w)
    else (jsonify [(py "error",
                    VStr (quoted "Failed to fully delete dataset " dataset_name
                                 ". Status: " ++ details))]
                  500, w).

End WithConfig.

(** *** [DELETE /api/datasets/<dataset_name>/documents/<doc_id>] *)

(** [meta.get("source") == doc_id or meta.get("file") == doc_id
     or meta.get("filename") == doc_id] *)
Definition names_document (doc_id : str) (meta : dict) : bool :=
  py_eq (dict_get meta "source") (VStr doc_id)
  || py_eq (dict_get meta "file") (VStr doc_id)
  || py_eq (dict_get meta "filename") (VStr doc_id).

Definition ids_to_delete (doc_id : str) (results : list str * list dict)
  : list str :=
  (filter (fun p => names_document doc_id p.1 = true)
          (zip results.2 results.1)).*2.

Definition server_error (e : exn) : response :=
  jsonify [(py "success", VBool false);
           (py "message", VStr (py "Server error: " ++ exn_message e))] 500.

(** [now] is [datetime.now().isoformat()]. *)
Definition delete_document_from_dataset (now : str) (w : World)
    (dataset_name doc_id : str) : response * World :=
  match get_collection w dataset_name with
  | Raise e => (server_error e, w)
  | Ok _ =>
  match collection_get w dataset_name with
  | Raise e => (server_error e, w)
  | Ok results =>
      let ids := ids_to_delete doc_id results in
      if bool_decide (ids = [])
      then (jsonify [(py "success", VBool false);
                     (py "message", VStr (py "No chunks found for this document."))]
                    404, w)
      else
        (* Delete the chunks *)
        let w := collection_delete w dataset_name ids in
        (* Update dataset metadata with new document count *)
        let dataset_metadata := load_dataset_metadata w in
        let done :=
          jsonify [(py "success", VBool true);
                   (py "message",
                    VStr (py "Deleted document " ++ doc_id
                          ++ py " and its chunks."))] 200 in
        match dataset_metadata !! dataset_name with
        | None => (done, w)
        | Some current_metadata =>
            match collection_get w dataset_name with
            | Raise e => (server_error e, w)
            | Ok results =>
                let current_unique_sources := unique_sources results.2 in
                let current_metadata :=
                  <[py "last_update_date" := VStr now]>
                    (<[py "document_count" :=
                         VInt (Z.of_nat (size current_unique_sources))]>
                       current_metadata) in
                (done,
                 save_dataset_metadata w
                   (<[dataset_name := current_metadata]> dataset_metadata))
            end
        end
  end
  end.

End Datasets.

(** ** Ingestion ([process_documents], [upload_documents],
       [upload_documents_to_dataset]) *)

Module Ingest.

Import Store.

(** [s.endswith(suffix)] *)
Definition endswith (s : str) (suffix : string) : bool :=
  bool_decide (py suffix `suffix_of` s).

(** [text.split('\n\n')]: [cur] is the part being read, reversed. *)
Fixpoint split_paragraphs_from (cur : str) (text : str) : list str :=
  match text with
  | [] => [reverse cur]
  | c :: rest =>
      match rest with
      | c' :: rest' =>
          if ((c =? 10) && (c' =? 10))%N
          then reverse cur :: split_paragraphs_from [] rest'
          else split_paragraphs_from (c :: cur) rest
      | [] => [reverse (c :: cur)]
      end
  end.

Definition split_paragraphs (text : str) : list str :=
  split_paragraphs_from [] text.

(** [filename.rsplit('.', 1)[1]] when ['.' in filename]. *)
Fixpoint before_first_dot (s : str) : str :=
  match s with
  | [] => []
  | c :: rest => if (c =? 46)%N then [] else c :: before_first_dot rest
  end.

Definition after_last_dot (filename : str) : str :=
  reverse (before_first_dot (reverse filename)).

(** [.lower()], exact on the letters of ['pdf'] and ['txt']: no other code
    point lowers to one of them. *)
Definition ascii_lower (s : str) : str :=
  (fun c => if ((65 <=? c) && (c <=? 90))%N then (c + 32)%N else c) <$> s.

Definition allowed_file (filename : str) : bool :=
  bool_decide (46%N ∈ filename)
  && bool_decide (ascii_lower (after_last_dot filename) ∈ [py "pdf"; py "txt"]).

(** A file as the handlers see it: its name, what the PDF extractors do on
    it and what [open(...).read()] gives. *)
Record file : Type := {
  file_name : str;
  file_pdf : Extract.pdf_file;
  file_text : result str
}.

(** A line of the progress stream; the numeric [progress] field is left out. *)
Inductive line : Type :=
  | ErrorLine (message : str)
  | StatusLine (status : str).

Definition chunk_ident (doc_file : str) (i j : nat) : str :=
  doc_file ++ py "_" ++ str_of_int (Z.of_nat i) ++ py "_" ++ str_of_int (Z.of_nat j).

Definition source_meta (doc_file : str) (key : string) (n : nat) : dict :=
  list_to_map [(py "source", VStr doc_file); (py key, VInt (Z.of_nat n))].

(** [for i in range(0, len(documents), 100): collection.add(...)] *)
Definition add_in_batches (w : World) (name : str) (chunks : list Chunk) : World :=
  foldl (fun w b => collection_add w name b.1.1 b.1.2 b.2) w
        (Batching.batches (chunk_document <$> chunks)
                          (chunk_metadata <$> chunks)
                          (chunk_id <$> chunks)).

(** The records one [collection.add] call stores. *)
Definition batch_records (b : list str * list dict * list str) : list Chunk :=
  zip_chunks b.1.1 b.1.2 b.2.


(** A stored chunk is longer than the 50-character threshold. *)
Definition long_enough (c : Chunk) : Prop :=
  50 < length (chunk_document c).

(** From [w] to [w'] every record that is new in a collection is
    [long_enough]. *)
Definition only_long_added (w w' : World) : Prop :=
  forall name c,
    c ∈ default [] (chroma w' !! name) ->
    c ∈ default [] (chroma w !! name) \/ long_enough c.

Section WithInterpreter.

Variable isalnum : char -> bool.
Variable isspace : char -> bool.
Variable PYTESSERACT_AVAILABLE : bool.
(** [werkzeug.utils.secure_filename] *)
Variable secure_filename : str -> str.
(** The configured documents directory, as a path. *)
Variable DOCUMENTS_DIR : str.

Definition extract (f : file) : result (list str) :=
  Extract.robust_extract_text_from_pdf isspace PYTESSERACT_AVAILABLE (file_pdf f).

(** [[t.strip() for t in text.split('\n\n') if t.strip()]] *)
Definition paragraphs (text : str) : list str :=
  filter (fun t => Extract.truthy t = true)
         (strip isspace <$> split_paragraphs text).

(** The [for j, text in enumerate(extracted_texts)] loop; [page j] is the
    number stored under ["page"]. *)
Definition pdf_chunks (doc_file : str) (i : nat) (page : nat -> nat)
    (extracted_texts : list str) : list Chunk :=
  concat (imap (fun j text =>
                  if Extract.truthy text && (50 <? length text)
                  then [make_chunk (chunk_ident doc_file i j) text
                                   (source_meta doc_file "page" (page j))]
                  else [])
               extracted_texts).

(** The [for j, chunk in enumerate(chunks)] loop. *)
Definition txt_chunks (doc_file : str) (i : nat) (meta : nat -> dict)
    (chunks : list str) : list Chunk :=
  concat (imap (fun j chunk =>
                  if 50 <? length chunk
                  then [make_chunk (chunk_ident doc_file i j) chunk (meta j)]
                  else [])
               chunks).

(** *** [POST /api/process-documents] *)

Definition sample_text : str :=
  py "This is a sample document for the EU Sanctions dataset. The European Union imposes sanctions or restrictive measures in pursuit of the specific objectives of the Common Foreign and Security Policy (CFSP). Sanctions are preventative, non-punitive instruments which aim to bring about a change in policy or activity by targeting non-EU countries, entities, and individuals responsible for the malign behavior at stake.".

(** One round of [for i, doc_file in enumerate(doc_files)], inside its [try]. *)
Definition process_file (i : nat) (f : file) : list Chunk :=
  let doc_file := file_name f in
  if endswith doc_file ".pdf" then
    match extract f with
    | Ok extracted_texts => pdf_chunks doc_file i (fun j => j) extracted_texts
    | Raise _ => []
    end
  else if endswith doc_file ".txt" then
    match file_text f with
    | Ok text =>
        let chunks := paragraphs text in
        txt_chunks doc_file i (source_meta doc_file "part") chunks
        ++ (if bool_decide (chunks = []) && (50 <? length text)
            then [make_chunk (chunk_ident doc_file i 0) text
                             (source_meta doc_file "part" 0)]
            else [])
    | Raise _ => []
    end
  else [].

(** The chunks gathered before the batch loop.  [listing] is
    [os.listdir(DOCUMENTS_DIR)]. *)
Definition process_gather (listing : list file) : list file * list Chunk :=
  let doc_files :=
    take 10 (filter (fun f => endswith (file_name f) ".pdf"
                              || endswith (file_name f) ".txt" = true)
                    listing) in
  let sample :=
    if bool_decide (doc_files = [])
    then [make_chunk (py "sample_document_0_1") sample_text
                     (source_meta (py "sample_document.txt") "page" 1)]
    else [] in
  (doc_files, sample ++ concat (imap process_file doc_files)).

(** [documents_dir] is [None] when [DOCUMENTS_DIR] does not exist;
    [dataset_name] and [dataset_description] are the JSON fields. *)
Definition process_documents (w : World) (documents_dir : option (list file))
    (dataset_name : option str) (dataset_description : option str)
  : Datasets.response * World :=
  let dataset_name := default (py "EU-Sanctions") dataset_name in
  let w := get_or_create_collection w dataset_name in
  match documents_dir with
  | None =>
      (Datasets.jsonify
         [(py "status", VStr (py "error"));
          (py "message",
           VStr (py "Documents directory not found. Created: " ++ DOCUMENTS_DIR
                 ++ py ". Please add PDF files to this directory."));
          (py "dataset", VStr dataset_name)] 200, w)
  | Some listing =>
      let '(doc_files, chunks) := process_gather listing in
      let w := add_in_batches w dataset_name chunks in
      let dataset_description := default [] dataset_description in
      let w :=
        if Extract.truthy dataset_description
        then save_dataset_metadata w
               (<[dataset_name :=
                    {[py "description" := VStr dataset_description]}]>
                  (load_dataset_metadata w))
        else w in
      (Datasets.jsonify
         [(py "status", VStr (py "success"));
          (py "message",
           VStr (py "Processed " ++ str_of_int (Z.of_nat (length chunks))
                 ++ py " text chunks from "
                 ++ str_of_int (Z.of_nat (length doc_files))
                 ++ py " documents"));
          (py "dataset", VStr dataset_name)] 200, w)
  end.

(** *** [POST /api/upload-documents] *)

(** One round of [for i, file in enumerate(files)]. *)
Definition upload_file (i : nat) (f : file) : list Chunk :=
  if Extract.truthy (file_name f) && allowed_file (file_name f) then
    let filename := secure_filename (file_name f) in
    if endswith filename ".pdf" then
      match extract f with
      | Ok extracted_texts => pdf_chunks filename i (fun j => j + 1) extracted_texts
      | Raise _ => []
      end
    else if endswith filename ".txt" then
      match file_text f with
      | Ok text =>
          txt_chunks filename i (fun _ => source_meta filename "page" 1)
                     (paragraphs text)
      | Raise _ => []
      end
    else []
  else [].

(** The multipart form of an upload. *)
Record upload_form : Type := {
  form_files : option (list file);
  form_dataset_name : option str;
  form_description : option str;
  form_author : option str;
  form_topic : option str;
  form_linkedin : option str;
  form_custom_instructions : option str
}.

(** [time] is [int(time.time())], [now] is [datetime.now().isoformat()]. *)
Definition upload_documents (time : Z) (now : str) (w : World)
    (form : upload_form) : list line * World :=
  match form_files form with
  | None => ([ErrorLine (py "No files uploaded")], w)
  | Some files =>
      match Sanitize.sanitize_name isalnum time
              (default (py "New Dataset") (form_dataset_name form)) with
      | Raise e => ([ErrorLine (exn_message e)], w)
      | Ok dataset_name =>
          match get_collection w dataset_name with
          | Ok _ =>
              ([ErrorLine (Datasets.quoted "Dataset " dataset_name
                                           " already exists")], w)
          | Raise _ =>
              let w := create_collection w dataset_name in
              let total_documents := length files in
              let chunks := concat (imap upload_file files) in
              let w := add_in_batches w dataset_name chunks in
              let field o := VStr (default [] o) in
              let record : dict :=
                list_to_map
                  [(py "description", field (form_description form));
                   (py "author", field (form_author form));
                   (py "topic", field (form_topic form));
                   (py "linkedin_url", field (form_linkedin form));
                   (py "custom_instructions",
                    field (form_custom_instructions form));
                   (py "created_at", VStr now);
                   (py "last_update_date", VStr now);
                   (py "document_count", VInt (Z.of_nat total_documents))] in
              let w :=
                save_dataset_metadata w
                  (<[dataset_name := record]> (load_dataset_metadata w)) in
              ([StatusLine (py "Processing complete!")], w)
          end
      end
  end.

(** *** [POST /api/datasets/<dataset_name>/documents] *)

(** [saved_files] and the upload directory after the saving loop: a later
    file of the same secured name overwrites an earlier one. *)
Definition save_uploads (uploaded_files : list file)
  : list str * gmap str file :=
  foldl (fun acc f =>
           if Extract.truthy (file_name f) && allowed_file (file_name f)
           then let filename := secure_filename (file_name f) in
                (acc.1 ++ [filename], <[filename := f]> acc.2)
           else acc)
        ([], ∅) uploaded_files.

(** One round of [for i, doc_file in enumerate(saved_files)]; every saved
    name is on the disk, so the first case does not occur. *)
Definition append_file (disk : gmap str file) (i : nat) (doc_file : str)
  : list Chunk :=
  match disk !! doc_file with
  | None => []
  | Some f =>
      if endswith doc_file ".pdf" then
        match extract f with
        | Ok extracted_texts => pdf_chunks doc_file i (fun j => j + 1) extracted_texts
        | Raise _ => []
        end
      else if endswith doc_file ".txt" then
        match file_text f with
        | Ok text =>
            txt_chunks doc_file i (fun _ => source_meta doc_file "page" 1)
                       (paragraphs text)
        | Raise _ => []
        end
      else []
  end.

Definition upload_documents_to_dataset (now : str) (w : World)
    (dataset_name : str) (uploaded : option (list file)) : list line * World :=
  match uploaded with
  | None => ([ErrorLine (py "No files uploaded")], w)
  | Some uploaded_files =>
      let '(saved_files, disk) := save_uploads uploaded_files in
      let started := [StatusLine (py "Starting upload...")] in
      if bool_decide (saved_files = [])
      then (started ++ [ErrorLine (py "No valid files uploaded")], w)
      else
        let w := get_or_create_collection w dataset_name in
        let dataset_metadata := load_dataset_metadata w in
        let current_metadata := default ∅ (dataset_metadata !! dataset_name) in
        let total_documents := length saved_files in
        let chunks := concat (imap (append_file disk) saved_files) in
        let total_batches := (length chunks + 99) / 100 in
        let w := add_in_batches w dataset_name chunks in
        let lines :=
          started ++ [StatusLine (py "Processing files...")]
          ++ imap (fun i _ =>
                     StatusLine (py "Processing file " ++ str_of_int (Z.of_nat (i + 1))
                                 ++ py " of " ++ str_of_int (Z.of_nat total_documents)
                                 ++ py "..."))
                  saved_files
          ++ [StatusLine (py "Adding to database...")]
          ++ ((fun i =>
                 StatusLine (py "Processing batch "
                             ++ str_of_int (Z.of_nat (i / 100 + 1))
                             ++ py " of " ++ str_of_int (Z.of_nat total_batches)
                             ++ py "..."))
                <$> Batching.py_range (length chunks) Batching.BATCH) in
        if bool_decide (dataset_name ∈ dom dataset_metadata)
        then
          match collection_get w dataset_name with
          | Raise e =>
              (lines ++ [ErrorLine (py "Server error: " ++ exn_message e)], w)
          | Ok results =>
              let current_unique_sources :=
                foldl (fun s doc_file => s ∪ {[VStr doc_file]})
                      (unique_sources results.2) saved_files in
              let current_metadata :=
                <[py "last_update_date" := VStr now]>
                  (<[py "document_count" :=
                       VInt (Z.of_nat (size current_unique_sources))]>
                     current_metadata) in
              (lines ++ [StatusLine (py "Upload complete!")],
               save_dataset_metadata w
                 (<[dataset_name := current_metadata]> dataset_metadata))
          end
        else (lines ++ [StatusLine (py "Upload complete!")], w)
  end.

End WithInterpreter.

End Ingest.

(** ** Query routes ([chat], [add_message]) *)

Module Chat.

Import Store.

(** What [LegalDocumentProcessor.query_dataset] returns: one batch of one
    query, so both fields are singleton-wrapped. *)
Record query_results : Type := {
  documents : list (list str);
  metadatas : list (list dict)
}.

(** A call into the retrieval pipeline, with its keyword arguments. *)
Record pipeline_call : Type := {
  call_dataset_name : str;
  call_query : str;
  call_n_results : nat;
  call_use_hybrid_search : bool;
  call_use_reranking : bool
}.

(** The result [chat] builds itself for an empty collection. *)
Definition no_documents : query_results :=
  {| documents :=
       [[py "No documents found in the selected dataset. Please upload documents or select a different dataset."]];
     metadatas :=
       [[list_to_map [(py "source", VStr (py "System")); (py "page", VInt 0)]]] |}.

(** [l[0]] *)
Definition first {A} (l : list A) : result A :=
  match l with
  | [] => Raise IndexError
  | x :: _ => Ok x
  end.

(** [doc[:150] + "..." if len(doc) > 150 else doc] *)
Definition snippet (doc : str) : str :=
  if 150 <? length doc then take 150 doc ++ py "..." else doc.

(** [meta.get("page", meta.get("part", 0))] *)
Definition page_of (meta : dict) : value :=
  dict_get_default meta "page" (dict_get_default meta "part" (VInt 0)).

Record source_info : Type := {
  info_source : value;
  info_page : value;
  info_snippet : str
}.

Definition source_of (doc : str) (meta : dict) : source_info :=
  {| info_source := dict_get_default meta "source" (VStr (py "Unknown"));
     info_page := page_of meta;
     info_snippet := snippet doc |}.

Definition newline : str := [10%N].

Definition source_line (s : source_info) : str :=
  py "Source: " ++ str_of_value (info_source s)
  ++ py " (Page/Section: " ++ str_of_value (info_page s) ++ py ")" ++ newline
  ++ py "Preview: " ++ info_snippet s.

(** A message of the conversation: its role and its content. *)
Record message : Type := {
  role : str;
  content : str
}.

Definition is_turn (m : message) : bool :=
  bool_decide (role m ∈ [py "user"; py "assistant"]).

(** [l[-10:]] *)
Definition last_ten {A} (l : list A) : list A :=
  drop (length l - 10) l.

Section WithPipeline.

(** The retrieval pipeline and the language-model client are other modules
    of the application; [instructions] is the fixed prompt text that
    precedes the context. *)
Variable query_dataset :
  World -> str -> str -> nat -> bool -> bool -> result query_results.
Variable generate_with_rag : str -> str -> list message -> result str.
Variable instructions : str.

Definition system_prompt (context : str) : str :=
  instructions ++ context ++ newline.

(** *** [POST /api/chat] *)

Record chat_request : Type := {
  req_message : option str;
  req_dataset : option str;
  req_history : list message
}.

Record chat_response : Type := {
  resp_response : str;
  resp_context : str;
  resp_dataset : str;
  resp_raw_context : str
}.

(** The retrieval step of [chat] (lines 303-334): the results it works
    with and the pipeline calls it made. *)
Definition chat_retrieve (w : World) (dataset_name user_message : str)
  : result query_results * list pipeline_call :=
  (* Get the document count to determine how many results we can request *)
  let doc_count := count w dataset_name in
  let n_results := Nat.min 5 (Nat.max 1 doc_count) in
  (* Handle the case of an empty collection *)
  if doc_count =? 0
  then (Ok no_documents, [])
  else (query_dataset w dataset_name user_message n_results true true,
        [{| call_dataset_name := dataset_name; call_query := user_message;
            call_n_results := n_results; call_use_hybrid_search := true;
            call_use_reranking := true |}]).

Definition chat (w : World) (data : chat_request)
  : result chat_response * World * list pipeline_call :=
  let user_message := default [] (req_message data) in
  let dataset_name := default (py "EU-Sanctions") (req_dataset data) in
  let history := req_history data in
  let w := get_or_create_collection w dataset_name in
  let '(results, calls) := chat_retrieve w dataset_name user_message in
  ((results <- results ;;
    docs <- first (documents results) ;;
    let context := join (newline ++ newline) docs in
    metas <- first (metadatas results) ;;
    let sources := zip_with source_of docs metas in
    let system_message := system_prompt context in
    let formatted_history := filter (fun m => is_turn m = true) history in
    let response :=
      match generate_with_rag user_message system_message
              (last_ten formatted_history) with
      | Ok response => response
      | Raise _ =>
          py "I'm sorry, I encountered an error processing your request. Please try again later."
      end in
    let source_context := join (newline ++ newline) (source_line <$> sources) in
    Ok {| resp_response := response; resp_context := source_context;
          resp_dataset := dataset_name; resp_raw_context := context |})%py,
   w, calls).

(** *** [POST /api/chats/<chat_id>/messages] *)

(** The stored chat as [add_message] reads it. *)
Record stored_chat : Type := {
  chat_dataset : option str;
  chat_messages : list message
}.

(** [context += f"Source: {source} (Page {page})\n{doc}\n\n"] *)
Definition context_block (doc : str) (meta : dict) : str :=
  py "Source: "
  ++ str_of_value (dict_get_default meta "source" (VStr (py "Unknown")))
  ++ py " (Page " ++ str_of_value (page_of meta) ++ py ")" ++ newline
  ++ doc ++ newline ++ newline.

(** What [add_message] has computed when it hands over to the streaming
    generator: the dataset queried, the context and the system message. *)
Record prepared : Type := {
  prep_dataset : str;
  prep_context : str;
  prep_system_message : str;
  prep_history : list message
}.

(** The retrieval step of [add_message] (lines 1139-1146). *)
Definition add_message_retrieve (w : World) (dataset_name user_message : str)
  : result query_results * list pipeline_call :=
  (query_dataset w dataset_name user_message 5 true true,
   [{| call_dataset_name := dataset_name; call_query := user_message;
       call_n_results := 5; call_use_hybrid_search := true;
       call_use_reranking := true |}]).

(** [chat] is [chat_storage.get_chat(chat_id)]; [None] answers 404 before
    anything else happens.  The messages the handler writes to the chat
    storage, another module, are not part of the store modelled here. *)
Definition add_message (w : World) (chat : option stored_chat)
    (message dataset : option str)
  : option (result prepared * list pipeline_call) :=
  match chat with
  | None => None
  | Some chat =>
      let user_message := default [] message in
      let dataset_name :=
        match dataset with
        | Some d => if Extract.truthy d then d
                    else default (py "Default") (chat_dataset chat)
        | None => default (py "Default") (chat_dataset chat)
        end in
      (* Load dataset-specific custom instructions *)
      let specific_dataset_meta :=
        default ∅ (load_dataset_metadata w !! dataset_name) in
      let custom_instructions_for_dataset :=
        dict_get_default specific_dataset_meta "custom_instructions" (VStr []) in
      let history := filter (fun m => is_turn m = true) (chat_messages chat) in
      let '(results, calls) :=
        add_message_retrieve w dataset_name user_message in
      Some
        ((results <- results ;;
          context <-
            (if bool_decide (documents results = []) then Ok []
             else
               docs <- first (documents results) ;;
               metas <- first (metadatas results) ;;
               Ok (concat (zip_with context_block docs metas))) ;;
          let system_message :=
            if truthy_value custom_instructions_for_dataset
            then str_of_value custom_instructions_for_dataset
            else system_prompt context in
          Ok {| prep_dataset := dataset_name; prep_context := context;
                prep_system_message := system_message;
                prep_history := history |})%py,
         calls)
  end.

End WithPipeline.

End Chat.

(** ** What a request did and what was answered *)

Module Outcomes.

Import Store Datasets.

(** The plain success answer: HTTP 200 with ["success": true]. *)
Definition reported_as_success (r : response) : Prop :=
  status r = 200 /\ body r !! py "success" = Some (VBool true).

Definition message_of (r : response) : option value :=
  body r !! py "message".






(** The two success messages of [delete_dataset]. *)
Definition deleted_message (name details : str) : value :=
  VStr (quoted "Dataset " name " successfully deleted. Details: " ++ details).

Definition removed_message (name details : str) : value :=
  VStr (quoted "Dataset " name " removed. Status: " ++ details).

(** [meta.get("source") == doc_id]: the chunk's source is the document. *)
Definition source_matches (doc_id : str) (c : Chunk) : bool :=
  py_eq (dict_get (chunk_metadata c) "source") (VStr doc_id).

(** The chunk is picked by [delete_document_from_dataset]: its source, file
    or filename is the document. *)
Definition chunk_matches (doc_id : str) (c : Chunk) : bool :=
  names_document doc_id (chunk_metadata c).

(** The count [get_datasets] reports for a collection it could scan: the
    counter of the metadata record when there is one, else the number of
    distinct non-empty sources. *)
Definition reported_count (w : World) (name : str) (coll : list Chunk) : value :=
  match default ∅ (dataset_metadata w !! name) !! py "document_count" with
  | Some stored => stored
  | None => VInt (Z.of_nat (size (unique_sources (chunk_metadata <$> coll))))
  end.

End Outcomes.

(** ** Example inputs *)

Module Examples.

Import Store.

(** [str.isspace] on the ASCII range. *)
Definition ascii_isspace (c : char) : bool :=
  ((c =? 32) || ((9 <=? c) && (c <=? 13)))%N.

(** A file no extractor can read: both [partition_pdf] calls raise, PyPDF2
    fails on the second page after a blank first one, and the OCR import
    fails. *)
Definition broken_pdf : Extract.pdf_file :=
  {| Extract.partition_hi_res := Raise TypeError;
     Extract.partition_plain := Raise BackendError;
     Extract.pypdf_pages := Ok [Ok (Some (py "  ")); Raise BackendError];
     Extract.ocr_images := Raise ImportError |}.

Definition long_text : str :=
  py "Article 1. Restrictive measures shall apply to the persons listed in Annex I.".

Definition reg_chunk (id : string) (source : string) (page : Z) : Chunk :=
  {| chunk_id := py id;
     chunk_document := long_text;
     chunk_metadata :=
       list_to_map [(py "source", VStr (py source)); (py "page", VInt page)] |}.

(** A store with one dataset ["acts"] of two chunks from one document, and
    its metadata record. *)
Definition acts_chunks : list Chunk :=
  [reg_chunk "reg1.pdf_0_0" "reg1.pdf" 1; reg_chunk "reg1.pdf_0_1" "reg1.pdf" 2].

Definition acts_world : World :=
  {| chroma := {[py "acts" := acts_chunks]};
     undeletable := ∅;
     unreadable := ∅;
     dataset_metadata :=
       {[py "acts" := {[py "description" := VStr (py "Council acts")]}]};
     metadata_writable := true |}.



(** A store whose dataset ["acts"] exists but holds no chunk. *)
Definition empty_acts_world : World :=
  {| chroma := {[py "acts" := []]};
     undeletable := ∅;
     unreadable := ∅;
     dataset_metadata := ∅;
     metadata_writable := true |}.

(** A store whose dataset ["scans"] holds one chunk that names its document
    under ["file"] and has no ["source"]. *)
Definition scans_world : World :=
  {| chroma :=
       {[py "scans" :=
           [{| chunk_id := py "scan-1";
               chunk_document := long_text;
               chunk_metadata := {[py "file" := VStr (py "a.pdf")]} |}]]};
     undeletable := ∅;
     unreadable := ∅;
     dataset_metadata := ∅;
     metadata_writable := true |}.

(** An empty store. *)
Definition empty_world : World :=
  {| chroma := ∅;
     undeletable := ∅;
     unreadable := ∅;
     dataset_metadata := ∅;
     metadata_writable := true |}.

(** An upload of two files into a new dataset ["acts"]: a PDF with one
    paragraph of text, found by the first extractor (PyPDF2 then fails), and
    a text file that holds only a short note. *)
Definition one_page_pdf : Extract.pdf_file :=
  {| Extract.partition_hi_res := Ok [Some long_text];
     Extract.partition_plain := Raise BackendError;
     Extract.pypdf_pages := Raise BackendError;
     Extract.ocr_images := Raise ImportError |}.

Definition two_file_upload : Ingest.upload_form :=
  {| Ingest.form_files :=
       Some [{| Ingest.file_name := py "reg1.pdf";
                Ingest.file_pdf := one_page_pdf;
                Ingest.file_text := Raise IOError |};
             {| Ingest.file_name := py "notes.txt";
                Ingest.file_pdf := broken_pdf;
                Ingest.file_text := Ok (py "see annex") |}];
     Ingest.form_dataset_name := Some (py "acts");
     Ingest.form_description := Some (py "Council acts");
     Ingest.form_author := None;
     Ingest.form_topic := None;
     Ingest.form_linkedin := None;
     Ingest.form_custom_instructions := None |}.

(** The store after that upload. *)
Definition uploaded_world : World :=
  (Ingest.upload_documents Sanitize.ascii_isalnum ascii_isspace true
     (fun filename => filename) 1700000000 (py "2026-01-01T00:00:00")
     empty_world two_file_upload).2.

(** A chat bound to the dataset ["acts"], and a question. *)
Definition acts_chat : Chat.stored_chat :=
  {| Chat.chat_dataset := Some (py "acts");
     Chat.chat_messages := [] |}.

Definition question : str := py "Who is listed in Annex I?".

Definition acts_request : Chat.chat_request :=
  {| Chat.req_message := Some question;
     Chat.req_dataset := Some (py "acts");
     Chat.req_history := [] |}.

(** The call [add_message] makes for that question. *)
Definition five_results_call : Chat.pipeline_call :=
  {| Chat.call_dataset_name := py "acts";
     Chat.call_query := question;
     Chat.call_n_results := 5;
     Chat.call_use_hybrid_search := true;
     Chat.call_use_reranking := true |}.

(** A pipeline whose index is down: every query raises. *)
Definition failing_pipeline
  : World -> str -> str -> nat -> bool -> bool -> result Chat.query_results :=
  fun _ _ _ _ _ _ => Raise BackendError.

Definition defaults : list Datasets.default_dataset :=
  [{| Datasets.dd_name := py "EU-Sanctions";
      Datasets.dd_fields :=
        {[py "description" := VStr (py "EU sanctions regulations")]} |}].

End Examples.

(** ** Dataset management ([create_dataset], [update_dataset_metadata_route],
       [list_dataset_documents], [check_dataset_name]) *)

Module Manage.

Import Store Datasets.

Section WithConfig.

Variable isalnum : char -> bool.
Variable isspace : char -> bool.
Variable DEFAULT_DATASETS : list default_dataset.

(** *** [POST /api/datasets] *)

(** The answer of [create_dataset]: the flat fields of the body and, on
    success, the nested ["dataset"] object. *)
Record created : Type := {
  created_status : nat;
  created_body : dict;
  created_dataset : option dict
}.


(** [data.get(key, '')] *)
Definition field (data : dict) (key : string) : value :=
  dict_get_default data key (VStr []).


(** *** [PUT /api/datasets/<dataset_name>] *)

(** The first [try]: whether the collection exists and can be scanned, and
    the number of distinct sources found. *)
Definition scan_collection (w : World) (dataset_name : str) : bool * nat :=
  match get_collection w dataset_name with
  | Raise _ => (false, 0)
  | Ok _ =>
      match collection_get w dataset_name with
      | Raise _ => (false, 0)
      | Ok results => (true, size (unique_sources results.2))
      end
  end.

(** [d.pop(key, None)] *)
Definition dict_pop (d : dict) (key : string) : dict :=
  delete (py key) d.

(** The assignments to [current_meta]. *)
Definition updated_record (now : str) (data_to_update current_meta : dict) : dict :=
  let current_meta :=
    <[py "description" :=
        dict_get_default data_to_update "description"
          (dict_get_default current_meta "description" (VStr []))]> current_meta in
  let current_meta :=
    <[py "author" :=
        dict_get_default data_to_update "author"
          (dict_get_default current_meta "author" (VStr []))]> current_meta in
  let current_meta :=
    <[py "topic" :=
        dict_get_default data_to_update "topic"
          (dict_get_default current_meta "topic" (VStr []))]> current_meta in
  let current_meta := <[py "last_update_date" := VStr now]> current_meta in
  let linkedin_url := dict_get_default data_to_update "linkedin_url" (VStr []) in
  let current_meta :=
    if truthy_value linkedin_url
    then <[py "linkedin_url" := linkedin_url]> current_meta
    else dict_pop current_meta "linkedin_url" in
  let custom_instructions :=
    dict_get_default data_to_update "custom_instructions" (VStr []) in
  if truthy_value custom_instructions
  then <[py "custom_instructions" := custom_instructions]> current_meta
  else dict_pop current_meta "custom_instructions".

(** [created] and [now] are the two readings of [datetime.now().isoformat()];
    [dataset_metadata] is the dict loaded at the start, which the handler
    keeps updating whether or not the file could be written. *)
Definition update_dataset_metadata_route (created now : str) (w : World)
    (dataset_name : str) (data_to_update : option dict) : response * World :=
  match data_to_update with
  | None => (jsonify [(py "error", VStr (py "No data provided for update"))] 400, w)
  | Some data_to_update =>
  if bool_decide (data_to_update = ∅)
  then (jsonify [(py "error", VStr (py "No data provided for update"))] 400, w)
  else
    let dataset_metadata := load_dataset_metadata w in
    let '(exists_in_chroma, doc_count) := scan_collection w dataset_name in
    let missing := bool_decide (dataset_name ∉ dom dataset_metadata) in
    if missing && negb exists_in_chroma
    then (jsonify [(py "error", VStr (py "Dataset not found"))] 404, w)
    else
      let '(dataset_metadata, w) :=
        if missing
        then
          let minimal : dict :=
            list_to_map
              [(py "description", VStr []);
               (py "author", VStr []);
               (py "topic", VStr []);
               (py "linkedin_url", VStr []);
               (py "custom_instructions", VStr []);
               (py "created_at", VStr created);
               (py "last_update_date", VStr created);
               (py "document_count", VInt (Z.of_nat doc_count))] in
          let dataset_metadata := <[dataset_name := minimal]> dataset_metadata in
          (dataset_metadata, save_dataset_metadata w dataset_metadata)
        else (dataset_metadata, w) in
      if existsb (fun d => bool_decide (dd_name d = dataset_name)) DEFAULT_DATASETS
      then (jsonify [(py "error", VStr (py "Default datasets cannot be modified."))]
                    403, w)
      else
        let current_meta := default ∅ (dataset_metadata !! dataset_name) in
        let current_meta := updated_record now data_to_update current_meta in
        let dataset_metadata := <[dataset_name := current_meta]> dataset_metadata in
        (jsonify [(py "success", VBool true);
                  (py "message",
                   VStr (quoted "Dataset " dataset_name " updated successfully."))]
                 200,
         save_dataset_metadata w dataset_metadata)
  end.

(** *** [GET /api/datasets/<dataset_name>/documents] *)

(** [a or b]: the first operand when it is truthy, else the second. *)
Definition py_or (a b : value) : value :=
  if truthy_value a then a else b.

(** [meta.get("source") or meta.get("file") or meta.get("filename")] *)
Definition document_name (meta : dict) : value :=
  py_or (py_or (dict_get meta "source") (dict_get meta "file"))
        (dict_get meta "filename").

(** The dict [docs], in insertion order: for each file name the ids listed
    under it.  A name is looked up with Python's [==]. *)
Fixpoint docs_append (docs : list (value * list str)) (filename : value)
    (doc_id : str) : list (value * list str) :=
  match docs with
  | [] => [(filename, [doc_id])]
  | (name, ids) :: rest =>
      if py_eq name filename then (name, ids ++ [doc_id]) :: rest
      else (name, ids) :: docs_append rest filename doc_id
  end.

Definition docs_step (docs : list (value * list str)) (entry : dict * str)
  : list (value * list str) :=
  let filename := document_name entry.1 in
  if truthy_value filename then docs_append docs filename entry.2 else docs.

Definition collect_docs (results : list str * list dict)
  : list (value * list str) :=
  foldl docs_step [] (zip results.2 results.1).

(** What the route answers, always with status 200: the documents, the
    metadatas for debugging when there is no document, or the empty list
    when anything raised. *)
Inductive listing : Type :=
  | Documents (docs : list (value * list str))
  | NoDocuments (debug_metadatas : list dict)
  | ListingFailed.

Definition list_dataset_documents (w : World) (dataset_name : str) : listing :=
  match get_collection w dataset_name with
  | Raise _ => ListingFailed
  | Ok _ =>
      match collection_get w dataset_name with
      | Raise _ => ListingFailed
      | Ok results =>
          let doc_list := collect_docs results in
          if bool_decide (doc_list = []) then NoDocuments results.2
          else Documents doc_list
      end
  end.

(** *** [GET /api/datasets/check-name] *)


End WithConfig.

End Manage.

(** ** Stored chats ([get_chat], [update_streaming_message],
       [finalize_message]) *)

Module Messages.

Import Store.

(** A message of a stored chat: its flat fields (["role"], ["content"], ...)
    and its ["metadata"] object when it has one. *)
Record stored_message : Type := {
  msg_fields : dict;
  msg_metadata : option dict
}.

(** A stored chat: its other fields and its ["messages"] when it has the key. *)
Record stored_chat : Type := {
  chat_fields : dict;
  chat_messages : option (list stored_message)
}.

Definition set_field (m : stored_message) (key : string) (v : value)
  : stored_message :=
  {| msg_fields := <[py key := v]> (msg_fields m);
     msg_metadata := msg_metadata m |}.

Definition valid_roles : list value :=
  [VStr (py "user"); VStr (py "assistant"); VStr (py "system")].

(** [msg['role'] not in ['user', 'assistant', 'system']] *)
Definition role_is_valid (role : value) : bool :=
  existsb (py_eq role) valid_roles.

(** [msg.get('metadata', {}).get('isSystem', False)] *)
Definition is_system (m : stored_message) : value :=
  dict_get_default (default ∅ (msg_metadata m)) "isSystem" (VBool false).

(** ["SOURCES:" in msg['content']] needs a container: on a number or a
    boolean it raises [TypeError]. *)
Definition check_format (content : value) : result unit :=
  match content with
  | VStr _ => Ok tt
  | _ => Raise TypeError
  end.

(** The body of [for msg in chat['messages']]: [None] when the message is
    skipped. *)
Definition validate_message (m : stored_message) : result (option stored_message) :=
  match msg_fields m !! py "role", msg_fields m !! py "content" with
  | Some role, Some content =>
      if negb (truthy_value content) then Ok None
      else
        let m := if role_is_valid role then m
                 else set_field m "role" (VStr (py "system")) in
        let role := dict_get (msg_fields m) "role" in
        (_ <- (if py_eq role (VStr (py "assistant"))
                  && negb (truthy_value (is_system m))
               then check_format content else Ok tt) ;;
         Ok (Some m))%py
  | _, _ => Ok None
  end.

Fixpoint validate_messages (messages : list stored_message)
  : result (list stored_message) :=
  match messages with
  | [] => Ok []
  | m :: rest =>
      (v <- validate_message m ;;
       valid_messages <- validate_messages rest ;;
       Ok (match v with Some m' => m' :: valid_messages | None => valid_messages end))%py
  end.

(** [chat] is [chat_storage.get_chat(chat_id)].  The answer is 404, the chat
    with its messages filtered, or the exception that leaves the handler. *)
Inductive chat_answer : Type :=
  | ChatNotFound
  | ChatFound (chat : stored_chat)
  | ChatRaised (e : exn).

Definition get_chat (chat : option stored_chat) : chat_answer :=
  match chat with
  | None => ChatNotFound
  | Some chat =>
      match chat_messages chat with
      | None => ChatFound chat
      | Some messages =>
          match validate_messages messages with
          | Ok valid_messages =>
              ChatFound {| chat_fields := chat_fields chat;
                           chat_messages := Some valid_messages |}
          | Raise e => ChatRaised e
          end
      end
  end.

(** The shared body of [update_streaming_message] ([streaming = True]) and
    [finalize_message] ([streaming = False]): the chat written to the chat
    file, or [None] when nothing is written. *)
Definition write_last_message (streaming : bool) (content : str)
    (chat : option stored_chat) : option stored_chat :=
  match chat with
  | None => None
  | Some chat =>
      match chat_messages chat with
      | None => None
      | Some messages =>
          match last messages with
          | None => None
          | Some last_message =>
              match msg_fields last_message !! py "role" with
              | None => None
              | Some role =>
                  if py_eq role (VStr (py "assistant"))
                  then
                    let last_message :=
                      {| msg_fields :=
                           <[py "content" := VStr content]> (msg_fields last_message);
                         msg_metadata :=
                           Some (<[py "streaming" := VBool streaming]>
                                   (default ∅ (msg_metadata last_message))) |} in
                    Some {| chat_fields := chat_fields chat;
                            chat_messages :=
                              Some (take (length messages - 1) messages
                                    ++ [last_message]) |}
                  else None
              end
          end
      end
  end.

Definition update_streaming_message := write_last_message true.
Definition finalize_message := write_last_message false.

End Messages.

(** ** Where a chunk id comes from *)

Module ChunkIds.

(** The id is one given to a segment of the file of index [i]. *)
Definition from_file (i : nat) (id : str) : Prop :=
  exists f j, id = Ingest.chunk_ident f i j.

End ChunkIds.

(** ** The keys of a metadata record the update route manages *)

Module Records.

Definition managed_keys : list str :=
  [py "description"; py "author"; py "topic"; py "last_update_date";
   py "linkedin_url"; py "custom_instructions"].

End Records.

(** ** Documents of a collection *)

Module Documents.

Import Store Manage.

(** The chunk has a document name: a truthy source, file or filename. *)
Definition named (c : Chunk) : bool :=
  truthy_value (document_name (chunk_metadata c)).

(** The chunk is listed under [name]. *)
Definition listed_under (name : value) (c : Chunk) : bool :=
  named c && py_eq name (document_name (chunk_metadata c)).

(** The names of a listing as dict keys. *)
Definition keys (docs : list (value * list str)) : list value :=
  (fun entry => hash_key entry.1) <$> docs.

(** What [list_dataset_documents] says of a collection: every name once,
    under each name the ids of the chunks of that name in stored order (at
    least one), and every named chunk under some name. *)
Definition lists (docs : list (value * list str)) (coll : list Chunk) : Prop :=
  NoDup (keys docs)
  /\ (forall name ids, (name, ids) ∈ docs ->
        ids = chunk_id <$> filter (fun c => listed_under name c = true) coll
        /\ ids <> [])
  /\ (forall c, c ∈ coll -> named c = true ->
        hash_key (document_name (chunk_metadata c)) ∈ keys docs).

End Documents.

(** ** What the extractors hand over *)

Module Extracted.

Import Extract.

(** The texts METHOD 1 appends: the non-empty texts of the elements, in
    order. *)
Definition element_texts (elements : list (option str)) : list str :=
  omap (fun element =>
          match element with
          | Some t => if truthy t then Some t else None
          | None => None
          end) elements.

(** The exception that ends a page or image loop, if any. *)
Fixpoint first_failure {A} (items : list (result A)) : option exn :=
  match items with
  | [] => None
  | Ok _ :: rest => first_failure rest
  | Raise e :: _ => Some e
  end.

(** Every text of the list is non-empty. *)
Definition all_nonempty (texts : list str) : Prop :=
  Forall (fun t => truthy t = true) texts.

End Extracted.

(** Notions used to state properties of the dataset list, of stored chats
    and of text files. *)

Module Listed.

Import Store.

(** The ["name"] of every entry of a dataset list, in order. *)
Definition listed_names (datasets : list dict) : list value :=
  (fun d => dict_get d "name") <$> datasets.

End Listed.

Module Validated.

Import Store Messages.

(** A message as [get_chat] hands it out: a role among the three known ones
    and a content that is truthy. *)
Definition well_formed (m : stored_message) : Prop :=
  exists role content,
    msg_fields m !! py "role" = Some role
    /\ role_is_valid role = true
    /\ msg_fields m !! py "content" = Some content
    /\ truthy_value content = true.

(** The messages that [get_chat] keeps: those with a ["role"] and a truthy
    ["content"]. *)
Definition kept (m : stored_message) : bool :=
  match msg_fields m !! py "role", msg_fields m !! py "content" with
  | Some _, Some content => truthy_value content
  | _, _ => false
  end.

(** A kept message after validation: only an unknown role is rewritten. *)
Definition repaired (m : stored_message) : stored_message :=
  if role_is_valid (dict_get (msg_fields m) "role") then m
  else set_field m "role" (VStr (py "system")).

End Validated.

Module Blank.

(** A text of white space and line feeds only. *)
Definition blank (isspace : char -> bool) (text : str) : Prop :=
  Forall (fun c => isspace c = true \/ c = 10%N) text.

End Blank.

Module Offending.

Import Store Messages Validated.

(** A kept assistant message, not marked [isSystem], whose content is not a
    string: the test ["SOURCES:" in msg['content']] cannot be made on it. *)
Definition offending (m : stored_message) : bool :=
  kept m
  && py_eq (dict_get (msg_fields m) "role") (VStr (py "assistant"))
  && negb (truthy_value (is_system m))
  && match dict_get (msg_fields m) "content" with
     | VStr _ => false
     | _ => true
     end.

End Offending.

(** ** More sample data *)

Module MoreExamples.

Import Store Examples.

Definition stamp : str := py "2026-01-01T00:00:00".



(** A request that changes the description of ["acts"]. *)
Definition new_description : dict :=
  {[py "description" := VStr (py "Council regulations")]}.

Definition acts_record : dict :=
  {[py "description" := VStr (py "Council acts")]}.

(** A store in which the default dataset has a collection but no record. *)
Definition sanctions_world : World :=
  {| chroma := {[py "EU-Sanctions" := acts_chunks]};
     undeletable := ∅;
     unreadable := ∅;
     dataset_metadata := ∅;
     metadata_writable := true |}.

(** What [list_dataset_documents] lists for ["acts"]. *)
Definition acts_documents : list (value * list str) :=
  [(VStr (py "reg1.pdf"), [py "reg1.pdf_0_0"; py "reg1.pdf_0_1"])].

(** A PDF whose first extractor finds one long paragraph. *)
Definition long_page : str :=
  py "Article 2. All funds and economic resources belonging to, owned, held or controlled by the persons listed in Annex I shall be frozen.".

Definition text_pdf : Extract.pdf_file :=
  {| Extract.partition_hi_res := Ok [Some long_page; None];
     Extract.partition_plain := Raise BackendError;
     Extract.pypdf_pages := Raise BackendError;
     Extract.ocr_images := Raise ImportError |}.

(** A PDF the first extractor cannot read and on which PyPDF2 fails on the
    second page. *)
Definition half_read_pdf : Extract.pdf_file :=
  {| Extract.partition_hi_res := Raise BackendError;
     Extract.partition_plain := Raise BackendError;
     Extract.pypdf_pages := Ok [Ok (Some long_text); Raise BackendError];
     Extract.ocr_images := Ok [Ok long_text] |}.

(** [one_page_pdf] with a working OCR. *)
Definition one_page_pdf_ocr : Extract.pdf_file :=
  {| Extract.partition_hi_res := Extract.partition_hi_res one_page_pdf;
     Extract.partition_plain := Extract.partition_plain one_page_pdf;
     Extract.pypdf_pages := Extract.pypdf_pages one_page_pdf;
     Extract.ocr_images := Ok [Ok long_text] |}.

(** A language model that always answers, and the answer of [chat] on the
    empty dataset with it. *)
Definition fixed_answer : str -> str -> list Chat.message -> result str :=
  fun _ _ _ => Ok (py "answer").

Definition no_documents_answer : Chat.chat_response :=
  {| Chat.resp_response := py "answer";
     Chat.resp_context :=
       py "Source: System (Page/Section: 0)" ++ Chat.newline
       ++ py "Preview: No documents found in the selected dataset. Please upload documents or select a different dataset.";
     Chat.resp_dataset := py "acts";
     Chat.resp_raw_context :=
       py "No documents found in the selected dataset. Please upload documents or select a different dataset." |}.

(** A store whose dataset ["acts"] has custom instructions, a pipeline that
    finds one passage, and what [add_message] prepares with them. *)
Definition guided_world : World :=
  {| chroma := chroma acts_world;
     undeletable := ∅;
     unreadable := ∅;
     dataset_metadata :=
       {[py "acts" := {[py "custom_instructions" := VStr (py "Answer in French.")]}]};
     metadata_writable := true |}.

Definition one_passage_pipeline
  : World -> str -> str -> nat -> bool -> bool -> result Chat.query_results :=
  fun _ _ _ _ _ _ =>
    Ok {| Chat.documents := [[long_text]];
          Chat.metadatas :=
            [[list_to_map [(py "source", VStr (py "reg1.pdf")); (py "page", VInt 1)]]] |}.

Definition guided_prepared : Chat.prepared :=
  {| Chat.prep_dataset := py "acts";
     Chat.prep_context :=
       py "Source: reg1.pdf (Page 1)" ++ Chat.newline ++ long_text
       ++ Chat.newline ++ Chat.newline;
     Chat.prep_system_message := py "Answer in French.";
     Chat.prep_history := [] |}.

(** Stored messages: a question, a message with an unknown role, a message
    without content, an answer being streamed and an answer whose content
    is a number. *)
Definition plain_message (role content : string) : Messages.stored_message :=
  {| Messages.msg_fields :=
       list_to_map [(py "role", VStr (py role)); (py "content", VStr (py content))];
     Messages.msg_metadata := None |}.

Definition streamed_message (content : string) (streaming : bool)
  : Messages.stored_message :=
  {| Messages.msg_fields :=
       list_to_map [(py "role", VStr (py "assistant"));
                    (py "content", VStr (py content))];
     Messages.msg_metadata := Some {[py "streaming" := VBool streaming]} |}.

Definition numeric_message : Messages.stored_message :=
  {| Messages.msg_fields :=
       list_to_map [(py "role", VStr (py "assistant")); (py "content", VInt 5)];
     Messages.msg_metadata := None |}.

Definition chat_of (messages : list Messages.stored_message)
  : Messages.stored_chat :=
  {| Messages.chat_fields := {[py "title" := VStr (py "Annex I")]};
     Messages.chat_messages := Some messages |}.

Definition untidy_messages : list Messages.stored_message :=
  [plain_message "user" "Who is listed?"; plain_message "tool" "lookup";
   plain_message "user" ""].

Definition tidy_messages : list Messages.stored_message :=
  [plain_message "user" "Who is listed?"; plain_message "system" "lookup"].


Definition blank_file : Ingest.file :=
  {| Ingest.file_name := py "blank.txt";
     Ingest.file_pdf := broken_pdf;
     Ingest.file_text := Ok (replicate 60 32%N) |}.

End MoreExamples.

(** * Properties *)

(** ** Sanitised dataset names *)

Section SanitizeFacts.

Import Sanitize.

Variable isalnum : char -> bool.

(** All that is used of [str.isalnum]: ASCII letters and digits satisfy it. *)
Hypothesis isalnum_ascii : forall c, ascii_isalnum c = true -> isalnum c = true.

Lemma charset_ok_lstrip p s : charset_ok isalnum s -> charset_ok isalnum (lstrip p s).
Proof.
  unfold charset_ok. induction s as [|c s IH]; simpl; intros H; [done|].
  destruct (p c); [|done]. apply IH. by inversion H.
Qed.

Lemma charset_ok_strip p s : charset_ok isalnum s -> charset_ok isalnum (strip p s).
Proof.
  intros H. unfold strip, rstrip.
  apply Forall_reverse, charset_ok_lstrip, Forall_reverse.
  by apply charset_ok_lstrip.
Qed.

Lemma charset_ok_replace s :
  charset_ok isalnum
    (List.map (fun c => if isalnum c || in_dash_underscore c then c else dash) s).
Proof.
  unfold charset_ok. induction s as [|c s IH]; simpl; constructor; [|done].
  destruct (isalnum c || in_dash_underscore c) eqn:E; [done|].
  apply orb_true_r.
Qed.

Lemma uint_digits_digits u : Forall (fun c => is_digit c = true) (uint_digits u).
Proof. induction u; simpl; constructor; done. Qed.

Lemma uint_digits_last u :
  u <> Decimal.Nil -> exists c, last (uint_digits u) = Some c /\ is_digit c = true.
Proof.
  intros Hu.
  assert (Hne : uint_digits u <> []) by (destruct u; simpl; congruence).
  destruct (last (uint_digits u)) as [c|] eqn:E.
  - exists c. split; [done|].
    apply last_Some_elem_of in E.
    pose proof (uint_digits_digits u) as HF.
    rewrite Forall_forall in HF. by apply HF.
  - by apply last_None in E.
Qed.

Lemma is_digit_isalnum c : is_digit c = true -> isalnum c = true.
Proof. intros H. apply isalnum_ascii. unfold ascii_isalnum. by rewrite H. Qed.

Lemma charset_ok_str_of_int z : charset_ok isalnum (str_of_int z).
Proof.
  unfold str_of_int.
  assert (HD : forall u, charset_ok isalnum (uint_digits u)).
  { intros u. eapply Forall_impl; [apply uint_digits_digits|].
    simpl. intros c Hc. by rewrite (is_digit_isalnum c Hc). }
  destruct (Z.to_int z); [apply HD|].
  constructor; [apply orb_true_r | apply HD].
Qed.

Lemma str_of_int_last z :
  exists c, last (str_of_int z) = Some c /\ isalnum c = true.
Proof.
  assert (Hn : forall u, u <> Decimal.Nil ->
             exists c, last (uint_digits u) = Some c /\ isalnum c = true).
  { intros u Hu. destruct (uint_digits_last u Hu) as (c & Hc & Hd).
    exists c. split; [done | by apply is_digit_isalnum]. }
  unfold str_of_int. destruct z as [|p|p]; simpl.
  - exists 48%N. split; [done | by apply isalnum_ascii].
  - apply Hn, Unsigned.to_uint_nonnil.
  - destruct (Hn (Pos.to_uint p) (Unsigned.to_uint_nonnil p)) as (c & Hc & Ha).
    exists c. split; [|done].
    destruct (uint_digits (Pos.to_uint p)) eqn:E; [done|].
    by rewrite last_cons, Hc.
Qed.

(** The generated name [dataset-<time>]. *)
Lemma generated_name_ok now :
  charset_ok isalnum (py "dataset-" ++ str_of_int now)
  /\ (8 < length (py "dataset-" ++ str_of_int now))%nat.
Proof.
  split.
  - apply Forall_app. split; [|apply charset_ok_str_of_int].
    repeat constructor;
      solve [ by rewrite isalnum_ascii | apply orb_true_r ].
  - rewrite length_app. destruct (str_of_int_last now) as (c & Hc & _).
    destruct (str_of_int now); [done|]. simpl. lia.
Qed.

(** The two repairs at the end of the block. *)
Lemma repair_first c0 s :
  head s = Some c0 -> charset_ok isalnum s ->
  let s' := if negb (isalnum c0) then letter_x :: slice_from_1 s else s in
  charset_ok isalnum s' /\ length s' = length s
  /\ exists c, head s' = Some c /\ isalnum c = true.
Proof.
  intros Hh Hc. destruct s as [|c s]; [done|]. simpl in Hh. simplify_eq.
  destruct (isalnum c0) eqn:E; simpl.
  - split; [done|]. split; [done|]. by exists c0.
  - unfold slice_from_1. simpl. rewrite drop_0.
    split; [|split; [done|]].
    + constructor; [by rewrite isalnum_ascii | by inversion Hc].
    + exists letter_x. split; [done | by apply isalnum_ascii].
Qed.

Lemma repair_last c1 s :
  last s = Some c1 -> charset_ok isalnum s -> (2 <= length s)%nat ->
  let s' := if negb (isalnum c1) then slice_to_last s ++ [letter_x] else s in
  charset_ok isalnum s' /\ length s' = length s /\ head s' = head s
  /\ exists c, last s' = Some c /\ isalnum c = true.
Proof.
  intros Hl Hc Hlen. destruct (isalnum c1) eqn:E; simpl.
  - repeat split; try done. by exists c1.
  - unfold slice_to_last. repeat split.
    + apply Forall_app. split; [by apply Forall_take|].
      constructor; [by rewrite isalnum_ascii | constructor].
    + rewrite length_app, length_take. simpl. lia.
    + destruct s as [|a [|b s]]; simpl in *; try lia.
      by replace (length s + 1 - 0)%nat with (S (length s)) by lia.
    + exists letter_x. split; [apply last_snoc | by apply isalnum_ascii].
Qed.

(** C6: for every input name the sanitising block of [create_dataset] and
    [upload_documents] returns, without raising, a name made only of
    alphanumeric characters, ['-'] and ['_'], of length 3 to 60, that starts
    and ends with an alphanumeric character.  [now] is the clock reading
    used for the generated name; its decimal rendering is assumed to fit. *)
Theorem sanitize_name_invariant (now : Z) (dataset_name : str) :
  (length (str_of_int now) <= 52)%nat ->
  exists s, sanitize_name isalnum now dataset_name = Ok s
            /\ charset_ok isalnum s /\ length_ok s /\ ends_ok isalnum s.
Proof.
  intros Hnow. unfold sanitize_name.
  set (s1 := List.map _ dataset_name).
  set (s2 := strip in_dash_underscore s1).
  set (s3 := if (60 <? length s2)%nat then take 60 s2 else s2).
  set (s4 := if (length s3 <? 3)%nat then py "dataset-" ++ str_of_int now else s3).
  assert (H2 : charset_ok isalnum s2)
    by apply charset_ok_strip, charset_ok_replace.
  assert (H3 : charset_ok isalnum s3 /\ (length s3 <= 60)%nat).
  { subst s3. destruct (60 <? length s2)%nat eqn:E.
    - split; [by apply Forall_take|]. rewrite length_take. lia.
    - apply Nat.ltb_ge in E. done. }
  assert (H4 : charset_ok isalnum s4 /\ (3 <= length s4 <= 60)%nat).
  { subst s4. destruct (length s3 <? 3)%nat eqn:E.
    - destruct (generated_name_ok now) as [Hc Hl]. split; [done|].
      rewrite length_app in *. simpl in *. lia.
    - apply Nat.ltb_ge in E. destruct H3. split; [done | lia]. }
  clearbody s4. clear s1 s2 s3 H2 H3. destruct H4 as [Hc Hlen].
  destruct s4 as [|c0 s4']; [simpl in Hlen; lia|].
  cbn [index_first bind].
  assert (Hh : head (c0 :: s4') = Some c0) by done.
  destruct (repair_first c0 _ Hh Hc) as (Hc5 & Hl5 & c & Hh5 & Ha5).
  set (s5 := if negb (isalnum c0) then letter_x :: slice_from_1 (c0 :: s4')
             else c0 :: s4') in *.
  unfold index_last.
  destruct (last s5) as [c1|] eqn:El.
  2:{ apply last_None in El. rewrite El in Hl5. simpl in Hl5. lia. }
  cbn [bind].
  destruct (repair_last c1 s5 El Hc5 ltac:(lia)) as (Hc6 & Hl6 & Hh6 & Hlast).
  eexists. split; [reflexivity|].
  split; [done|]. split; [unfold length_ok; lia|].
  split; [|done]. exists c. by rewrite Hh6.
Qed.

End SanitizeFacts.

(** The invariant on a name that needs every step: blanks and punctuation to
    replace, separators to strip and too few characters left. *)
Lemma sanitize_name_invariant_witness :
  exists s, Sanitize.sanitize_name Sanitize.ascii_isalnum 1700000000 (py "__a! ") = Ok s
            /\ Sanitize.charset_ok Sanitize.ascii_isalnum s
            /\ Sanitize.length_ok s
            /\ Sanitize.ends_ok Sanitize.ascii_isalnum s.
Proof.
  apply (sanitize_name_invariant Sanitize.ascii_isalnum (fun c H => H)).
  vm_compute. lia.
Defined.

(** ** Batches *)

Section BatchingFacts.

Import Batching.


Lemma slice_fmap {A B} (f : A -> B) (l : list A) i j :
  slice (f <$> l) i j = f <$> slice l i j.
Proof. unfold slice. by rewrite fmap_take, fmap_drop. Qed.

(** The first [k] slices of width [s] make up the first [k * s] elements. *)
Lemma concat_first_slices {A} (l : list A) (s k : nat) :
  concat ((fun i => slice l i (i + s)) <$> ((fun k => k * s) <$> seq 0 k))
  = take (k * s) l.
Proof.
  induction k as [|k IH]; [done|].
  rewrite seq_S, !fmap_app, concat_app, IH. simpl.
  rewrite app_nil_r. unfold slice.
  replace (k * s + s - k * s) with s by lia.
  rewrite take_take_drop. f_equal. lia.
Qed.

Lemma range_covers n : n <= (n + BATCH - 1) / BATCH * BATCH.
Proof.
  unfold BATCH.
  pose proof (Nat.div_mod_eq (n + 100 - 1) 100).
  pose proof (Nat.mod_upper_bound (n + 100 - 1) 100). lia.
Qed.


Lemma concat_slices {A} (l : list A) n :
  length l <= n ->
  concat ((fun i => slice l i (i + BATCH)) <$> py_range n BATCH) = l.
Proof.
  intros Hn. unfold py_range.
  change (List.map ?f ?l) with (f <$> l).
  rewrite concat_first_slices. apply take_ge.
  pose proof (range_covers n). lia.
Qed.

End BatchingFacts.

(** ** Ingestion *)

Section IngestFacts.

Import Store Ingest Batching.

Lemma zip_chunks_fmap (l : list Chunk) :
  zip_chunks (chunk_document <$> l) (chunk_metadata <$> l) (chunk_id <$> l) = l.
Proof.
  induction l as [|[i d m] l IH]; [done|].
  rewrite !fmap_cons. cbn [zip_chunks]. by rewrite IH.
Qed.

Lemma chroma_collection_add w name documents metadatas ids name' :
  default [] (chroma (collection_add w name documents metadatas ids) !! name')
  = if decide (name' = name)
    then default [] (chroma w !! name) ++ zip_chunks documents metadatas ids
    else default [] (chroma w !! name').
Proof.
  unfold collection_add. simpl. case_decide as E.
  - subst. by rewrite lookup_insert_eq.
  - by rewrite lookup_insert_ne.
Qed.

Lemma chroma_foldl_add (bs : list (list str * list dict * list str)) w name name' :
  default []
    (chroma (foldl (fun w b => collection_add w name b.1.1 b.1.2 b.2) w bs)
       !! name')
  = if decide (name' = name)
    then default [] (chroma w !! name) ++ concat (batch_records <$> bs)
    else default [] (chroma w !! name').
Proof.
  revert w. induction bs as [|b bs IH]; intros w; simpl.
  - case_decide; [subst; by rewrite app_nil_r | done].
  - rewrite IH. case_decide as E; [|by rewrite chroma_collection_add, decide_False].
    subst. rewrite chroma_collection_add, decide_True by done.
    by rewrite <- app_assoc.
Qed.

Lemma batches_records (chunks : list Chunk) :
  batch_records
    <$> batches (chunk_document <$> chunks) (chunk_metadata <$> chunks)
                (chunk_id <$> chunks)
  = (fun i => slice chunks i (i + BATCH)) <$> py_range (length chunks) BATCH.
Proof.
  unfold batches. change (List.map ?f ?l) with (f <$> l).
  rewrite <- list_fmap_compose, length_fmap.
  apply list_fmap_ext. intros _ i _. unfold batch_records. simpl.
  rewrite !slice_fmap. apply zip_chunks_fmap.
Qed.

(** What the batch loop leaves in the store. *)
Lemma add_in_batches_collection w name chunks name' :
  default [] (chroma (add_in_batches w name chunks) !! name')
  = if decide (name' = name)
    then default [] (chroma w !! name) ++ chunks
    else default [] (chroma w !! name').
Proof.
  unfold add_in_batches. rewrite chroma_foldl_add.
  case_decide; [|done].
  by rewrite batches_records, concat_slices.
Qed.


(** *** The length threshold *)

Lemma Forall_concat_imap {A B} (P : B -> Prop) (f : nat -> A -> list B) l :
  (forall i x, Forall P (f i x)) -> Forall P (concat (imap f l)).
Proof.
  revert f. induction l as [|x l IH]; intros f Hf; simpl; [done|].
  apply Forall_app. split; [apply Hf | apply IH; intros; apply Hf].
Qed.

Lemma only_long_same w w' :
  (forall name, default [] (chroma w' !! name) = default [] (chroma w !! name)) ->
  only_long_added w w'.
Proof. intros H name c Hc. left. by rewrite <- H. Qed.

Lemma only_long_trans w1 w2 w3 :
  only_long_added w1 w2 -> only_long_added w2 w3 -> only_long_added w1 w3.
Proof.
  intros H12 H23 name c Hc.
  destruct (H23 name c Hc) as [H|H]; [by apply H12 | by right].
Qed.

Lemma only_long_add_in_batches w name chunks :
  Forall long_enough chunks -> only_long_added w (add_in_batches w name chunks).
Proof.
  intros HF name' c. rewrite add_in_batches_collection.
  case_decide as E; [subst|by left].
  rewrite elem_of_app. intros [H|H]; [by left|right].
  rewrite Forall_forall in HF. by apply HF.
Qed.

Lemma only_long_get_or_create w name :
  only_long_added w (get_or_create_collection w name).
Proof.
  apply only_long_same. intros name'. unfold get_or_create_collection.
  destruct (chroma w !! name) eqn:E; [done|].
  unfold create_collection. simpl.
  destruct (decide (name' = name)) as [->|Hne].
  - by rewrite lookup_insert_eq, E.
  - by rewrite lookup_insert_ne.
Qed.

Lemma only_long_save w md : only_long_added w (save_dataset_metadata w md).
Proof.
  apply only_long_same. intros name. unfold save_dataset_metadata.
  by destruct (metadata_writable w).
Qed.

Section Gathering.

Variable isalnum : char -> bool.
Variable isspace : char -> bool.
Variable PYTESSERACT_AVAILABLE : bool.
Variable secure_filename : str -> str.
Variable DOCUMENTS_DIR : str.

Lemma pdf_chunks_long doc_file i page texts :
  Forall long_enough (pdf_chunks doc_file i page texts).
Proof.
  apply Forall_concat_imap. intros j text.
  destruct (Extract.truthy text && (50 <? length text)) eqn:E; [|done].
  apply andb_true_iff in E as [_ E]. apply Nat.ltb_lt in E.
  by repeat constructor.
Qed.

Lemma txt_chunks_long doc_file i meta chunks :
  Forall long_enough (txt_chunks doc_file i meta chunks).
Proof.
  apply Forall_concat_imap. intros j chunk.
  destruct (50 <? length chunk) eqn:E; [|done].
  apply Nat.ltb_lt in E. by repeat constructor.
Qed.

Lemma process_file_long i f :
  Forall long_enough (process_file isspace PYTESSERACT_AVAILABLE i f).
Proof.
  unfold process_file.
  destruct (endswith (file_name f) ".pdf").
  { destruct (extract _ _ f); [apply pdf_chunks_long | done]. }
  destruct (endswith (file_name f) ".txt"); [|done].
  destruct (file_text f) as [text|]; [|done].
  apply Forall_app. split; [apply txt_chunks_long|].
  destruct (bool_decide _ && (50 <? length text)) eqn:E; [|done].
  apply andb_true_iff in E as [_ E]. apply Nat.ltb_lt in E.
  by repeat constructor.
Qed.

Lemma sample_text_long : 50 < length sample_text.
Proof. vm_compute. lia. Qed.

Lemma process_gather_long listing :
  Forall long_enough (process_gather isspace PYTESSERACT_AVAILABLE listing).2.
Proof.
  unfold process_gather. cbn [snd]. apply Forall_app. split.
  - case_bool_decide; [|done].
    constructor; [apply sample_text_long | constructor].
  - apply Forall_concat_imap. intros. apply process_file_long.
Qed.

Lemma upload_file_long i f :
  Forall long_enough (upload_file isspace PYTESSERACT_AVAILABLE secure_filename i f).
Proof.
  unfold upload_file.
  destruct (Extract.truthy (file_name f) && allowed_file (file_name f)); [|done].
  destruct (endswith _ ".pdf").
  { destruct (extract _ _ f); [apply pdf_chunks_long | done]. }
  destruct (endswith _ ".txt"); [|done].
  destruct (file_text f); [apply txt_chunks_long | done].
Qed.

Lemma append_file_long disk i doc_file :
  Forall long_enough (append_file isspace PYTESSERACT_AVAILABLE disk i doc_file).
Proof.
  unfold append_file. destruct (disk !! doc_file) as [f|]; [|done].
  destruct (endswith _ ".pdf").
  { destruct (extract _ _ f); [apply pdf_chunks_long | done]. }
  destruct (endswith _ ".txt"); [|done].
  destruct (file_text f); [apply txt_chunks_long | done].
Qed.

Lemma process_documents_only_long w dir name description :
  only_long_added w
    (process_documents isspace PYTESSERACT_AVAILABLE DOCUMENTS_DIR
       w dir name description).2.
Proof.
  unfold process_documents.
  set (n := default (py "EU-Sanctions") name).
  destruct dir as [listing|]; [|apply only_long_get_or_create].
  pose proof (process_gather_long listing) as HF.
  destruct (process_gather _ _ listing) as [doc_files chunks].
  cbn [snd] in *.
  eapply only_long_trans; [apply only_long_get_or_create|].
  eapply only_long_trans; [by apply only_long_add_in_batches|].
  destruct (Extract.truthy _); [apply only_long_save | by apply only_long_same].
Qed.

Lemma upload_documents_only_long time now w form :
  only_long_added w
    (upload_documents isalnum isspace PYTESSERACT_AVAILABLE secure_filename
       time now w form).2.
Proof.
  unfold upload_documents.
  destruct (form_files form) as [files|]; [|by apply only_long_same].
  destruct (Sanitize.sanitize_name _ _ _) as [dataset_name|];
    [|by apply only_long_same].
  destruct (get_collection w dataset_name) eqn:E; [by apply only_long_same|].
  simpl.
  eapply only_long_trans; [|apply only_long_save].
  eapply only_long_trans.
  2:{ apply only_long_add_in_batches, Forall_concat_imap.
      intros. apply upload_file_long. }
  apply only_long_same. intros name. unfold create_collection. simpl.
  unfold get_collection in E.
  destruct (chroma w !! dataset_name) eqn:E'; [done|].
  destruct (decide (name = dataset_name)) as [->|Hne].
  - by rewrite lookup_insert_eq, E'.
  - by rewrite lookup_insert_ne.
Qed.

Lemma upload_documents_to_dataset_only_long now w name uploaded :
  only_long_added w
    (upload_documents_to_dataset isspace PYTESSERACT_AVAILABLE secure_filename
       now w name uploaded).2.
Proof.
  unfold upload_documents_to_dataset.
  destruct uploaded as [uploaded_files|]; [|by apply only_long_same].
  destruct (save_uploads _ uploaded_files) as [saved_files disk].
  case_bool_decide; [by apply only_long_same|].
  assert (Hadd : only_long_added w
            (add_in_batches (get_or_create_collection w name) name
               (concat (imap (append_file isspace PYTESSERACT_AVAILABLE disk)
                             saved_files)))).
  { eapply only_long_trans; [apply only_long_get_or_create|].
    apply only_long_add_in_batches, Forall_concat_imap.
    intros. apply append_file_long. }
  case_bool_decide; [|done].
  destruct (collection_get _ name); simpl; [|done].
  eapply only_long_trans; [exact Hadd | apply only_long_save].
Qed.

(** C5: in each of the three ingestion routes a text segment of at most 50
    characters is dropped before the batch loop: every record a request
    leaves in any collection either was there before or holds a text of more
    than 50 characters, so no short segment is ever stored. *)
Theorem short_segments_never_stored :
  (forall w dir name description,
      only_long_added w
        (process_documents isspace PYTESSERACT_AVAILABLE DOCUMENTS_DIR
           w dir name description).2)
  /\ (forall time now w form,
      only_long_added w
        (upload_documents isalnum isspace PYTESSERACT_AVAILABLE secure_filename
           time now w form).2)
  /\ (forall now w name uploaded,
      only_long_added w
        (upload_documents_to_dataset isspace PYTESSERACT_AVAILABLE
           secure_filename now w name uploaded).2).
Proof.
  split; [|split].
  - apply process_documents_only_long.
  - apply upload_documents_only_long.
  - apply upload_documents_to_dataset_only_long.
Qed.

End Gathering.

End IngestFacts.

(** ** Text extraction *)

Section ExtractFacts.

Import Extract.

Variable isspace : char -> bool.
Variable PYTESSERACT_AVAILABLE : bool.

(** A guarded method never raises, whatever its body does. *)
Lemma try_print_ok (body : M unit) (s : locals) :
  try_print body s = (Ok tt, (body s).2).
Proof. unfold try_print. by destruct (body s) as [[[]|e] s']. Qed.

Lemma collect_elements_none elements s :
  existsb truthy_opt elements = false ->
  collect_elements elements s = (Ok tt, s).
Proof.
  induction elements as [|[t|] elements IH]; simpl; intros H; [done| |by apply IH].
  apply orb_false_iff in H as [Ht H]. rewrite Ht. by apply IH.
Qed.



Lemma method1_none f s :
  method1_finds_text f = false -> method1 f s = (Ok tt, s).
Proof.
  unfold method1_finds_text, method1. intros H.
  rewrite try_print_ok. f_equal. unfold mbind, lift.
  destruct (partition f) as [elements|e]; [|done].
  by rewrite collect_elements_none.
Qed.





End ExtractFacts.


(** ** Deleting a dataset *)

Section DeleteDatasetFacts.

Import Store Datasets Outcomes.

Variable DEFAULT_DATASETS : list default_dataset.

Lemma py_success_ne_message : py "success" <> py "message".
Proof. vm_compute. congruence. Qed.

Lemma jsonify_success_message v m code :
  status (jsonify [(py "success", v); (py "message", m)] code) = code
  /\ body (jsonify [(py "success", v); (py "message", m)] code) !! py "success"
     = Some v
  /\ body (jsonify [(py "success", v); (py "message", m)] code) !! py "message"
     = Some m.
Proof.
  unfold jsonify. cbn [status body list_to_map foldr fst snd].
  split; [done|]. split.
  - apply lookup_insert_eq.
  - rewrite lookup_insert_ne by apply py_success_ne_message.
    apply lookup_insert_eq.
Qed.


(** C10: a deletion request that names a default dataset is answered with
    the error response (status 400) at once; the store, that is the
    collections and the metadata records, is left as it was. *)
Theorem delete_dataset_default_rejected (w : World) (dataset_name : str) :
  dataset_name ∈ dd_name <$> DEFAULT_DATASETS ->
  delete_dataset DEFAULT_DATASETS w dataset_name
  = (jsonify [(py "error", VStr (py "Cannot delete default dataset"))] 400, w).
Proof. intros H. unfold delete_dataset. by rewrite bool_decide_true. Qed.

(** The deletion of a dataset that is not a default one. *)
Lemma delete_dataset_custom (w : World) (dataset_name : str) :
  dataset_name ∉ dd_name <$> DEFAULT_DATASETS ->
  let r := (delete_dataset DEFAULT_DATASETS w dataset_name).1 in
  let w' := (delete_dataset DEFAULT_DATASETS w dataset_name).2 in
  reported_as_success r
  /\ (if bool_decide (is_Some (chroma w !! dataset_name)
                      /\ dataset_name ∈ undeletable w)
      then chroma w' = chroma w
           /\ exists details, message_of r = Some (removed_message dataset_name details)
      else chroma w' !! dataset_name = None
           /\ exists details, message_of r = Some (deleted_message dataset_name details)).
Proof.
  intros Hd. unfold delete_dataset. rewrite bool_decide_false by done.
  unfold delete_collection, get_collection.
  destruct (chroma w !! dataset_name) as [c|] eqn:Ec.
  - destruct (decide (dataset_name ∈ undeletable w)) as [Hu|Hu].
    + rewrite (bool_decide_true (_ /\ _)) by (split; [by eexists | done]).
      unfold load_dataset_metadata, reported_as_success, message_of.
      case_bool_decide; cbn [andb fst snd];
        match goal with |- context [jsonify [(_, ?v); (_, ?m)] ?code] =>
          destruct (jsonify_success_message v m code) as (-> & -> & ->) end;
        (split; [done|]); (split; [|by eexists]).
      * unfold save_dataset_metadata. by destruct (metadata_writable w).
      * done.
    + rewrite (bool_decide_false (_ /\ _)) by (intros [_ ?]; done).
      unfold load_dataset_metadata, reported_as_success, message_of.
      cbn [dataset_metadata set_chroma].
      case_bool_decide; cbn [andb fst snd];
        match goal with |- context [jsonify [(_, ?v); (_, ?m)] ?code] =>
          destruct (jsonify_success_message v m code) as (-> & -> & ->) end;
        (split; [done|]); (split; [|by eexists]).
      * unfold save_dataset_metadata. cbn [metadata_writable set_chroma].
        destruct (metadata_writable w); cbn [chroma set_chroma set_dataset_metadata];
          apply lookup_delete_eq.
      * cbn [chroma set_chroma]. apply lookup_delete_eq.
  - rewrite (bool_decide_false (_ /\ _)) by (intros [[? ?] _]; done).
    unfold load_dataset_metadata, reported_as_success, message_of.
    case_bool_decide; cbn [andb fst snd];
      match goal with |- context [jsonify [(_, ?v); (_, ?m)] ?code] =>
        destruct (jsonify_success_message v m code) as (-> & -> & ->) end;
      (split; [done|]); (split; [|by eexists]).
    + unfold save_dataset_metadata. by destruct (metadata_writable w).
    + done.
Qed.


End DeleteDatasetFacts.

Lemma delete_dataset_default_rejected_witness :
  Datasets.delete_dataset Examples.defaults Examples.acts_world (py "EU-Sanctions")
  = (Datasets.jsonify [(py "error", Store.VStr (py "Cannot delete default dataset"))] 400,
     Examples.acts_world).
Proof.
  apply (delete_dataset_default_rejected Examples.defaults).
  apply (bool_decide_unpack _). vm_compute. exact I.
Defined.



(** ** Deleting a document *)

Section DeleteDocumentFacts.

Import Store Datasets Outcomes.

Lemma ids_to_delete_collection doc_id (c : list Chunk) :
  ids_to_delete doc_id (chunk_id <$> c, chunk_metadata <$> c)
  = chunk_id <$> filter (fun x => chunk_matches doc_id x = true) c.
Proof.
  unfold ids_to_delete. cbn [fst snd].
  induction c as [|x c IH]; [done|].
  rewrite !fmap_cons. cbn [zip zip_with]. rewrite !filter_cons. cbn [fst].
  fold (chunk_matches doc_id x).
  destruct (decide (chunk_matches doc_id x = true)); rewrite ?fmap_cons; cbn [snd];
    by rewrite <- IH.
Qed.

Lemma filter_nil_Forall {A} (p : A -> bool) (l : list A) :
  filter (fun x => p x = true) l = [] <-> Forall (fun x => p x = false) l.
Proof.
  induction l as [|x l IH]; [done|].
  rewrite filter_cons, Forall_cons.
  destruct (decide (p x = true)) as [E|E].
  - split; [done|]. intros [? _]. congruence.
  - rewrite IH. apply not_true_is_false in E. tauto.
Qed.

Lemma chroma_save_dataset_metadata w md :
  chroma (save_dataset_metadata w md) = chroma w.
Proof. unfold save_dataset_metadata. by destruct (metadata_writable w). Qed.

Lemma chroma_collection_delete w name ids coll :
  chroma w !! name = Some coll ->
  chroma (collection_delete w name ids) !! name
  = Some (filter (fun c => chunk_id c ∉ ids) coll).
Proof.
  intros Hc. unfold collection_delete. cbn [chroma set_chroma].
  by rewrite lookup_insert_eq, Hc.
Qed.

(** C7 (as amended): deleting a document from an existing, readable dataset
    answers 404, and changes nothing, exactly when no chunk names the
    document under ["source"], ["file"] or ["filename"]; otherwise it answers
    200 and the collection keeps exactly the chunks whose id is not the id of
    a chunk naming the document, so no chunk naming it, in particular none
    whose source is the document, is left. *)
Theorem delete_document_not_found_iff (now : str) (w : World)
    (dataset_name doc_id : str) (coll : list Chunk) :
  chroma w !! dataset_name = Some coll ->
  dataset_name ∉ unreadable w ->
  let r := (delete_document_from_dataset now w dataset_name doc_id).1 in
  let w' := (delete_document_from_dataset now w dataset_name doc_id).2 in
  let ids := chunk_id <$> filter (fun c => chunk_matches doc_id c = true) coll in
  (status r = 404 <-> Forall (fun c => chunk_matches doc_id c = false) coll)
  /\ (status r = 404 -> w' = w)
  /\ (status r <> 404 ->
      status r = 200
      /\ chroma w' !! dataset_name = Some (filter (fun c => chunk_id c ∉ ids) coll)
      /\ Forall (fun c => chunk_matches doc_id c = false
                          /\ source_matches doc_id c = false)
                (filter (fun c => chunk_id c ∉ ids) coll)).
Proof.
  intros Hc Hr. cbn zeta.
  unfold delete_document_from_dataset, get_collection, collection_get.
  rewrite Hc, decide_False by done. cbn [default from_option id].
  rewrite ids_to_delete_collection.
  set (ids := chunk_id <$> filter (fun c => chunk_matches doc_id c = true) coll).
  assert (Hnil : ids = [] <-> Forall (fun c => chunk_matches doc_id c = false) coll).
  { unfold ids. rewrite <- filter_nil_Forall. split; [apply fmap_nil_inv|].
    by intros ->. }
  case_bool_decide as Hids.
  { cbn [fst snd status jsonify]. split; [tauto|]. split; [done|]. done. }
  assert (Hleft : Forall (fun c => chunk_matches doc_id c = false
                                   /\ source_matches doc_id c = false)
                         (filter (fun c => chunk_id c ∉ ids) coll)).
  { apply Forall_forall. intros c Hin. apply list_elem_of_filter in Hin as [Hid Hin].
    assert (Hm : chunk_matches doc_id c = false).
    { destruct (chunk_matches doc_id c) eqn:E; [|done]. exfalso. apply Hid.
      unfold ids. apply list_elem_of_fmap. exists c. split; [done|].
      by apply list_elem_of_filter. }
    split; [done|]. unfold chunk_matches, names_document in Hm.
    apply orb_false_iff in Hm as [Hm _]. by apply orb_false_iff in Hm as [Hm _]. }
  pose proof (chroma_collection_delete w dataset_name ids coll Hc) as Hdel.
  unfold load_dataset_metadata.
  replace (dataset_metadata (collection_delete w dataset_name ids))
    with (dataset_metadata w) by done.
  replace (unreadable (collection_delete w dataset_name ids))
    with (unreadable w) by done.
  rewrite decide_False by done.
  destruct (dataset_metadata w !! dataset_name) as [current|];
    cbn [fst snd status jsonify];
    (split; [split; [done | by intros ?%Hnil]|]); (split; [done|]); intros _;
    (split; [done|]); (split; [|done]).
  - by rewrite chroma_save_dataset_metadata.
  - done.
Qed.

End DeleteDocumentFacts.

Lemma delete_document_not_found_iff_witness :
  let coll := Examples.acts_chunks in
  Datasets.status
    (Datasets.delete_document_from_dataset (py "2026-01-01T00:00:00")
       Examples.acts_world (py "acts") (py "reg1.pdf")).1 = 404
  <-> Forall (fun c => Outcomes.chunk_matches (py "reg1.pdf") c = false) coll.
Proof.
  cbn zeta.
  apply (delete_document_not_found_iff (py "2026-01-01T00:00:00")
           Examples.acts_world (py "acts") (py "reg1.pdf")).
  - vm_compute. reflexivity.
  - apply (bool_decide_unpack _). vm_compute. exact I.
Defined.

(** C7 as stated fails: the one chunk of ["scans"] has no ["source"], so zero
    chunks have a source matching ["a.pdf"], yet the request is answered 200
    and the chunk, which names the document under ["file"], is deleted. *)
Lemma delete_document_matches_file_key :
  let out := Datasets.delete_document_from_dataset (py "2026-01-01T00:00:00")
               Examples.scans_world (py "scans") (py "a.pdf") in
  Forall (fun c => Outcomes.source_matches (py "a.pdf") c = false)
         (default [] (Store.chroma Examples.scans_world !! py "scans"))
  /\ Datasets.status out.1 = 200
  /\ Store.chroma out.2 !! py "scans" = Some [].
Proof.
  cbn zeta. split; [|split].
  - apply (bool_decide_unpack _). vm_compute. exact I.
  - vm_compute. reflexivity.
  - vm_compute. reflexivity.
Qed.

(** ** Listing datasets *)

Section GetDatasetsFacts.

Import Store Datasets Outcomes.

Variable DEFAULT_DATASETS : list default_dataset.

Ltac key_ne := let H := fresh in intros H; vm_compute in H; discriminate H.

Ltac dict_lookup :=
  cbn [list_to_map foldr fst snd];
  repeat first [ apply lookup_insert_eq
               | rewrite lookup_insert_ne by key_ne ];
  try apply lookup_empty.

Lemma list_collections_spec w name :
  name ∈ list_collections w <-> is_Some (chroma w !! name).
Proof.
  unfold list_collections. rewrite list_elem_of_fmap. split.
  - intros ([n c] & -> & H). apply elem_of_map_to_list in H. by exists c.
  - intros [c H]. exists (name, c). split; [done|].
    by apply elem_of_map_to_list.
Qed.

(** The entry of a collection that could be scanned. *)
Lemma dataset_entry_scanned w name coll :
  chroma w !! name = Some coll -> name ∉ unreadable w ->
  let e := dataset_entry w (load_dataset_metadata w) name in
  e !! py "name" = Some (VStr name)
  /\ e !! py "is_custom" = Some (VBool true)
  /\ e !! py "document_count" = Some (reported_count w name coll).
Proof.
  intros Hc Hr. cbn zeta.
  unfold dataset_entry, get_collection, collection_get, load_dataset_metadata.
  rewrite Hc, decide_False by done. cbn [bind default from_option id snd].
  split; [|split]; dict_lookup.
Qed.

(** The entry of a collection whose scan raised. *)
Lemma dataset_entry_unscanned w name :
  name ∈ unreadable w ->
  let e := dataset_entry w (load_dataset_metadata w) name in
  e !! py "name" = Some (VStr name)
  /\ e !! py "is_custom" = Some (VBool true)
  /\ e !! py "document_count" = None.
Proof.
  intros Hr. cbn zeta.
  unfold dataset_entry, get_collection, collection_get.
  rewrite decide_True by done.
  destruct (chroma w !! name); cbn [bind]; (split; [|split]); dict_lookup.
Qed.

Lemma add_default_elem all_datasets dataset e :
  e ∈ add_default all_datasets dataset ->
  e ∈ all_datasets \/ e !! py "is_custom" = Some (VBool false).
Proof.
  unfold add_default. destruct (existsb _ _); [by left|].
  rewrite elem_of_app, list_elem_of_singleton. intros [H| ->]; [by left|right].
  apply lookup_insert_eq.
Qed.

Lemma foldl_add_default_elem defaults all_datasets e :
  e ∈ foldl add_default all_datasets defaults ->
  e ∈ all_datasets \/ e !! py "is_custom" = Some (VBool false).
Proof.
  revert all_datasets. induction defaults as [|d ds IH]; intros l H; [by left|].
  simpl in H. apply IH in H as [H|H]; [|by right].
  by apply add_default_elem in H.
Qed.

Lemma foldl_add_default_keeps defaults all_datasets e :
  e ∈ all_datasets -> e ∈ foldl add_default all_datasets defaults.
Proof.
  revert all_datasets. induction defaults as [|d ds IH]; intros l H; [done|].
  simpl. apply IH. unfold add_default. destruct (existsb _ _); [done|].
  apply elem_of_app. by left.
Qed.

(** C3 (as amended): every collection of the store is listed by
    [get_datasets] as a custom dataset, and every custom dataset listed is
    such a collection.  When its chunk metadata could be scanned, the reported
    [document_count] is the counter stored in its metadata record if the
    record has one, and only otherwise the number of distinct non-empty
    [source] values found by scanning all chunk metadata; when the scan
    raised, no [document_count] is reported. *)
Theorem get_datasets_document_count (w : World) :
  (forall name coll,
      chroma w !! name = Some coll ->
      exists e, e ∈ get_datasets DEFAULT_DATASETS w
                /\ e !! py "name" = Some (VStr name)
                /\ e !! py "is_custom" = Some (VBool true)
                /\ e !! py "document_count"
                   = if bool_decide (name ∈ unreadable w) then None
                     else Some (reported_count w name coll))
  /\ (forall e,
        e ∈ get_datasets DEFAULT_DATASETS w ->
        e !! py "is_custom" = Some (VBool true) ->
        exists name coll,
          chroma w !! name = Some coll
          /\ e !! py "name" = Some (VStr name)
          /\ e !! py "document_count"
             = if bool_decide (name ∈ unreadable w) then None
               else Some (reported_count w name coll)).
Proof.
  split.
  - intros name coll Hc.
    exists (dataset_entry w (load_dataset_metadata w) name). split.
    + apply foldl_add_default_keeps, list_elem_of_fmap. exists name.
      split; [done|]. apply list_collections_spec. by exists coll.
    + case_bool_decide as Hr.
      * destruct (dataset_entry_unscanned w name Hr) as (? & ? & ?). done.
      * destruct (dataset_entry_scanned w name coll Hc Hr) as (? & ? & ?). done.
  - intros e He Hcustom. unfold get_datasets in He.
    apply foldl_add_default_elem in He as [He|He]; [|congruence].
    apply list_elem_of_fmap in He as (name & -> & Hn).
    apply list_collections_spec in Hn as [coll Hc].
    exists name, coll. split; [done|].
    case_bool_decide as Hr.
    + destruct (dataset_entry_unscanned w name Hr) as (? & ? & ?). done.
    + destruct (dataset_entry_scanned w name coll Hc Hr) as (? & ? & ?). done.
Qed.

End GetDatasetsFacts.

(** C3 as stated fails.  After an upload of two files of which one holds
    only a short note, the collection has chunks of one source, the metadata
    record says [document_count = 2] (the number of uploaded files), and
    [get_datasets] reports 2. *)
Lemma get_datasets_reports_stored_counter :
  exists e coll,
    Datasets.get_datasets [] Examples.uploaded_world = [e]
    /\ e !! py "name" = Some (Store.VStr (py "acts"))
    /\ Store.chroma Examples.uploaded_world !! py "acts" = Some coll
    /\ size (Store.unique_sources (Store.chunk_metadata <$> coll)) = 1
    /\ e !! py "document_count" = Some (Store.VInt 2).
Proof.
  eexists _, _. split; [vm_compute; reflexivity|].
  split; [vm_compute; reflexivity|].
  split; [vm_compute; reflexivity|].
  split; vm_compute; reflexivity.
Qed.

Lemma get_datasets_document_count_witness :
  exists e, e ∈ Datasets.get_datasets Examples.defaults Examples.acts_world
            /\ e !! py "name" = Some (Store.VStr (py "acts"))
            /\ e !! py "is_custom" = Some (Store.VBool true)
            /\ e !! py "document_count" = Some (Store.VInt 1).
Proof.
  destruct (proj1 (get_datasets_document_count Examples.defaults Examples.acts_world)
              (py "acts") Examples.acts_chunks)
    as (e & Hin & Hname & Hcustom & Hcount).
  - vm_compute. reflexivity.
  - exists e. split; [done|]. split; [done|]. split; [done|].
    rewrite Hcount. vm_compute. reflexivity.
Defined.

(** ** Queries *)

Section ChatFacts.

Import Store Chat.

Variable query_dataset :
  World -> str -> str -> nat -> bool -> bool -> result query_results.
Variable generate_with_rag : str -> str -> list message -> result str.
Variable instructions : str.


(** [chat] on a collection with chunks: one call, for between 1 and 5
    results and never more than there are chunks. *)
Lemma chat_retrieve_bounded w dataset_name user_message :
  count w dataset_name <> 0 ->
  exists n,
    (chat_retrieve query_dataset w dataset_name user_message).2
    = [{| call_dataset_name := dataset_name; call_query := user_message;
          call_n_results := n; call_use_hybrid_search := true;
          call_use_reranking := true |}]
    /\ 1 <= n <= 5 /\ n <= count w dataset_name.
Proof.
  intros H. unfold chat_retrieve.
  destruct (count w dataset_name =? 0) eqn:E; [by apply Nat.eqb_eq in E|].
  eexists. split; [reflexivity|]. lia.
Qed.

(** [add_message] makes the same call whatever the collection holds. *)
Lemma add_message_retrieve_calls w dataset_name user_message :
  (add_message_retrieve query_dataset w dataset_name user_message).2
  = [{| call_dataset_name := dataset_name; call_query := user_message;
        call_n_results := 5; call_use_hybrid_search := true;
        call_use_reranking := true |}].
Proof. done. Qed.

(** C1 at the failing input: the dataset ["acts"] exists and holds no
    chunk.  [chat] answers with the fixed "no documents" result and calls no
    pipeline; [add_message] calls the pipeline, asking for 5 results. *)
Theorem add_message_queries_empty_dataset :
  count Examples.empty_acts_world (py "acts") = 0
  /\ (exists answer,
        chat query_dataset generate_with_rag instructions
             Examples.empty_acts_world Examples.acts_request
        = (Ok answer, Examples.empty_acts_world, [])
        /\ resp_raw_context answer
           = py "No documents found in the selected dataset. Please upload documents or select a different dataset.")
  /\ (exists outcome,
        add_message query_dataset instructions Examples.empty_acts_world
                    (Some Examples.acts_chat) (Some Examples.question)
                    (Some (py "acts"))
        = Some (outcome, [Examples.five_results_call])).
Proof.
  split; [reflexivity|]. split.
  - unfold chat. eexists. split; [reflexivity|]. reflexivity.
  - eexists. reflexivity.
Qed.

(** C2 at the failing input: the dataset ["acts"] holds 2 chunks.  [chat]
    asks the pipeline for 2 results; [add_message] asks for 5. *)
Theorem add_message_requests_more_than_stored :
  count Examples.acts_world (py "acts") = 2
  /\ (chat query_dataset generate_with_rag instructions
            Examples.acts_world Examples.acts_request).2
     = [{| call_dataset_name := py "acts"; call_query := Examples.question;
           call_n_results := 2; call_use_hybrid_search := true;
           call_use_reranking := true |}]
  /\ (exists outcome,
        add_message query_dataset instructions Examples.acts_world
                    (Some Examples.acts_chat) (Some Examples.question)
                    (Some (py "acts"))
        = Some (outcome, [Examples.five_results_call]))
  /\ count Examples.acts_world (py "acts")
     < call_n_results Examples.five_results_call.
Proof.
  split; [reflexivity|]. split; [reflexivity|]. split.
  - eexists. reflexivity.
  - vm_compute. lia.
Qed.

End ChatFacts.

(** With an index that is down, the empty dataset is still answered by
    [chat], while [add_message] raises. *)
Lemma empty_dataset_with_failing_pipeline :
  (exists answer,
      Chat.chat Examples.failing_pipeline (fun _ _ _ => Ok (py "answer")) []
                Examples.empty_acts_world Examples.acts_request
      = (Ok answer, Examples.empty_acts_world, []))
  /\ Chat.add_message Examples.failing_pipeline [] Examples.empty_acts_world
                      (Some Examples.acts_chat) (Some Examples.question)
                      (Some (py "acts"))
     = Some (Raise BackendError, [Examples.five_results_call]).
Proof. split; [eexists|]; reflexivity. Qed.

(** ** File names *)

Section FileNameFacts.

Import Ingest.

Lemma before_first_dot_app (l r : str) :
  46%N ∉ l -> before_first_dot (l ++ 46%N :: r) = l.
Proof.
  induction l as [|c l IH]; intros Hl; simpl.
  - done.
  - destruct (c =? 46)%N eqn:E.
    + apply N.eqb_eq in E. subst. exfalso. apply Hl. by left.
    + f_equal. apply IH. intros H. apply Hl. by right.
Qed.

Lemma before_first_dot_split (s : str) :
  46%N ∈ s ->
  exists rest, s = before_first_dot s ++ 46%N :: rest
               /\ 46%N ∉ before_first_dot s.
Proof.
  induction s as [|c s IH]; intros H; [by apply elem_of_nil in H|].
  simpl. destruct (c =? 46)%N eqn:E.
  - apply N.eqb_eq in E. subst. exists s. split; [done|]. apply not_elem_of_nil.
  - apply N.eqb_neq in E. apply elem_of_cons in H as [H|H]; [congruence|].
    destruct (IH H) as (rest & Hs & Hn). exists rest. split.
    + simpl. by rewrite <- Hs.
    + intros Hc. apply elem_of_cons in Hc as [?|?]; [congruence | done].
Qed.

(** X1: [allowed_file] accepts exactly the names that have a dot and whose part
    after the last dot is, up to the case of ASCII letters, [pdf] or [txt]. *)
Theorem allowed_file_extension (filename : str) :
  allowed_file filename = true
  <-> exists stem ext,
        filename = stem ++ 46%N :: ext
        /\ (46%N ∉ ext)
        /\ (ascii_lower ext = py "pdf" \/ ascii_lower ext = py "txt").
Proof.
  unfold allowed_file. rewrite andb_true_iff, !bool_decide_eq_true.
  rewrite !elem_of_cons, elem_of_nil. split.
  - intros [Hdot [H|[H|[]]]].
    all: assert (Hr : 46%N ∈ reverse filename) by (by apply elem_of_reverse).
    all: destruct (before_first_dot_split _ Hr) as (rest & Hs & Hn).
    all: exists (reverse rest), (after_last_dot filename).
    all: split; [|split; [unfold after_last_dot; by rewrite elem_of_reverse | tauto]].
    all: unfold after_last_dot.
    all: rewrite <- (reverse_involutive filename) at 1.
    all: rewrite Hs at 1.
    all: by rewrite reverse_app, reverse_cons, <- app_assoc.
  - intros (stem & ext & -> & Hn & Hext).
    split; [rewrite elem_of_app, elem_of_cons; tauto|].
    unfold after_last_dot.
    rewrite reverse_app, reverse_cons, <- app_assoc. simpl.
    rewrite before_first_dot_app by (by rewrite elem_of_reverse).
    rewrite reverse_involutive. tauto.
Qed.

End FileNameFacts.

(** ** Chunk ids *)

Section ChunkIdFacts.

Import Store Ingest ChunkIds.

Lemma uint_digits_inj u v : uint_digits u = uint_digits v -> u = v.
Proof.
  revert v. induction u; intros [] H; simpl in H;
    try discriminate H; try reflexivity;
    injection H as H; f_equal; by apply IHu.
Qed.

Lemma str_of_nat_inj (i j : nat) :
  str_of_int (Z.of_nat i) = str_of_int (Z.of_nat j) -> i = j.
Proof.
  intros H. apply Nat2Z.inj.
  rewrite <- (DecimalZ.of_to (Z.of_nat i)), <- (DecimalZ.of_to (Z.of_nat j)).
  f_equal. unfold str_of_int in H.
  destruct (Z.of_nat i) eqn:Ei, (Z.of_nat j) eqn:Ej; try lia; simpl in *;
    f_equal; by apply uint_digits_inj.
Qed.

Lemma str_of_nat_no_underscore (n : nat) : 95%N ∉ str_of_int (Z.of_nat n).
Proof.
  intros H. unfold str_of_int in H.
  assert (Hd : forall u, 95%N ∉ uint_digits u).
  { intros u Hu. pose proof (uint_digits_digits u) as HF.
    rewrite Forall_forall in HF. by apply HF in Hu. }
  destruct (Z.to_int (Z.of_nat n)) as [u|u] eqn:E; [by apply Hd in H|].
  destruct (Z.of_nat n) eqn:En; try lia; discriminate E.
Qed.

(** Two strings split at their last separator agree part by part. *)
Lemma app_sep_inj {A} (x : A) (l1 l2 r1 r2 : list A) :
  x ∉ r1 -> x ∉ r2 -> l1 ++ x :: r1 = l2 ++ x :: r2 -> l1 = l2 /\ r1 = r2.
Proof.
  intros H1 H2. revert l2. induction l1 as [|a l1 IH]; intros [|b l2] H; simpl in H.
  - by injection H.
  - injection H as -> ->. exfalso. apply H1. rewrite elem_of_app, elem_of_cons. tauto.
  - injection H as -> <-. exfalso. apply H2. rewrite elem_of_app, elem_of_cons. tauto.
  - injection H as -> H. destruct (IH _ H) as [-> ->]. done.
Qed.

(** The three parts of a chunk id can be read back from it. *)
Lemma chunk_ident_parts (f f' : str) (i i' j j' : nat) :
  chunk_ident f i j = chunk_ident f' i' j' <-> f = f' /\ i = i' /\ j = j'.
Proof.
  split; [|by intros (-> & -> & ->)].
  unfold chunk_ident. intros H.
  change (py "_") with [95%N] in H. rewrite !app_assoc in H.
  rewrite <- !(app_assoc _ [95%N] (str_of_int (Z.of_nat j))) in H.
  rewrite <- !(app_assoc _ [95%N] (str_of_int (Z.of_nat j'))) in H.
  simpl in H.
  apply app_sep_inj in H as [H Hj]; try apply str_of_nat_no_underscore.
  rewrite <- !app_assoc in H. simpl in H.
  apply app_sep_inj in H as [Hf Hi]; try apply str_of_nat_no_underscore.
  split; [done|]. split; by apply str_of_nat_inj.
Qed.

(** X2: The id [f"{doc_file}_{i}_{j}"] determines the file name, the file index
    and the segment index, whatever characters the file name holds. *)
Theorem chunk_ident_inj (f f' : str) (i i' j j' : nat) :
  chunk_ident f i j = chunk_ident f' i' j' <-> f = f' /\ i = i' /\ j = j'.
Proof. exact (chunk_ident_parts f f' i i' j j'). Qed.

Lemma elem_of_concat_imap {A B} (F : nat -> A -> list B) (l : list A) (b : B) :
  b ∈ concat (imap F l) -> exists i x, b ∈ F i x.
Proof.
  revert F. induction l as [|x l IH]; intros F H; simpl in H.
  - by apply elem_of_nil in H.
  - apply elem_of_app in H as [H|H]; [by exists 0, x|].
    apply IH in H as (i & y & H). by exists (S i), y.
Qed.

(** Lists built position by position have distinct keys when a key tells
    its position. *)
Lemma NoDup_key_concat_imap {A B K} (key : B -> K) (P : nat -> K -> Prop)
    (F : nat -> A -> list B) (l : list A) :
  (forall i x, NoDup (key <$> F i x)) ->
  (forall i x b, b ∈ F i x -> P i (key b)) ->
  (forall i i' k, P i k -> P i' k -> i = i') ->
  NoDup (key <$> concat (imap F l)).
Proof.
  revert F P. induction l as [|x l IH]; intros F P Hnd HP Hinj; simpl.
  - apply NoDup_nil_2.
  - rewrite fmap_app. apply NoDup_app. split; [apply Hnd|]. split.
    + intros k Hk Hk'.
      apply list_elem_of_fmap in Hk as (b & -> & Hb).
      apply list_elem_of_fmap in Hk' as (b' & Hkey & Hb').
      apply elem_of_concat_imap in Hb' as (i & y & Hb').
      pose proof (HP 0 x b Hb) as H0.
      pose proof (HP (S i) y b' Hb') as HS. rewrite <- Hkey in HS.
      by specialize (Hinj _ _ _ H0 HS).
    + apply (IH (F ∘ S) (P ∘ S)).
      * intros. apply Hnd.
      * intros i y b Hb. by apply (HP (S i) y).
      * intros i i' k Hi Hi'. specialize (Hinj _ _ _ Hi Hi'). lia.
Qed.

Section Gathered.

Variable isspace : char -> bool.
Variable PYTESSERACT_AVAILABLE : bool.
Variable secure_filename : str -> str.

Lemma from_file_inj i i' id : from_file i id -> from_file i' id -> i = i'.
Proof.
  intros (f & j & ->) (f' & j' & H). by apply chunk_ident_parts in H as (_ & ? & _).
Qed.

Lemma pdf_chunks_ids doc_file i page texts :
  NoDup (chunk_id <$> pdf_chunks doc_file i page texts)
  /\ forall c, c ∈ pdf_chunks doc_file i page texts -> from_file i (chunk_id c).
Proof.
  split.
  - apply (NoDup_key_concat_imap chunk_id
             (fun j id => id = chunk_ident doc_file i j)).
    + intros j text. destruct (_ && _); [apply NoDup_singleton | apply NoDup_nil_2].
    + intros j text b Hb. destruct (_ && _); [|by apply elem_of_nil in Hb].
      by apply list_elem_of_singleton in Hb as ->.
    + intros j j' id -> H. by apply chunk_ident_parts in H as (_ & _ & ?).
  - intros c Hc. apply elem_of_concat_imap in Hc as (j & text & Hc).
    destruct (_ && _); [|by apply elem_of_nil in Hc].
    apply list_elem_of_singleton in Hc as ->. by exists doc_file, j.
Qed.

Lemma txt_chunks_ids doc_file i meta chunks :
  NoDup (chunk_id <$> txt_chunks doc_file i meta chunks)
  /\ forall c, c ∈ txt_chunks doc_file i meta chunks -> from_file i (chunk_id c).
Proof.
  split.
  - apply (NoDup_key_concat_imap chunk_id
             (fun j id => id = chunk_ident doc_file i j)).
    + intros j text. destruct (_ <? _); [apply NoDup_singleton | apply NoDup_nil_2].
    + intros j text b Hb. destruct (_ <? _); [|by apply elem_of_nil in Hb].
      by apply list_elem_of_singleton in Hb as ->.
    + intros j j' id -> H. by apply chunk_ident_parts in H as (_ & _ & ?).
  - intros c Hc. apply elem_of_concat_imap in Hc as (j & text & Hc).
    destruct (_ <? _); [|by apply elem_of_nil in Hc].
    apply list_elem_of_singleton in Hc as ->. by exists doc_file, j.
Qed.

Lemma nil_ids i :
  NoDup (chunk_id <$> ([] : list Chunk))
  /\ forall c, c ∈ ([] : list Chunk) -> from_file i (chunk_id c).
Proof. split; [apply NoDup_nil_2 | by intros c ?%elem_of_nil]. Qed.

Lemma upload_file_ids i f :
  NoDup (chunk_id <$> upload_file isspace PYTESSERACT_AVAILABLE secure_filename i f)
  /\ forall c, c ∈ upload_file isspace PYTESSERACT_AVAILABLE secure_filename i f ->
               from_file i (chunk_id c).
Proof.
  unfold upload_file.
  destruct (_ && _); [|apply nil_ids].
  destruct (endswith _ ".pdf").
  { destruct (extract _ _ f); [apply pdf_chunks_ids | apply nil_ids]. }
  destruct (endswith _ ".txt"); [|apply nil_ids].
  destruct (file_text f); [apply txt_chunks_ids | apply nil_ids].
Qed.

Lemma append_file_ids disk i doc_file :
  NoDup (chunk_id <$> append_file isspace PYTESSERACT_AVAILABLE disk i doc_file)
  /\ forall c, c ∈ append_file isspace PYTESSERACT_AVAILABLE disk i doc_file ->
               from_file i (chunk_id c).
Proof.
  unfold append_file. destruct (disk !! doc_file) as [f|]; [|apply nil_ids].
  destruct (endswith _ ".pdf").
  { destruct (extract _ _ f); [apply pdf_chunks_ids | apply nil_ids]. }
  destruct (endswith _ ".txt"); [|apply nil_ids].
  destruct (file_text f); [apply txt_chunks_ids | apply nil_ids].
Qed.

Lemma process_file_ids i f :
  NoDup (chunk_id <$> process_file isspace PYTESSERACT_AVAILABLE i f)
  /\ forall c, c ∈ process_file isspace PYTESSERACT_AVAILABLE i f ->
               from_file i (chunk_id c).
Proof.
  unfold process_file.
  destruct (endswith _ ".pdf").
  { destruct (extract _ _ f); [apply pdf_chunks_ids | apply nil_ids]. }
  destruct (endswith _ ".txt"); [|apply nil_ids].
  destruct (file_text f) as [text|]; [|apply nil_ids].
  cbn zeta. case_bool_decide as Hnil; cbn [andb].
  - rewrite Hnil. cbn [txt_chunks imap concat app].
    destruct (50 <? length text); [|apply nil_ids]. split.
    + apply NoDup_singleton.
    + intros c Hc. apply list_elem_of_singleton in Hc as ->. by eexists _, 0.
  - rewrite app_nil_r. apply txt_chunks_ids.
Qed.

(** X3: The chunks gathered by one ingestion request have pairwise distinct
    ids, in each of the three routes. *)
Theorem gathered_ids_distinct :
  (forall listing,
      NoDup (chunk_id <$> (process_gather isspace PYTESSERACT_AVAILABLE listing).2))
  /\ (forall files,
        NoDup (chunk_id <$>
                 concat (imap (upload_file isspace PYTESSERACT_AVAILABLE
                                 secure_filename) files)))
  /\ (forall disk saved_files,
        NoDup (chunk_id <$>
                 concat (imap (append_file isspace PYTESSERACT_AVAILABLE disk)
                              saved_files))).
Proof.
  split; [|split].
  - intros listing. unfold process_gather. cbn [snd].
    case_bool_decide as Hnil.
    + rewrite Hnil. cbn [imap concat app fmap list_fmap]. apply NoDup_singleton.
    + cbn [app]. apply (NoDup_key_concat_imap chunk_id from_file).
      * intros. apply process_file_ids.
      * intros i f c. apply process_file_ids.
      * apply from_file_inj.
  - intros files. apply (NoDup_key_concat_imap chunk_id from_file).
    + intros. apply upload_file_ids.
    + intros i f c. apply upload_file_ids.
    + apply from_file_inj.
  - intros disk saved. apply (NoDup_key_concat_imap chunk_id from_file).
    + intros. apply append_file_ids.
    + intros i f c. apply append_file_ids.
    + apply from_file_inj.
Qed.

End Gathered.

End ChunkIdFacts.

(** ** Creating a dataset by upload *)

Section UploadFacts.

Import Store Ingest.

Variable isalnum : char -> bool.
Variable isspace : char -> bool.
Variable PYTESSERACT_AVAILABLE : bool.
Variable secure_filename : str -> str.







End UploadFacts.

(** ** Creating a dataset *)

Section CreateDatasetFacts.

Import Store Datasets Manage Outcomes.

Variable isalnum : char -> bool.
Variable DEFAULT_DATASETS : list default_dataset.

Ltac key_ne := let H := fresh in intros H; vm_compute in H; discriminate H.

Ltac dict_lookup :=
  cbn [list_to_map foldr fst snd];
  repeat first [ apply lookup_insert_eq
               | rewrite lookup_insert_ne by key_ne ];
  try apply lookup_empty.





End CreateDatasetFacts.

(** ** More on deleting a dataset *)

Section DeleteDatasetMore.

Import Store Datasets Outcomes.

Variable DEFAULT_DATASETS : list default_dataset.

(** What [delete_dataset] can do to the store: drop the collection of that
    name, drop the record of that name, and nothing else. *)
Lemma delete_dataset_store (w : World) (dataset_name : str) :
  let w' := (delete_dataset DEFAULT_DATASETS w dataset_name).2 in
  (chroma w' = chroma w \/ chroma w' = delete dataset_name (chroma w))
  /\ (dataset_metadata w' = dataset_metadata w
      \/ dataset_metadata w' = delete dataset_name (dataset_metadata w))
  /\ undeletable w' = undeletable w
  /\ unreadable w' = unreadable w
  /\ metadata_writable w' = metadata_writable w.
Proof.
  cbn zeta. unfold delete_dataset, delete_collection, get_collection,
    load_dataset_metadata, save_dataset_metadata.
  case_bool_decide; [cbn [snd]; repeat split; by left|].
  destruct (chroma w !! dataset_name);
    [destruct (decide (dataset_name ∈ undeletable w))|];
    cbn [dataset_metadata set_chroma metadata_writable];
    case_bool_decide; cbn [andb snd];
    destruct (metadata_writable w) eqn:Ew;
    cbn [chroma dataset_metadata undeletable unreadable metadata_writable
         set_chroma set_dataset_metadata];
    repeat split; first [done | by left | by right].
Qed.

(** Deleting a dataset never touches another dataset: every other
    collection and every other metadata record is as before, also when the
    request is refused or fails half-way. *)
Lemma delete_dataset_others_untouched (w : World) (dataset_name other : str) :
  other <> dataset_name ->
  let w' := (delete_dataset DEFAULT_DATASETS w dataset_name).2 in
  chroma w' !! other = chroma w !! other
  /\ dataset_metadata w' !! other = dataset_metadata w !! other.
Proof.
  intros Hne. cbn zeta.
  destruct (delete_dataset_store w dataset_name) as ([-> | ->] & [-> | ->] & _);
    rewrite ?lookup_delete_ne by done; done.
Qed.

(** X8: Deleting a dataset that has neither a collection nor a metadata record
    is answered as a full success and changes nothing. *)
Theorem delete_dataset_unknown (w : World) (dataset_name : str) :
  dataset_name ∉ dd_name <$> DEFAULT_DATASETS ->
  chroma w !! dataset_name = None ->
  dataset_metadata w !! dataset_name = None ->
  let out := delete_dataset DEFAULT_DATASETS w dataset_name in
  reported_as_success out.1
  /\ (exists details, message_of out.1 = Some (deleted_message dataset_name details))
  /\ out.2 = w.
Proof.
  intros Hd Hc Hm. cbn zeta.
  destruct (delete_dataset_custom DEFAULT_DATASETS w dataset_name Hd) as [Hs Hmsg].
  rewrite bool_decide_false in Hmsg by (rewrite Hc; intros [[? ?] _]; done).
  split; [done|]. split; [tauto|].
  unfold delete_dataset, delete_collection, get_collection, load_dataset_metadata.
  rewrite bool_decide_false, Hc by done.
  rewrite bool_decide_false by (by apply not_elem_of_dom). done.
Qed.

End DeleteDatasetMore.

(** ** Updating dataset metadata *)

Section UpdateMetadataFacts.

Import Store Datasets Manage.

Variable DEFAULT_DATASETS : list default_dataset.

Ltac key_ne := let H := fresh in intros H; vm_compute in H; discriminate H.

Lemma is_default_spec (dataset_name : str) :
  existsb (fun d => bool_decide (dd_name d = dataset_name)) DEFAULT_DATASETS = true
  <-> dataset_name ∈ dd_name <$> DEFAULT_DATASETS.
Proof.
  rewrite existsb_exists, list_elem_of_fmap. split.
  - intros (d & Hin & Hd). apply bool_decide_eq_true in Hd.
    exists d. split; [done | by apply list_elem_of_In].
  - intros (d & -> & Hin). exists d. split; [by apply list_elem_of_In|].
    by apply bool_decide_eq_true.
Qed.

(** The keys the update route writes or removes. *)
Lemma updated_record_other_keys now data current key :
  key ∉ Records.managed_keys ->
  updated_record now data current !! key = current !! key.
Proof.
  intros Hkey. unfold Records.managed_keys in Hkey.
  rewrite !not_elem_of_cons in Hkey.
  destruct Hkey as (? & ? & ? & ? & ? & ? & _).
  unfold updated_record, dict_pop.
  repeat match goal with
         | |- context [if ?c then _ else _] => destruct c
         end;
    repeat first [ rewrite lookup_insert_ne by congruence
                 | rewrite lookup_delete_ne by congruence ];
    done.
Qed.

Lemma updated_record_written now data current :
  updated_record now data current !! py "last_update_date" = Some (VStr now)
  /\ updated_record now data current !! py "description"
     = Some (dict_get_default data "description"
               (dict_get_default current "description" (VStr [])))
  /\ (truthy_value (dict_get_default data "linkedin_url" (VStr [])) = false ->
      updated_record now data current !! py "linkedin_url" = None)
  /\ (truthy_value (dict_get_default data "custom_instructions" (VStr [])) = false ->
      updated_record now data current !! py "custom_instructions" = None).
Proof.
  unfold updated_record, dict_pop.
  split; [|split; [|split]].
  - repeat match goal with
           | |- context [if ?c then _ else _] => destruct c
           end;
      repeat first [ rewrite lookup_insert_ne by key_ne
                   | rewrite lookup_delete_ne by key_ne ];
      apply lookup_insert_eq.
  - repeat match goal with
           | |- context [if ?c then _ else _] => destruct c
           end;
      repeat first [ rewrite lookup_insert_ne by key_ne
                   | rewrite lookup_delete_ne by key_ne ];
      apply lookup_insert_eq.
  - intros ->.
    destruct (truthy_value (dict_get_default data "custom_instructions" (VStr [])));
      repeat first [ rewrite lookup_insert_ne by key_ne
                   | rewrite lookup_delete_ne by key_ne ];
      apply lookup_delete_eq.
  - intros ->. apply lookup_delete_eq.
Qed.

(** The update route never touches the chunk store, and a request it
    answers with 400 or 404 leaves the metadata file as it was. *)
Lemma update_metadata_keeps_collections (created now : str) (w : World)
    (dataset_name : str) (data : option dict) :
  let out := update_dataset_metadata_route DEFAULT_DATASETS created now w
               dataset_name data in
  chroma out.2 = chroma w
  /\ (status out.1 = 400 \/ status out.1 = 404 -> out.2 = w).
Proof.
  cbn zeta. unfold update_dataset_metadata_route.
  destruct data as [d|]; [|by split].
  case_bool_decide; [by split|].
  destruct (scan_collection w dataset_name) as [exists_in_chroma doc_count].
  destruct (bool_decide (dataset_name ∉ dom (load_dataset_metadata w))
            && negb exists_in_chroma); [by split|].
  destruct (bool_decide (dataset_name ∉ dom (load_dataset_metadata w)));
    destruct (existsb _ DEFAULT_DATASETS);
    cbn [fst snd status jsonify];
    (split; [by rewrite ?chroma_save_dataset_metadata | intros [?|?]; done]).
Qed.

(** X9: Updating a dataset that has a metadata record and is not a default one
    succeeds: the record gets the new update date and the submitted
    description, loses [linkedin_url] and [custom_instructions] when the
    request leaves them out or empty, and keeps every key the route does not
    manage, among them [document_count] and [created_at]; the records of
    other datasets are as before. *)
Theorem update_metadata_record (created now : str) (w : World)
    (dataset_name : str) (d record : dict) :
  d <> ∅ ->
  dataset_metadata w !! dataset_name = Some record ->
  dataset_name ∉ dd_name <$> DEFAULT_DATASETS ->
  metadata_writable w = true ->
  let out := update_dataset_metadata_route DEFAULT_DATASETS created now w
               dataset_name (Some d) in
  let record' := updated_record now d record in
  status out.1 = 200
  /\ dataset_metadata out.2 = <[dataset_name := record']> (dataset_metadata w)
  /\ (forall key, key ∉ Records.managed_keys -> record' !! key = record !! key)
  /\ record' !! py "document_count" = record !! py "document_count"
  /\ record' !! py "created_at" = record !! py "created_at"
  /\ record' !! py "last_update_date" = Some (VStr now)
  /\ record' !! py "description"
     = Some (dict_get_default d "description"
               (dict_get_default record "description" (VStr [])))
  /\ (truthy_value (dict_get_default d "linkedin_url" (VStr [])) = false ->
      record' !! py "linkedin_url" = None)
  /\ (truthy_value (dict_get_default d "custom_instructions" (VStr [])) = false ->
      record' !! py "custom_instructions" = None).
Proof.
  intros Hd Hrec Hdef Hwr. cbn zeta. unfold update_dataset_metadata_route.
  rewrite bool_decide_false by done.
  destruct (scan_collection w dataset_name) as [exists_in_chroma doc_count].
  unfold load_dataset_metadata.
  rewrite (bool_decide_false (dataset_name ∉ _))
    by (intros Hn; apply not_elem_of_dom in Hn; congruence).
  cbn [andb].
  destruct (existsb _ DEFAULT_DATASETS) eqn:E; [by apply is_default_spec in E|].
  rewrite Hrec. cbn [default from_option id fst snd status jsonify].
  unfold save_dataset_metadata. rewrite Hwr. cbn [dataset_metadata set_dataset_metadata].
  split; [done|]. split; [done|].
  split; [apply updated_record_other_keys|].
  split; [|split].
  - apply updated_record_other_keys. unfold Records.managed_keys.
    rewrite !not_elem_of_cons. repeat split; try key_ne. apply not_elem_of_nil.
  - apply updated_record_other_keys. unfold Records.managed_keys.
    rewrite !not_elem_of_cons. repeat split; try key_ne. apply not_elem_of_nil.
  - apply updated_record_written.
Qed.

(** X10: The default-dataset check comes after the automatic creation of a
    missing record: a default dataset that has a readable collection but no
    record is answered 403, and a record with its document count has been
    written all the same. *)
Theorem update_default_writes_record (created now : str) (w : World)
    (dataset_name : str) (d : dict) (coll : list Chunk) :
  d <> ∅ ->
  dataset_name ∈ dd_name <$> DEFAULT_DATASETS ->
  chroma w !! dataset_name = Some coll ->
  dataset_name ∉ unreadable w ->
  dataset_metadata w !! dataset_name = None ->
  metadata_writable w = true ->
  let out := update_dataset_metadata_route DEFAULT_DATASETS created now w
               dataset_name (Some d) in
  status out.1 = 403
  /\ exists record,
       dataset_metadata out.2 !! dataset_name = Some record
       /\ record !! py "created_at" = Some (VStr created)
       /\ record !! py "document_count"
          = Some (VInt (Z.of_nat (size (unique_sources (chunk_metadata <$> coll))))).
Proof.
  intros Hd Hdef Hc Hr Hmd Hwr. cbn zeta. unfold update_dataset_metadata_route.
  rewrite bool_decide_false by done.
  unfold scan_collection, get_collection, collection_get, load_dataset_metadata.
  rewrite Hc, decide_False by done. cbn [default from_option id snd].
  rewrite (bool_decide_true (dataset_name ∉ _)) by (by apply not_elem_of_dom).
  cbn [andb negb].
  apply is_default_spec in Hdef. rewrite Hdef.
  cbn [fst snd status jsonify]. split; [done|].
  unfold save_dataset_metadata. rewrite Hwr.
  cbn [dataset_metadata set_dataset_metadata].
  eexists. split; [apply lookup_insert_eq|].
  cbn [list_to_map foldr fst snd].
  split; repeat (rewrite lookup_insert_ne by key_ne); apply lookup_insert_eq.
Qed.

End UpdateMetadataFacts.

(** ** Listing the documents of a dataset *)

Section ListDocumentsFacts.

Import Store Datasets Manage Documents.

Lemma py_eq_hash a b : py_eq a b = true <-> hash_key a = hash_key b.
Proof. unfold py_eq. apply bool_decide_eq_true. Qed.

Lemma docs_append_keys docs filename doc_id :
  keys (docs_append docs filename doc_id)
  = if decide (hash_key filename ∈ keys docs) then keys docs
    else keys docs ++ [hash_key filename].
Proof.
  induction docs as [|[name ids] docs IH]; cbn [docs_append].
  - rewrite decide_False by apply not_elem_of_nil. done.
  - destruct (py_eq name filename) eqn:E.
    + apply py_eq_hash in E. rewrite decide_True; [done|].
      unfold keys. rewrite fmap_cons. simpl. rewrite E. by left.
    + assert (hash_key name <> hash_key filename)
        by (intros H; apply py_eq_hash in H; congruence).
      unfold keys in *. rewrite !fmap_cons. simpl. rewrite IH.
      destruct (decide (hash_key filename ∈ _)) as [Hin|Hin].
      * rewrite decide_True; [done | by right].
      * rewrite decide_False; [done|].
        intros Hc. apply elem_of_cons in Hc as [?|?]; [congruence | done].
Qed.

Lemma docs_append_elem docs filename doc_id name ids :
  NoDup (keys docs) ->
  (name, ids) ∈ docs_append docs filename doc_id ->
  ((name, ids) ∈ docs /\ hash_key name <> hash_key filename)
  \/ (hash_key name = hash_key filename
      /\ exists ids0, (name, ids0) ∈ docs /\ ids = ids0 ++ [doc_id])
  \/ ((hash_key filename ∉ keys docs) /\ name = filename /\ ids = [doc_id]).
Proof.
  induction docs as [|[name0 ids0] docs IH]; cbn [docs_append]; intros Hnd Hin.
  - apply list_elem_of_singleton in Hin. injection Hin as -> ->.
    right. right. split; [apply not_elem_of_nil | done].
  - unfold keys in Hnd. rewrite fmap_cons in Hnd. cbn [fst] in Hnd.
    apply NoDup_cons in Hnd as [Hfresh Hnd].
    destruct (py_eq name0 filename) eqn:E.
    + apply py_eq_hash in E.
      apply elem_of_cons in Hin as [Hin|Hin].
      * injection Hin as -> ->. right. left. split; [done|].
        exists ids0. split; [by left | done].
      * left. split; [by right|]. intros Hk. apply Hfresh. rewrite E, <- Hk.
        apply list_elem_of_fmap. by exists (name, ids).
    + assert (Hne : hash_key name0 <> hash_key filename)
        by (intros H; apply py_eq_hash in H; congruence).
      apply elem_of_cons in Hin as [Hin|Hin].
      * injection Hin as -> ->. left. split; [by left | done].
      * destruct (IH Hnd Hin) as [[? ?]|[(? & ids1 & ? & ?)|(Hn & ? & ?)]].
        -- left. split; [by right | done].
        -- right. left. split; [done|]. exists ids1. split; [by right | done].
        -- right. right. split; [|done].
           unfold keys. rewrite fmap_cons. simpl.
           intros Hc. apply elem_of_cons in Hc as [?|?]; [congruence | done].
Qed.

Lemma zip_collection (coll : list Chunk) :
  zip (chunk_metadata <$> coll) (chunk_id <$> coll)
  = (fun c => (chunk_metadata c, chunk_id c)) <$> coll.
Proof. induction coll as [|c coll IH]; [done|]. rewrite !fmap_cons. simpl. by rewrite IH. Qed.

Lemma filter_snoc_in {A} (p : A -> bool) (l : list A) (x : A) :
  filter (fun y => p y = true) (l ++ [x])
  = filter (fun y => p y = true) l ++ (if p x then [x] else []).
Proof.
  rewrite filter_app. f_equal. rewrite filter_cons, filter_nil.
  destruct (p x); [by rewrite decide_True | by rewrite decide_False].
Qed.

Lemma listed_under_named name c :
  named c = true ->
  listed_under name c = py_eq name (document_name (chunk_metadata c)).
Proof. intros H. unfold listed_under. by rewrite H. Qed.

Lemma listed_under_unnamed name c : named c = false -> listed_under name c = false.
Proof. intros H. unfold listed_under. by rewrite H. Qed.

(** One more chunk: the listing of the chunks read so far stays right. *)
Lemma docs_step_lists docs pre c :
  lists docs pre ->
  lists (docs_step docs (chunk_metadata c, chunk_id c)) (pre ++ [c]).
Proof.
  intros (Hnd & Hids & Hall). unfold docs_step. cbn [fst snd].
  fold (named c). destruct (named c) eqn:Hn.
  - set (f := document_name (chunk_metadata c)) in *.
    split; [|split].
    + rewrite docs_append_keys. case_decide; [done|].
      apply NoDup_app. split; [done|]. split; [|apply NoDup_singleton].
      intros k Hk Hk'. apply list_elem_of_singleton in Hk'. by subst.
    + intros name ids Hin.
      apply docs_append_elem in Hin as [[Hin Hne]|[(Hk & ids0 & Hin & ->)|(Hk & -> & ->)]];
        [| | |done]; rewrite filter_snoc_in, (listed_under_named _ c Hn); fold f.
      * destruct (py_eq name f) eqn:E; [by apply py_eq_hash in E|].
        rewrite app_nil_r. by apply Hids.
      * rewrite (proj2 (py_eq_hash name f) Hk), fmap_app.
        destruct (Hids _ _ Hin) as [-> _]. split; [done|].
        intros H. by apply app_nil in H as [_ ?].
      * rewrite (proj2 (py_eq_hash f f) eq_refl), fmap_app.
        split; [|done].
        assert (filter (fun c0 => listed_under f c0 = true) pre = []) as ->; [|done].
        apply filter_nil_Forall, Forall_forall. intros c0 Hc0.
        destruct (listed_under f c0) eqn:E; [|done]. exfalso. apply Hk.
        unfold listed_under in E. apply andb_true_iff in E as [En Ee].
        apply py_eq_hash in Ee. rewrite Ee. by apply Hall.
    + intros c0 Hc0 Hn0. rewrite docs_append_keys.
      apply elem_of_app in Hc0 as [Hc0|Hc0].
      * specialize (Hall c0 Hc0 Hn0). case_decide; [done|].
        apply elem_of_app. by left.
      * apply list_elem_of_singleton in Hc0 as ->. fold f.
        case_decide; [done|]. apply elem_of_app. right. by left.
  - split; [done|]. split.
    + intros name ids Hin.
      rewrite filter_snoc_in, (listed_under_unnamed _ c Hn), app_nil_r.
      by apply Hids.
    + intros c0 Hc0 Hn0. apply elem_of_app in Hc0 as [Hc0|Hc0]; [by apply Hall|].
      apply list_elem_of_singleton in Hc0 as ->. congruence.
Qed.

Lemma foldl_docs_step_lists suffix docs pre :
  lists docs pre ->
  lists (foldl docs_step docs
           ((fun c => (chunk_metadata c, chunk_id c)) <$> suffix))
        (pre ++ suffix).
Proof.
  revert docs pre. induction suffix as [|c suffix IH]; intros docs pre H.
  - by rewrite app_nil_r.
  - rewrite fmap_cons. simpl. rewrite (cons_middle c pre suffix), app_assoc.
    by apply IH, docs_step_lists.
Qed.

Lemma collect_docs_lists (coll : list Chunk) :
  lists (collect_docs (chunk_id <$> coll, chunk_metadata <$> coll)) coll.
Proof.
  unfold collect_docs. cbn [fst snd]. rewrite zip_collection.
  apply (foldl_docs_step_lists coll [] []).
  split; [apply NoDup_nil_2|]. split; [by intros ? ? ?%elem_of_nil|].
  by intros ? ?%elem_of_nil.
Qed.

(** The cases of [list_dataset_documents] on a readable collection. *)
Lemma list_dataset_documents_result (w : World) (dataset_name : str)
    (coll : list Chunk) :
  chroma w !! dataset_name = Some coll ->
  dataset_name ∉ unreadable w ->
  (exists docs, list_dataset_documents w dataset_name = Documents docs
                /\ docs <> [] /\ lists docs coll)
  \/ (list_dataset_documents w dataset_name = NoDocuments (chunk_metadata <$> coll)
      /\ Forall (fun c => named c = false) coll).
Proof.
  intros Hc Hr. unfold list_dataset_documents, get_collection, collection_get.
  rewrite Hc, decide_False by done. cbn [default from_option id snd].
  pose proof (collect_docs_lists coll) as Hl.
  case_bool_decide as Hnil.
  - right. split; [done|]. rewrite Hnil in Hl. destruct Hl as (_ & _ & Hall).
    apply Forall_forall. intros c Hin. destruct (named c) eqn:E; [|done].
    specialize (Hall c Hin E). by apply elem_of_nil in Hall.
  - left. by eexists.
Qed.

(** X11: What [list_dataset_documents] answers for a dataset whose collection
    can be read: when some chunk has a document name, a list in which every
    name occurs once, with under each name the ids of all chunks of that
    name in stored order and every named chunk under some name; when no
    chunk has one, the chunk metadata for debugging. *)
Theorem list_dataset_documents_lists (w : World) (dataset_name : str)
    (coll : list Chunk) :
  chroma w !! dataset_name = Some coll ->
  dataset_name ∉ unreadable w ->
  (exists docs, list_dataset_documents w dataset_name = Documents docs
                /\ docs <> [] /\ lists docs coll)
  \/ (list_dataset_documents w dataset_name = NoDocuments (chunk_metadata <$> coll)
      /\ Forall (fun c => named c = false) coll).
Proof. exact (list_dataset_documents_result w dataset_name coll). Qed.

End ListDocumentsFacts.

(** ** Deleting a listed document *)

Section DeleteListedFacts.

Import Store Datasets Manage Documents Outcomes.

(** The store after a deletion that found chunks. *)
Lemma delete_document_done now w dataset_name doc_id coll :
  chroma w !! dataset_name = Some coll ->
  dataset_name ∉ unreadable w ->
  Exists (fun c => chunk_matches doc_id c = true) coll ->
  let out := delete_document_from_dataset now w dataset_name doc_id in
  let ids := chunk_id <$> filter (fun c => chunk_matches doc_id c = true) coll in
  let coll' := filter (fun c => chunk_id c ∉ ids) coll in
  status out.1 = 200
  /\ chroma out.2 = <[dataset_name := coll']> (chroma w)
  /\ unreadable out.2 = unreadable w
  /\ Forall (fun c => chunk_matches doc_id c = false) coll'
  /\ (forall record,
        dataset_metadata w !! dataset_name = Some record ->
        metadata_writable w = true ->
        dataset_metadata out.2
        = <[dataset_name :=
              <[py "last_update_date" := VStr now]>
                (<[py "document_count" :=
                     VInt (Z.of_nat (size (unique_sources (chunk_metadata <$> coll'))))]>
                   record)]> (dataset_metadata w)).
Proof.
  intros Hc Hr Hex. cbn zeta.
  unfold delete_document_from_dataset, get_collection, collection_get.
  rewrite Hc, decide_False by done. cbn [default from_option id].
  rewrite ids_to_delete_collection.
  set (ids := chunk_id <$> filter (fun c => chunk_matches doc_id c = true) coll).
  set (coll' := filter (fun c => chunk_id c ∉ ids) coll).
  assert (Hids : ids <> []).
  { intros Hnil. apply fmap_nil_inv in Hnil. apply filter_nil_Forall in Hnil.
    apply Exists_exists in Hex as (c & Hin & Hm). rewrite Forall_forall in Hnil.
    specialize (Hnil c Hin). congruence. }
  rewrite bool_decide_false by done.
  assert (Hleft : Forall (fun c => chunk_matches doc_id c = false) coll').
  { apply Forall_forall. intros c Hin. apply list_elem_of_filter in Hin as [Hid Hin].
    destruct (chunk_matches doc_id c) eqn:E; [|done]. exfalso. apply Hid.
    unfold ids. apply list_elem_of_fmap. exists c. split; [done|].
    by apply list_elem_of_filter. }
  pose proof (chroma_collection_delete w dataset_name ids coll Hc) as Hdel.
  assert (Hch : chroma (collection_delete w dataset_name ids)
                = <[dataset_name := coll']> (chroma w)).
  { unfold collection_delete. cbn [chroma set_chroma]. by rewrite Hc. }
  unfold load_dataset_metadata.
  replace (dataset_metadata (collection_delete w dataset_name ids))
    with (dataset_metadata w) by done.
  replace (unreadable (collection_delete w dataset_name ids))
    with (unreadable w) by done.
  rewrite decide_False by done. rewrite Hdel. cbn [default from_option id snd].
  destruct (dataset_metadata w !! dataset_name) as [current|] eqn:Em;
    cbn [fst snd status jsonify].
  - split; [done|]. split; [by rewrite chroma_save_dataset_metadata|].
    split; [unfold save_dataset_metadata; by destruct (metadata_writable _)|].
    split; [done|]. intros record [= <-] Hwr.
    unfold save_dataset_metadata.
    replace (metadata_writable (collection_delete w dataset_name ids))
      with (metadata_writable w) by done.
    by rewrite Hwr.
  - split; [done|]. split; [done|]. split; [done|]. split; [done|]. done.
Qed.

(** Python's [==] against a string holds only for that string. *)
Lemma py_eq_str v s : py_eq v (VStr s) = true <-> v = VStr s.
Proof.
  unfold py_eq. rewrite bool_decide_eq_true. split; [|by intros ->].
  destruct v as [| [] | |]; simpl; congruence.
Qed.

(** A chunk listed under a string is one the deletion route picks. *)
Lemma listed_under_matches (f : str) (c : Chunk) :
  listed_under (VStr f) c = true -> chunk_matches f c = true.
Proof.
  unfold listed_under, named, chunk_matches, names_document, document_name.
  intros H. apply andb_true_iff in H as [_ He].
  unfold py_eq in He. apply bool_decide_eq_true in He. cbn [hash_key] in He.
  assert (Hv : forall v, VStr f = hash_key v -> py_eq v (VStr f) = true).
  { intros v Hv. apply py_eq_str. destruct v as [| [] | |]; simpl in Hv; congruence. }
  set (source := dict_get (chunk_metadata c) "source") in *.
  set (file := dict_get (chunk_metadata c) "file") in *.
  set (filename := dict_get (chunk_metadata c) "filename") in *.
  unfold py_or in He.
  destruct (truthy_value source) eqn:Es.
  - rewrite Es in He. by rewrite (Hv _ He).
  - destruct (truthy_value file) eqn:Ef.
    + rewrite (Hv _ He). by rewrite orb_true_r.
    + rewrite (Hv _ He). by rewrite !orb_true_r.
Qed.

(** X12: Every document that [list_dataset_documents] lists under a string name
    can be deleted by that name: the deletion answers 200, and the name is
    no longer listed afterwards. *)
Theorem listed_document_can_be_deleted (now : str) (w : World)
    (dataset_name : str) (coll : list Chunk) (docs : list (value * list str))
    (f : str) (ids : list str) :
  chroma w !! dataset_name = Some coll ->
  dataset_name ∉ unreadable w ->
  list_dataset_documents w dataset_name = Documents docs ->
  (VStr f, ids) ∈ docs ->
  let out := delete_document_from_dataset now w dataset_name f in
  status out.1 = 200
  /\ forall docs' name ids',
       list_dataset_documents out.2 dataset_name = Documents docs' ->
       (name, ids') ∈ docs' -> name <> VStr f.
Proof.
  intros Hc Hr Hlist Hin. cbn zeta.
  destruct (list_dataset_documents_result w dataset_name coll Hc Hr)
    as [(docs0 & Hd & _ & Hl)|[Hd _]]; [|congruence].
  rewrite Hlist in Hd. injection Hd as <-.
  destruct Hl as (_ & Hids & _).
  destruct (Hids _ _ Hin) as [Hi Hne].
  assert (Hex : Exists (fun c => chunk_matches f c = true) coll).
  { destruct (filter (fun c => listed_under (VStr f) c = true) coll) as [|c l] eqn:E;
      [by subst|].
    assert (Hcin : c ∈ filter (fun c => listed_under (VStr f) c = true) coll)
      by (rewrite E; by left).
    apply list_elem_of_filter in Hcin as [Hu Hcin].
    apply Exists_exists. exists c. split; [done | by apply listed_under_matches]. }
  destruct (delete_document_done now w dataset_name f coll Hc Hr Hex)
    as (Hst & Hch & Hur & Hleft & _).
  split; [done|].
  intros docs' name ids' Hlist' Hin' ->.
  set (out := delete_document_from_dataset now w dataset_name f) in *.
  assert (Hc' : chroma out.2 !! dataset_name
                = Some (filter (fun c => chunk_id c ∉
                          chunk_id <$> filter (fun c => chunk_matches f c = true) coll)
                          coll))
    by (by rewrite Hch, lookup_insert_eq).
  assert (Hr' : dataset_name ∉ unreadable out.2) by (by rewrite Hur).
  destruct (list_dataset_documents_result out.2 dataset_name _ Hc' Hr')
    as [(docs1 & Hd & _ & Hl)|[Hd _]]; [|congruence].
  rewrite Hlist' in Hd. injection Hd as <-.
  destruct Hl as (_ & Hids' & _).
  destruct (Hids' _ _ Hin') as [Hi' Hne'].
  match type of Hi' with
  | _ = _ <$> filter ?P ?l => destruct (filter P l) as [|c l'] eqn:E
  end; [by subst|].
  assert (Hcin : c ∈ c :: l') by (by left). rewrite <- E in Hcin.
  apply list_elem_of_filter in Hcin as [Hu Hcin].
  apply listed_under_matches in Hu.
  rewrite Forall_forall in Hleft. specialize (Hleft c Hcin). congruence.
Qed.

(** X13: After a document was deleted from a dataset that has a metadata record,
    the count [get_datasets] reports for the dataset is the number of
    distinct sources among the chunks that are left. *)
Theorem delete_document_count_in_sync (DEFAULT_DATASETS : list default_dataset)
    (now : str) (w : World) (dataset_name doc_id : str) (coll : list Chunk)
    (record : dict) :
  chroma w !! dataset_name = Some coll ->
  dataset_name ∉ unreadable w ->
  Exists (fun c => chunk_matches doc_id c = true) coll ->
  dataset_metadata w !! dataset_name = Some record ->
  metadata_writable w = true ->
  let out := delete_document_from_dataset now w dataset_name doc_id in
  exists coll' e,
    chroma out.2 !! dataset_name = Some coll'
    /\ e ∈ get_datasets DEFAULT_DATASETS out.2
    /\ e !! py "name" = Some (VStr dataset_name)
    /\ e !! py "document_count"
       = Some (VInt (Z.of_nat (size (unique_sources (chunk_metadata <$> coll'))))).
Proof.
  intros Hc Hr Hex Hrec Hwr. cbn zeta.
  destruct (delete_document_done now w dataset_name doc_id coll Hc Hr Hex)
    as (_ & Hch & Hur & _ & Hmd).
  specialize (Hmd record Hrec Hwr).
  set (out := delete_document_from_dataset now w dataset_name doc_id) in *.
  eexists _, (dataset_entry out.2 (load_dataset_metadata out.2) dataset_name).
  assert (Hc' : chroma out.2 !! dataset_name = Some
            (filter (fun c => chunk_id c ∉
               chunk_id <$> filter (fun c => chunk_matches doc_id c = true) coll) coll))
    by (by rewrite Hch, lookup_insert_eq).
  assert (Hr' : dataset_name ∉ unreadable out.2) by (by rewrite Hur).
  destruct (dataset_entry_scanned out.2 dataset_name _ Hc' Hr') as (Hn & _ & Hd).
  split; [exact Hc'|]. split; [|split; [done|]].
  - apply foldl_add_default_keeps, list_elem_of_fmap. exists dataset_name.
    split; [done|]. apply list_collections_spec. by eexists.
  - rewrite Hd. unfold reported_count. rewrite Hmd, lookup_insert_eq.
    cbn [default from_option id].
    rewrite lookup_insert_ne
      by (let H := fresh in intros H; vm_compute in H; discriminate H).
    by rewrite lookup_insert_eq.
Qed.

End DeleteListedFacts.

(** ** More on text extraction *)

Section ExtractMore.

Import Extract Extracted.

Variable isspace : char -> bool.
Variable PYTESSERACT_AVAILABLE : bool.

Lemma locals_eta (s : locals) :
  {| all_text := all_text s; extraction_success := extraction_success s |} = s.
Proof. by destruct s. Qed.

(** METHOD 1's loop appends the non-empty texts and sets the flag when
    there is one. *)
Lemma element_texts_cons element elements :
  element_texts (element :: elements)
  = match element with
    | Some t => if truthy t then t :: element_texts elements
                else element_texts elements
    | None => element_texts elements
    end.
Proof. destruct element as [t|]; [|done]. unfold element_texts. simpl. by destruct (truthy t). Qed.

Lemma collect_elements_run elements s :
  collect_elements elements s
  = (Ok tt, {| all_text := all_text s ++ element_texts elements;
               extraction_success :=
                 extraction_success s || existsb truthy_opt elements |}).
Proof.
  revert s. induction elements as [|[t|] elements IH]; intros s;
    rewrite ?element_texts_cons; cbn [collect_elements existsb truthy_opt].
  - unfold ret. change (element_texts []) with ([] : list str).
    by rewrite app_nil_r, orb_false_r, locals_eta.
  - destruct (truthy t) eqn:Et.
    + unfold mbind, append_text, set_success. rewrite IH.
      cbn [all_text extraction_success orb].
      by rewrite <- app_assoc, orb_true_r.
    + rewrite IH. done.
  - by rewrite IH.
Qed.

(** METHOD 2's loop never touches [all_text]; it sets the flag at the first
    page with visible text, raises at the first failing page, and otherwise
    returns non-empty texts. *)
Lemma collect_pages_run pages page_num pdf_text s :
  all_nonempty pdf_text ->
  exists r,
    collect_pages isspace pages page_num pdf_text s
    = (r, {| all_text := all_text s;
             extraction_success :=
               extraction_success s
               || existsb (has_visible_text isspace) (read_before_failure pages) |})
    /\ match first_failure pages with
       | Some e => r = Raise e
       | None => exists texts, r = Ok texts /\ all_nonempty texts
       end.
Proof.
  revert page_num pdf_text s.
  induction pages as [|[text|e] pages IH]; intros page_num pdf_text s Hne; simpl.
  - eexists. split; [by rewrite orb_false_r, locals_eta|]. by eexists.
  - unfold mbind, lift. cbn [fst snd].
    destruct (has_visible_text isspace text) eqn:Ev.
    + unfold set_success. cbn [fst snd].
      edestruct (IH (S page_num)) as (r & -> & Hr).
      2:{ exists r. cbn [all_text extraction_success]. rewrite orb_true_r. cbn [orb].
          split; [done | exact Hr]. }
      apply Forall_app. split; [done|]. by repeat constructor.
    + destruct (IH (S page_num) pdf_text s Hne) as (r & -> & Hr).
      exists r. split; [done | exact Hr].
  - unfold mbind, lift. eexists. split; [by rewrite orb_false_r, locals_eta | done].
Qed.


Lemma method1_run f s :
  method1 f s
  = (Ok tt,
     match partition f with
     | Ok elements =>
         {| all_text := all_text s ++ element_texts elements;
            extraction_success :=
              extraction_success s || existsb truthy_opt elements |}
     | Raise _ => s
     end).
Proof.
  unfold method1. rewrite try_print_ok. f_equal. unfold mbind, lift.
  destruct (partition f) as [elements|e]; [|done].
  by rewrite collect_elements_run.
Qed.


Lemma element_texts_found elements :
  element_texts elements <> [] -> existsb truthy_opt elements = true.
Proof.
  induction elements as [|[t|] elements IH]; rewrite ?element_texts_cons;
    cbn [existsb truthy_opt]; [done| |done].
  destruct (truthy t); [done | exact IH].
Qed.

(** METHOD 2 as a whole: it cannot raise, it sets the flag exactly when a
    page read before any failure has visible text, it keeps [all_text]
    non-empty text by text, and it adds nothing to it when the reader or a
    page failed. *)
Lemma method2_run f s :
  exists s2,
    method2 isspace f s = (Ok tt, s2)
    /\ extraction_success s2
       = extraction_success s || method2_finds_text isspace f
    /\ (all_nonempty (all_text s) -> all_nonempty (all_text s2))
    /\ (match pypdf_pages f with
        | Ok pages => first_failure pages <> None
        | Raise _ => True
        end -> all_text s2 = all_text s).
Proof.
  unfold method2, method2_finds_text. rewrite try_print_ok.
  eexists. split; [reflexivity|]. unfold mbind, lift, get.
  destruct (pypdf_pages f) as [pages|e]; cbn [fst snd].
  2:{ rewrite orb_false_r. done. }
  destruct (collect_pages_run pages 0 [] s) as (r & -> & Hr); [constructor|].
  destruct (first_failure pages) as [e|].
  - subst r. cbn [snd extraction_success all_text]. done.
  - destruct Hr as (texts & -> & Hne). cbn [extraction_success].
    destruct (extraction_success s || _); cbn [snd];
      unfold extend_text, ret; cbn [snd extraction_success all_text].
    + split; [done|]. split; [|done]. intros H. by apply Forall_app.
    + done.
Qed.



(** X15: When the first extractor returns and its non-empty texts, joined and
    stripped, come to more than 100 characters, these texts in their order
    are the result: PyPDF2 and OCR are not consulted. *)
Theorem method1_text_is_the_result (f : pdf_file) (elements : list (option str)) :
  partition f = Ok elements ->
  100 < length (strip isspace (concat (element_texts elements))) ->
  robust_extract_text_from_pdf isspace PYTESSERACT_AVAILABLE f
  = Ok (element_texts elements).
Proof.
  intros Hp Hlen.
  unfold robust_extract_text_from_pdf, extract_body, mbind, get.
  rewrite method1_run, Hp. cbn [all_text extraction_success app orb].
  rewrite element_texts_found.
  - apply Nat.ltb_lt in Hlen. by rewrite Hlen.
  - intros Hnil. rewrite Hnil in Hlen. simpl in Hlen. lia.
Qed.

(** X16: When the first extractor finds nothing and PyPDF2 fails on a page after
    one with visible text, the text already read is dropped and OCR is not
    tried: the result is the empty list. *)
Theorem pypdf_failure_loses_text (f : pdf_file)
    (pages : list (result (option str))) (e : exn) :
  method1_finds_text f = false ->
  pypdf_pages f = Ok pages ->
  existsb (has_visible_text isspace) (read_before_failure pages) = true ->
  first_failure pages = Some e ->
  robust_extract_text_from_pdf isspace PYTESSERACT_AVAILABLE f = Ok [].
Proof.
  intros H1 Hp Hvis Hfail.
  unfold robust_extract_text_from_pdf, extract_body, mbind, get.
  rewrite method1_none by done. cbn [extraction_success andb].
  destruct (method2_run f {| all_text := []; extraction_success := false |})
    as (s2 & -> & Hs & _ & Hsame).
  unfold method2_finds_text in Hs. rewrite Hp, Hvis in Hs. cbn in Hs.
  rewrite Hp, Hfail in Hsame. specialize (Hsame ltac:(done)). cbn in Hsame.
  rewrite Hs. cbn [negb andb]. unfold ret at 1. rewrite Hs, Hsame.
  cbn [negb orb]. by rewrite bool_decide_true.
Qed.

End ExtractMore.

Section OcrFacts.

Import Extract Extracted.

Variable isspace : char -> bool.

(** X17: OCR is a last resort: once one of the first two methods has come across
    text, the result depends neither on whether pytesseract is installed nor
    on what OCR would read. *)
Theorem ocr_only_as_last_resort (f f' : pdf_file) (available available' : bool) :
  partition_hi_res f' = partition_hi_res f ->
  partition_plain f' = partition_plain f ->
  pypdf_pages f' = pypdf_pages f ->
  method1_finds_text f || method2_finds_text isspace f = true ->
  robust_extract_text_from_pdf isspace available' f'
  = robust_extract_text_from_pdf isspace available f.
Proof.
  intros Hh Hpl Hpp Hfound.
  assert (Hpart : partition f' = partition f)
    by (unfold partition; by rewrite Hh, Hpl).
  assert (Hm2 : forall s, method2 isspace f' s = method2 isspace f s)
    by (intros s; unfold method2; by rewrite Hpp).
  unfold robust_extract_text_from_pdf, extract_body, mbind, get.
  rewrite !method1_run, Hpart.
  set (s1 := match partition f with Ok _ => _ | Raise _ => _ end).
  assert (Hs1 : extraction_success s1 = method1_finds_text f).
  { unfold s1, method1_finds_text. by destruct (partition f). }
  match goal with |- context [if ?c then _ else _] => destruct c end; [done|].
  rewrite Hm2.
  destruct (method2_run isspace f s1) as (s2 & -> & Hs2 & _).
  rewrite Hs1, Hfound in Hs2. rewrite Hs2. done.
Qed.

End OcrFacts.

(** ** More on queries *)

Section ChatMore.

Import Store Chat.

Variable query_dataset :
  World -> str -> str -> nat -> bool -> bool -> result query_results.
Variable generate_with_rag : str -> str -> list message -> result str.
Variable instructions : str.



(** X19: A failure of the language model does not fail [chat]: the request that
    is answered when the model replies is answered also when the model
    raises, with the same sources, the same store and the same pipeline
    calls, and the fixed apology as its text. *)
Theorem chat_llm_failure_absorbed (w w' : World) (data : chat_request)
    (e : exn) (answer : chat_response) (calls : list pipeline_call) :
  chat query_dataset generate_with_rag instructions w data
  = (Ok answer, w', calls) ->
  chat query_dataset (fun _ _ _ => Raise e) instructions w data
  = (Ok {| resp_response :=
             py "I'm sorry, I encountered an error processing your request. Please try again later.";
           resp_context := resp_context answer;
           resp_dataset := resp_dataset answer;
           resp_raw_context := resp_raw_context answer |}, w', calls).
Proof.
  unfold chat.
  destruct (chat_retrieve _ _ _ _) as [[results|e'] calls']; cbn [bind];
    [|intros H; discriminate H].
  destruct (first (documents results)) as [docs|e1]; cbn [bind];
    [|intros H; discriminate H].
  destruct (first (metadatas results)) as [metas|e2]; cbn [bind];
    [|intros H; discriminate H].
  intros H. inversion H; subst. reflexivity.
Qed.

(** X20: When the dataset's record has non-empty [custom_instructions],
    [add_message] still queries the pipeline, but the system message is the
    custom text alone: neither the fixed instructions nor the retrieved
    context are part of it. *)
Theorem add_message_custom_instructions_only (w : World)
    (chat : option stored_chat) (message dataset : option str)
    (p : prepared) (calls : list pipeline_call) (record : dict) (custom : str) :
  add_message query_dataset instructions w chat message dataset
  = Some (Ok p, calls) ->
  dataset_metadata w !! prep_dataset p = Some record ->
  record !! py "custom_instructions" = Some (VStr custom) ->
  custom <> [] ->
  prep_system_message p = custom
  /\ calls = [{| call_dataset_name := prep_dataset p;
                 call_query := default [] message;
                 call_n_results := 5; call_use_hybrid_search := true;
                 call_use_reranking := true |}].
Proof.
  unfold add_message. destruct chat as [c|]; [|intros H; discriminate H].
  cbn [add_message_retrieve].
  set (name := match dataset with Some d => _ | None => _ end).
  unfold add_message_retrieve.
  destruct (query_dataset w name (default [] message) 5 true true)
    as [results|e]; cbn [bind]; [|intros H; discriminate H].
  match goal with |- context [if bool_decide ?P then Ok [] else ?x] =>
    destruct (if bool_decide P then Ok [] else x) as [context|e] end;
    cbn [bind]; [|intros H; discriminate H].
  intros H. inversion H; subst. cbn [prep_dataset prep_system_message].
  intros Hr Hc Hne. split; [|done].
  unfold load_dataset_metadata. rewrite Hr. cbn [default from_option id].
  unfold dict_get_default. rewrite Hc. cbn [default from_option id truthy_value].
  destruct custom; [done|]. reflexivity.
Qed.

End ChatMore.

(** ** The names of the dataset list *)

Section GetDatasetsNames.

Import Store Datasets Listed.

Variable DEFAULT_DATASETS : list default_dataset.

Ltac key_ne := let H := fresh in intros H; vm_compute in H; discriminate H.

Ltac dict_lookup :=
  cbn [list_to_map foldr fst snd];
  repeat first [ apply lookup_insert_eq
               | rewrite lookup_insert_ne by key_ne ];
  try apply lookup_empty.

Lemma dataset_entry_fields w name :
  let e := dataset_entry w (load_dataset_metadata w) name in
  e !! py "name" = Some (VStr name) /\ e !! py "is_custom" = Some (VBool true).
Proof.
  cbn zeta. unfold dataset_entry.
  destruct (get_collection w name) as [c|e]; cbn [bind];
    [destruct (collection_get w name) as [r|e]; cbn [bind]|];
    split; dict_lookup.
Qed.

Lemma default_entry_fields (d : default_dataset) :
  let e := <[py "is_custom" := VBool false]> (default_dict d) in
  e !! py "name" = Some (VStr (dd_name d))
  /\ e !! py "is_custom" = Some (VBool false).
Proof.
  cbn zeta. split; [|apply lookup_insert_eq].
  rewrite lookup_insert_ne by key_ne. apply lookup_insert_eq.
Qed.

Lemma listed_names_entries w names :
  listed_names (dataset_entry w (load_dataset_metadata w) <$> names)
  = VStr <$> names.
Proof.
  unfold listed_names. rewrite <- list_fmap_compose. apply list_fmap_ext.
  intros i name _. cbn. unfold dict_get.
  by rewrite (proj1 (dataset_entry_fields w name)).
Qed.

Lemma name_listed_spec (all_datasets : list dict) (name : str) :
  existsb (fun d => py_eq (dict_get d "name") (VStr name)) all_datasets = true
  <-> VStr name ∈ listed_names all_datasets.
Proof.
  unfold listed_names. induction all_datasets as [|d l IH]; cbn [existsb fmap list_fmap].
  - split; [done|]. intros H. by apply elem_of_nil in H.
  - rewrite orb_true_iff, elem_of_cons, IH, py_eq_str. split.
    + intros [H|H]; [left; by rewrite H | by right].
    + intros [H|H]; [left; by rewrite <- H | by right].
Qed.

Lemma add_default_names (all_datasets : list dict) (d : default_dataset) :
  listed_names (add_default all_datasets d)
  = if decide (VStr (dd_name d) ∈ listed_names all_datasets)
    then listed_names all_datasets
    else listed_names all_datasets ++ [VStr (dd_name d)].
Proof.
  unfold add_default.
  destruct (existsb _ all_datasets) eqn:E.
  - apply name_listed_spec in E. by rewrite decide_True.
  - rewrite decide_False.
    2:{ intros H. apply name_listed_spec in H. congruence. }
    unfold listed_names. rewrite fmap_app. f_equal.
    cbn [fmap list_fmap]. unfold dict_get.
    by rewrite (proj1 (default_entry_fields d)).
Qed.

Lemma foldl_add_default_names (defaults : list default_dataset)
    (all_datasets : list dict) :
  (NoDup (listed_names all_datasets) ->
   NoDup (listed_names (foldl add_default all_datasets defaults)))
  /\ (forall v,
        v ∈ listed_names (foldl add_default all_datasets defaults)
        <-> v ∈ listed_names all_datasets
            \/ exists d, d ∈ defaults /\ v = VStr (dd_name d)).
Proof.
  revert all_datasets. induction defaults as [|d ds IH]; intros l; cbn [foldl].
  - split; [done|]. intros v. split; [by left|].
    intros [H|(d & Hd & _)]; [done|]. by apply elem_of_nil in Hd.
  - destruct (IH (add_default l d)) as [Hnd Hin]. rewrite add_default_names in *.
    split.
    + intros H. apply Hnd. case_decide as Hd; [done|].
      apply NoDup_app. split; [done|]. split.
      * intros x Hx Hx'. apply list_elem_of_singleton in Hx'. by subst.
      * apply NoDup_singleton.
    + intros v. rewrite Hin. case_decide as Hd.
      * split.
        -- intros [H|(d' & Hd' & ->)]; [by left|].
           right. exists d'. split; [by right|done].
        -- intros [H|(d' & Hd' & ->)]; [by left|].
           apply elem_of_cons in Hd' as [->|Hd']; [by left|].
           right. by exists d'.
      * rewrite elem_of_app, list_elem_of_singleton. split.
        -- intros [[H| ->]|(d' & Hd' & ->)]; [by left| |].
           ++ right. exists d. split; [by left|done].
           ++ right. exists d'. split; [by right|done].
        -- intros [H|(d' & Hd' & ->)]; [by left; left|].
           apply elem_of_cons in Hd' as [->|Hd']; [left; by right|].
           right. by exists d'.
Qed.

Lemma foldl_add_default_origin (defaults : list default_dataset)
    (all_datasets : list dict) (e : dict) :
  e ∈ foldl add_default all_datasets defaults ->
  e ∈ all_datasets
  \/ exists d, e = <[py "is_custom" := VBool false]> (default_dict d)
               /\ (VStr (dd_name d) ∉ listed_names all_datasets).
Proof.
  revert all_datasets. induction defaults as [|d ds IH]; intros l; cbn [foldl];
    [by left|].
  intros H. apply IH in H as [H|(d' & -> & Hd')].
  - unfold add_default in H. destruct (existsb _ l) eqn:E; [by left|].
    apply elem_of_app in H as [H|H]; [by left|].
    apply list_elem_of_singleton in H as ->. right. exists d. split; [done|].
    intros Hn. apply name_listed_spec in Hn. congruence.
  - right. exists d'. split; [done|]. intros Hn. apply Hd'.
    rewrite add_default_names. case_decide; [done|].
    apply elem_of_app. by left.
Qed.

(** X21: [get_datasets] lists every collection of the store and every default
    dataset under its name, no name twice.  An entry is marked [is_custom]
    exactly when its name is that of a collection: a default dataset whose
    name is also a collection is shown once, as a custom dataset. *)
Theorem get_datasets_names (w : World) :
  let datasets := get_datasets DEFAULT_DATASETS w in
  NoDup (listed_names datasets)
  /\ (forall v,
        v ∈ listed_names datasets
        <-> exists name,
              v = VStr name
              /\ (is_Some (chroma w !! name)
                  \/ name ∈ dd_name <$> DEFAULT_DATASETS))
  /\ (forall e,
        e ∈ datasets ->
        exists name,
          e !! py "name" = Some (VStr name)
          /\ e !! py "is_custom"
             = Some (VBool (bool_decide (is_Some (chroma w !! name))))).
Proof.
  cbn zeta. unfold get_datasets.
  destruct (foldl_add_default_names DEFAULT_DATASETS
              (dataset_entry w (load_dataset_metadata w) <$> list_collections w))
    as [Hnd Hin].
  rewrite listed_names_entries in *.
  split; [|split].
  - apply Hnd.
    assert (Hinj : Inj eq eq VStr) by (intros a b Hab; congruence).
    apply (NoDup_fmap_2 VStr).
    unfold list_collections. apply NoDup_fst_map_to_list.
  - intros v. rewrite Hin. split.
    + intros [H|(d & Hd & ->)].
      * apply list_elem_of_fmap in H as (name & -> & H).
        exists name. split; [done|]. left. by apply list_collections_spec.
      * exists (dd_name d). split; [done|]. right.
        apply list_elem_of_fmap. by exists d.
    + intros (name & -> & [H|H]).
      * left. apply list_elem_of_fmap. exists name. split; [done|].
        by apply list_collections_spec.
      * right. apply list_elem_of_fmap in H as (d & -> & Hd). by exists d.
  - intros e He. apply foldl_add_default_origin in He as [He|(d & -> & Hd)].
    + apply list_elem_of_fmap in He as (name & -> & Hn).
      exists name. destruct (dataset_entry_fields w name) as [H1 H2].
      split; [done|]. rewrite H2. apply list_collections_spec in Hn.
      by rewrite bool_decide_true.
    + exists (dd_name d). destruct (default_entry_fields d) as [H1 H2].
      split; [done|]. rewrite H2, bool_decide_false; [done|].
      intros Hs. apply Hd. rewrite listed_names_entries.
      apply list_elem_of_fmap. exists (dd_name d). split; [done|].
      by apply list_collections_spec.
Qed.

End GetDatasetsNames.

(** ** Stored chats *)

Section MessagesFacts.

Import Store Messages Validated Offending.

Ltac key_ne := let H := fresh in intros H; vm_compute in H; discriminate H.

Lemma validate_message_kept (m : stored_message) (v : option stored_message) :
  validate_message m = Ok v ->
  v = if kept m then Some (repaired m) else None.
Proof.
  unfold validate_message, kept, repaired, dict_get.
  destruct (msg_fields m !! py "role") as [role|]; [|by intros [= <-]].
  destruct (msg_fields m !! py "content") as [content|]; [|by intros [= <-]].
  destruct (truthy_value content); cbn [negb default from_option id];
    [|by intros [= <-]].
  match goal with |- context [if ?c then check_format _ else _] =>
    destruct c end; [destruct (check_format content) as [[]|e]|];
    cbn [bind]; intros H; by inversion H.
Qed.

Lemma validate_message_raises (m : stored_message) (e : exn) :
  validate_message m = Raise e -> e = TypeError.
Proof.
  unfold validate_message.
  destruct (msg_fields m !! py "role") as [role|]; [|done].
  destruct (msg_fields m !! py "content") as [content|]; [|done].
  destruct (negb (truthy_value content)); [done|].
  match goal with |- context [if ?c then check_format _ else _] =>
    destruct c end; [|done].
  unfold check_format. destruct content; cbn [bind]; congruence.
Qed.

Lemma validate_messages_raises (messages : list stored_message) (e : exn) :
  validate_messages messages = Raise e -> e = TypeError.
Proof.
  induction messages as [|m rest IH]; cbn [validate_messages]; [done|].
  destruct (validate_message m) as [v|e'] eqn:Em; cbn [bind].
  - destruct (validate_messages rest) as [valid|e'']; cbn [bind]; [done|].
    intros [= <-]. by apply IH.
  - intros [= <-]. by apply validate_message_raises in Em.
Qed.

Lemma validate_messages_kept (messages valid : list stored_message) :
  validate_messages messages = Ok valid ->
  valid = repaired <$> filter (fun m => kept m = true) messages.
Proof.
  revert valid. induction messages as [|m rest IH]; intros valid;
    cbn [validate_messages]; [by intros [= <-]|].
  destruct (validate_message m) as [v|e] eqn:Em; cbn [bind]; [|done].
  destruct (validate_messages rest) as [valid'|e]; cbn [bind]; [|done].
  intros [= <-]. apply validate_message_kept in Em. subst v.
  rewrite (IH valid' eq_refl), filter_cons.
  destruct (kept m) eqn:Ek.
  - by rewrite decide_True.
  - rewrite decide_False; [done|congruence].
Qed.

Lemma repaired_well_formed (m : stored_message) :
  kept m = true -> well_formed (repaired m).
Proof.
  unfold kept, repaired, well_formed, dict_get.
  destruct (msg_fields m !! py "role") as [role|] eqn:Er; [|done].
  destruct (msg_fields m !! py "content") as [content|] eqn:Ec; [|done].
  intros Ht. cbn [default from_option id].
  destruct (role_is_valid role) eqn:Ev.
  - by exists role, content.
  - exists (VStr (py "system")), content. unfold set_field. cbn [msg_fields].
    split; [apply lookup_insert_eq|]. split; [reflexivity|].
    split; [|done]. by rewrite lookup_insert_ne by key_ne.
Qed.

(** Validation is stable on what it has validated. *)
Lemma validate_message_repaired (m : stored_message) :
  validate_message m = Ok (Some (repaired m)) ->
  validate_message (repaired m) = Ok (Some (repaired m)).
Proof.
  unfold validate_message, repaired, dict_get.
  destruct (msg_fields m !! py "role") as [role|] eqn:Er; [|done].
  destruct (msg_fields m !! py "content") as [content|] eqn:Ec; [|done].
  destruct (negb (truthy_value content)) eqn:Et; [done|].
  cbn [default from_option id].
  destruct (role_is_valid role) eqn:Ev.
  - rewrite Er, Ec, Et, Ev. cbn [default from_option id]. by rewrite Er.
  - unfold set_field. cbn [msg_fields].
    rewrite lookup_insert_eq, (lookup_insert_ne _ (py "role") (py "content"))
      by key_ne.
    rewrite Ec, Et. cbn [default from_option id]. intros _.
    assert (Hs : role_is_valid (VStr (py "system")) = true) by reflexivity.
    rewrite Hs. cbn [msg_fields]. rewrite lookup_insert_eq.
    cbn [default from_option id].
    assert (Hp : py_eq (VStr (py "system")) (VStr (py "assistant")) = false)
      by reflexivity.
    by rewrite Hp.
Qed.

Lemma validate_messages_stable (messages valid : list stored_message) :
  validate_messages messages = Ok valid ->
  validate_messages valid = Ok valid.
Proof.
  revert valid. induction messages as [|m rest IH]; intros valid;
    cbn [validate_messages]; [by intros [= <-]|].
  destruct (validate_message m) as [v|e] eqn:Em; cbn [bind]; [|done].
  destruct (validate_messages rest) as [valid'|e]; cbn [bind]; [|done].
  intros [= <-]. specialize (IH valid' eq_refl).
  pose proof (validate_message_kept m v Em) as Hv.
  destruct (kept m); subst v; [|done].
  cbn [validate_messages].
  rewrite (validate_message_repaired m Em), IH. reflexivity.
Qed.

(** X22: The messages [get_chat] hands out are the stored ones that have a role
    and a truthy content, in their order, each with its role replaced by
    ["system"] when it was not a known one; the other fields of the chat are
    as stored. *)
Theorem get_chat_keeps_valid_messages (chat chat' : stored_chat)
    (messages : list stored_message) :
  get_chat (Some chat) = ChatFound chat' ->
  chat_messages chat = Some messages ->
  chat_fields chat' = chat_fields chat
  /\ chat_messages chat'
     = Some (repaired <$> filter (fun m => kept m = true) messages)
  /\ Forall well_formed (repaired <$> filter (fun m => kept m = true) messages).
Proof.
  unfold get_chat. intros H Hm. rewrite Hm in H.
  destruct (validate_messages messages) as [valid|e] eqn:Ev; [|done].
  apply validate_messages_kept in Ev. inversion H; subst. cbn.
  split; [done|]. split; [done|].
  apply Forall_fmap, Forall_forall. intros m Hin.
  apply list_elem_of_filter in Hin as [Hk _]. by apply repaired_well_formed.
Qed.

(** X23: What [get_chat] answered is a fixed point of it: stored again and
    fetched again, the same chat comes back. *)
Theorem get_chat_idempotent (chat : option stored_chat) (chat' : stored_chat) :
  get_chat chat = ChatFound chat' ->
  get_chat (Some chat') = ChatFound chat'.
Proof.
  unfold get_chat. destruct chat as [c|]; [|done].
  destruct (chat_messages c) as [messages|] eqn:Em.
  - destruct (validate_messages messages) as [valid|e] eqn:Ev; [|done].
    intros [= <-]. cbn [chat_messages chat_fields].
    by rewrite (validate_messages_stable messages valid Ev).
  - intros [= <-]. by rewrite Em.
Qed.

Lemma offending_raises (m : stored_message) :
  offending m = true -> validate_message m = Raise TypeError.
Proof.
  unfold offending, kept, validate_message, dict_get.
  destruct (msg_fields m !! py "role") as [role|] eqn:Er; [|done].
  destruct (msg_fields m !! py "content") as [content|] eqn:Ec; [|done].
  cbn [default from_option id]. intros H.
  apply andb_true_iff in H as [H Hc]. apply andb_true_iff in H as [H Hs].
  apply andb_true_iff in H as [Ht Ha].
  rewrite Ht. cbn [negb].
  assert (Hv : role_is_valid role = true).
  { unfold role_is_valid, valid_roles. cbn [existsb]. rewrite Ha.
    by rewrite orb_true_r. }
  rewrite Hv, Er. cbn [default from_option id]. rewrite Ha, Hs. cbn [andb].
  destruct content; cbn [check_format bind]; done.
Qed.

(** X24: A stored assistant message with a truthy content that is not a string
    (a number, [true]) and no [isSystem] mark makes [get_chat] fail: the
    [TypeError] of the format check is raised out of the handler. *)
Theorem get_chat_raises_on_non_string_content (chat : stored_chat)
    (messages : list stored_message) :
  chat_messages chat = Some messages ->
  Exists (fun m => offending m = true) messages ->
  get_chat (Some chat) = ChatRaised TypeError.
Proof.
  intros Hm Hex. unfold get_chat. rewrite Hm.
  assert (H : validate_messages messages = Raise TypeError).
  { clear Hm. induction Hex as [m rest Ho|m rest Hex IH]; cbn [validate_messages].
    - by rewrite (offending_raises m Ho).
    - destruct (validate_message m) as [v|e] eqn:Em; cbn [bind].
      + by rewrite IH.
      + by apply validate_message_raises in Em as ->. }
  by rewrite H.
Qed.

Lemma take_init {A} (l : list A) (x : A) :
  take (length (l ++ [x]) - 1) (l ++ [x]) = l.
Proof.
  rewrite length_app. cbn [length].
  replace (length l + 1 - 1) with (length l) by lia.
  apply take_app_length.
Qed.

(** X25: A streaming write changes the last message only, and only when it is an
    assistant message: its content becomes the given text and its
    [streaming] mark the given flag; the earlier messages, the other fields
    of the last message and of the chat stay. *)
Theorem write_last_message_changes_last (streaming : bool) (content : str)
    (chat : option stored_chat) (chat' : stored_chat) :
  write_last_message streaming content chat = Some chat' ->
  exists stored earlier last_message,
    chat = Some stored
    /\ chat_fields chat' = chat_fields stored
    /\ chat_messages stored = Some (earlier ++ [last_message])
    /\ py_eq (dict_get (msg_fields last_message) "role")
             (VStr (py "assistant")) = true
    /\ chat_messages chat'
       = Some (earlier ++
               [{| msg_fields :=
                     <[py "content" := VStr content]> (msg_fields last_message);
                   msg_metadata :=
                     Some (<[py "streaming" := VBool streaming]>
                             (default ∅ (msg_metadata last_message))) |}]).
Proof.
  unfold write_last_message. destruct chat as [c|]; [|done].
  destruct (chat_messages c) as [messages|] eqn:Em; [|done].
  destruct (last messages) as [l|] eqn:El; [|done].
  destruct (msg_fields l !! py "role") as [role|] eqn:Er; [|done].
  destruct (py_eq role (VStr (py "assistant"))) eqn:Ep; [|done].
  intros [= <-]. apply last_Some in El as [earlier ->].
  exists c, earlier, l. cbn [chat_fields chat_messages].
  split; [done|]. split; [done|]. split; [done|]. split.
  - unfold dict_get. by rewrite Er.
  - by rewrite take_init.
Qed.

(** X26: Progress updates leave no trace: after [update_streaming_message] has
    written the chat, finalising it (or updating it again) gives the chat
    that the same call gives on the chat as it was before. *)
Theorem finalize_after_update (partial final : str)
    (chat : option stored_chat) (chat1 : stored_chat) :
  update_streaming_message partial chat = Some chat1 ->
  finalize_message final (Some chat1) = finalize_message final chat
  /\ update_streaming_message final (Some chat1)
     = update_streaming_message final chat.
Proof.
  unfold update_streaming_message, finalize_message.
  assert (H : forall s,
    write_last_message true partial chat = Some chat1 ->
    write_last_message s final (Some chat1) = write_last_message s final chat).
  { intros s. unfold write_last_message. destruct chat as [c|]; [|done].
    destruct (chat_messages c) as [messages|] eqn:Em; [|done].
    destruct (last messages) as [l|] eqn:El; [|done].
    destruct (msg_fields l !! py "role") as [role|] eqn:Er; [|done].
    destruct (py_eq role (VStr (py "assistant"))) eqn:Ep; [|done].
    intros [= <-]. cbn [chat_fields chat_messages].
    apply last_Some in El as [earlier ->].
    rewrite !take_init, last_snoc. cbn [msg_fields msg_metadata].
    rewrite lookup_insert_ne by key_ne. rewrite Er, Ep.
    cbn [default from_option id].
    by rewrite !insert_insert_eq. }
  intros H1. split; by apply H.
Qed.

End MessagesFacts.

(** ** Text files in [process_documents] *)

Section TextFileFacts.

Import Store Ingest Blank.

Variable isspace : char -> bool.
Variable PYTESSERACT_AVAILABLE : bool.

Lemma lstrip_Forall (p : char -> bool) (s : str) :
  Forall (fun c => p c = true) (lstrip p s) -> Forall (fun c => p c = true) s.
Proof.
  induction s as [|c s IH]; cbn [lstrip]; [done|].
  destruct (p c) eqn:E; [|done]. intros H. constructor; [done|by apply IH].
Qed.

Lemma strip_nil_Forall (p : char -> bool) (s : str) :
  strip p s = [] -> Forall (fun c => p c = true) s.
Proof.
  unfold strip, rstrip. intros H.
  apply lstrip_Forall, Forall_reverse, lstrip_Forall.
  apply (f_equal reverse) in H. rewrite reverse_involutive in H.
  rewrite H. constructor.
Qed.

Lemma split_paragraphs_from_step (cur : str) (c c' : char) (rest : str) :
  split_paragraphs_from cur (c :: c' :: rest)
  = if ((c =? 10) && (c' =? 10))%N
    then reverse cur :: split_paragraphs_from [] rest
    else split_paragraphs_from (c :: cur) (c' :: rest).
Proof. reflexivity. Qed.

Lemma split_paragraphs_blank (n : nat) (text cur : str) :
  length text <= n ->
  Forall (Forall (fun c => isspace c = true)) (split_paragraphs_from cur text) ->
  Forall (fun c => isspace c = true) cur /\ blank isspace text.
Proof.
  unfold blank. revert text cur.
  induction n as [|n IH]; intros text cur Hlen.
  - destruct text; [|simpl in Hlen; lia]. cbn [split_paragraphs_from].
    intros H. rewrite Forall_singleton in H. split; [|constructor].
    by rewrite Forall_reverse in H.
  - destruct text as [|c [|c' rest]];
      [cbn [split_paragraphs_from]..|rewrite split_paragraphs_from_step].
    + intros H. rewrite Forall_singleton in H. split; [|constructor].
      by rewrite Forall_reverse in H.
    + intros H. rewrite Forall_singleton in H. rewrite Forall_reverse in H. apply Forall_cons in H as [Hc H].
      split; [done|]. constructor; [by left|constructor].
    + destruct ((c =? 10)%N && (c' =? 10)%N) eqn:E.
      * apply andb_true_iff in E as [Ec Ec'].
        apply N.eqb_eq in Ec, Ec'. subst c c'.
        intros H. rewrite Forall_cons in H. destruct H as [Hcur H].
        apply IH in H as [_ H]; [|simpl in Hlen; lia].
        split; [by rewrite Forall_reverse in Hcur|].
        constructor; [by right|]. constructor; [by right|done].
      * intros H. apply IH in H as [Hcur H]; [|simpl in Hlen |- *; lia].
        rewrite Forall_cons in Hcur. destruct Hcur as [Hc Hcur].
        split; [done|]. constructor; [by left|done].
Qed.

(** No paragraph survives the comprehension only when the text is white
    space and line feeds. *)
Lemma paragraphs_nil_blank (text : str) :
  paragraphs isspace text = [] -> blank isspace text.
Proof.
  unfold paragraphs, split_paragraphs. intros H.
  apply filter_nil_Forall in H.
  apply (split_paragraphs_blank (length text) text []); [done|].
  apply Forall_fmap in H. eapply Forall_impl; [exact H|].
  intros t Ht. cbn in Ht. apply strip_nil_Forall.
  by destruct (strip isspace t).
Qed.

(** X27: In [process_documents], the chunks of a text file are those of its
    paragraphs.  The fallback [if not chunks and len(text) > 50], meant for a
    text of one paragraph, is taken only by a text of more than 50 characters
    that consists of white space and line feeds, which is then stored
    whole. *)
Theorem text_file_fallback_stores_blank_text (i : nat) (f : file) (text : str) :
  endswith (file_name f) ".pdf" = false ->
  endswith (file_name f) ".txt" = true ->
  file_text f = Ok text ->
  process_file isspace PYTESSERACT_AVAILABLE i f
  = txt_chunks (file_name f) i (source_meta (file_name f) "part")
               (paragraphs isspace text)
  \/ (blank isspace text /\ 50 < length text
      /\ process_file isspace PYTESSERACT_AVAILABLE i f
         = [make_chunk (chunk_ident (file_name f) i 0) text
                       (source_meta (file_name f) "part" 0)]).
Proof.
  intros Hpdf Htxt Htext. unfold process_file. rewrite Hpdf, Htxt, Htext.
  case_bool_decide as Hp; cbn [andb].
  - destruct (50 <? length text) eqn:E.
    + right. apply Nat.ltb_lt in E. split; [by apply paragraphs_nil_blank|].
      split; [done|]. by rewrite Hp.
    + left. by rewrite app_nil_r.
  - left. by rewrite app_nil_r.
Qed.

End TextFileFacts.

(** ** Appending documents to a dataset *)

Section AppendFacts.

Import Store Datasets Ingest.

Variable isspace : char -> bool.
Variable PYTESSERACT_AVAILABLE : bool.
Variable secure_filename : str -> str.




End AppendFacts.

(** ** [process_documents] as a whole *)

Section ProcessDocumentsFacts.

Import Store Datasets Ingest.

Variable isspace : char -> bool.
Variable PYTESSERACT_AVAILABLE : bool.
Variable DOCUMENTS_DIR : str.

Ltac key_ne := let H := fresh in intros H; vm_compute in H; discriminate H.


End ProcessDocumentsFacts.

(** ** Checking a name after creating a dataset *)

Section CheckNameFacts.

Import Store Datasets Manage.

Variable isalnum : char -> bool.
Variable isspace : char -> bool.



End CheckNameFacts.

(** ** The properties on sample data *)




Lemma delete_dataset_unknown_witness :
  let out := Datasets.delete_dataset Examples.defaults Examples.acts_world
               (py "scans") in
  Outcomes.reported_as_success out.1
  /\ (exists details,
        Outcomes.message_of out.1
        = Some (Outcomes.deleted_message (py "scans") details))
  /\ out.2 = Examples.acts_world.
Proof.
  apply (delete_dataset_unknown Examples.defaults Examples.acts_world (py "scans")).
  - apply (bool_decide_unpack _). vm_compute. exact I.
  - vm_compute. reflexivity.
  - vm_compute. reflexivity.
Defined.

Lemma update_metadata_record_witness :
  Datasets.status
    (Manage.update_dataset_metadata_route Examples.defaults MoreExamples.stamp
       MoreExamples.stamp Examples.acts_world (py "acts")
       (Some MoreExamples.new_description)).1 = 200.
Proof.
  apply (update_metadata_record Examples.defaults MoreExamples.stamp
           MoreExamples.stamp Examples.acts_world (py "acts")
           MoreExamples.new_description MoreExamples.acts_record).
  - apply (bool_decide_unpack _). vm_compute. exact I.
  - vm_compute. reflexivity.
  - apply (bool_decide_unpack _). vm_compute. exact I.
  - vm_compute. reflexivity.
Defined.

Lemma update_default_writes_record_witness :
  let out := Manage.update_dataset_metadata_route Examples.defaults
               MoreExamples.stamp MoreExamples.stamp MoreExamples.sanctions_world
               (py "EU-Sanctions") (Some MoreExamples.new_description) in
  Datasets.status out.1 = 403
  /\ exists record,
       Store.dataset_metadata out.2 !! py "EU-Sanctions" = Some record
       /\ record !! py "created_at" = Some (Store.VStr MoreExamples.stamp)
       /\ record !! py "document_count" = Some (Store.VInt 1).
Proof.
  destruct (update_default_writes_record Examples.defaults MoreExamples.stamp
              MoreExamples.stamp MoreExamples.sanctions_world (py "EU-Sanctions")
              MoreExamples.new_description Examples.acts_chunks)
    as (Hs & record & Hr & Hc & Hn).
  - apply (bool_decide_unpack _). vm_compute. exact I.
  - apply (bool_decide_unpack _). vm_compute. exact I.
  - vm_compute. reflexivity.
  - apply (bool_decide_unpack _). vm_compute. exact I.
  - vm_compute. reflexivity.
  - vm_compute. reflexivity.
  - split; [exact Hs|]. exists record. split; [exact Hr|]. split; [exact Hc|].
    rewrite Hn. vm_compute. reflexivity.
Defined.

Lemma list_dataset_documents_lists_witness :
  (exists docs,
      Manage.list_dataset_documents Examples.acts_world (py "acts")
      = Manage.Documents docs
      /\ docs <> [] /\ Documents.lists docs Examples.acts_chunks)
  \/ (Manage.list_dataset_documents Examples.acts_world (py "acts")
      = Manage.NoDocuments (Store.chunk_metadata <$> Examples.acts_chunks)
      /\ Forall (fun c => Documents.named c = false) Examples.acts_chunks).
Proof.
  apply (list_dataset_documents_lists Examples.acts_world (py "acts")
           Examples.acts_chunks).
  - vm_compute. reflexivity.
  - apply (bool_decide_unpack _). vm_compute. exact I.
Defined.

Lemma listed_document_can_be_deleted_witness :
  Datasets.status
    (Datasets.delete_document_from_dataset MoreExamples.stamp Examples.acts_world
       (py "acts") (py "reg1.pdf")).1 = 200.
Proof.
  apply (listed_document_can_be_deleted MoreExamples.stamp Examples.acts_world
           (py "acts") Examples.acts_chunks MoreExamples.acts_documents
           (py "reg1.pdf") [py "reg1.pdf_0_0"; py "reg1.pdf_0_1"]).
  - vm_compute. reflexivity.
  - apply (bool_decide_unpack _). vm_compute. exact I.
  - vm_compute. reflexivity.
  - apply list_elem_of_singleton. reflexivity.
Defined.

Lemma delete_document_count_in_sync_witness :
  let out := Datasets.delete_document_from_dataset MoreExamples.stamp
               Examples.acts_world (py "acts") (py "reg1.pdf") in
  exists coll' e,
    Store.chroma out.2 !! py "acts" = Some coll'
    /\ e ∈ Datasets.get_datasets Examples.defaults out.2
    /\ e !! py "name" = Some (Store.VStr (py "acts"))
    /\ e !! py "document_count"
       = Some (Store.VInt
                 (Z.of_nat (size (Store.unique_sources
                                    (Store.chunk_metadata <$> coll'))))).
Proof.
  apply (delete_document_count_in_sync Examples.defaults MoreExamples.stamp
           Examples.acts_world (py "acts") (py "reg1.pdf") Examples.acts_chunks
           MoreExamples.acts_record).
  - vm_compute. reflexivity.
  - apply (bool_decide_unpack _). vm_compute. exact I.
  - apply Exists_cons_hd. vm_compute. reflexivity.
  - vm_compute. reflexivity.
  - vm_compute. reflexivity.
Defined.

Lemma method1_text_is_the_result_witness :
  Extract.robust_extract_text_from_pdf Examples.ascii_isspace true
    MoreExamples.text_pdf
  = Ok [MoreExamples.long_page].
Proof.
  apply (method1_text_is_the_result Examples.ascii_isspace true
           MoreExamples.text_pdf [Some MoreExamples.long_page; None]).
  - vm_compute. reflexivity.
  - vm_compute. lia.
Defined.

Lemma pypdf_failure_loses_text_witness :
  Extract.robust_extract_text_from_pdf Examples.ascii_isspace true
    MoreExamples.half_read_pdf
  = Ok [].
Proof.
  apply (pypdf_failure_loses_text Examples.ascii_isspace true
           MoreExamples.half_read_pdf
           [Ok (Some Examples.long_text); Raise BackendError] BackendError).
  - vm_compute. reflexivity.
  - vm_compute. reflexivity.
  - vm_compute. reflexivity.
  - vm_compute. reflexivity.
Defined.

Lemma ocr_only_as_last_resort_witness :
  Extract.robust_extract_text_from_pdf Examples.ascii_isspace true
    MoreExamples.one_page_pdf_ocr
  = Extract.robust_extract_text_from_pdf Examples.ascii_isspace false
      Examples.one_page_pdf.
Proof.
  apply (ocr_only_as_last_resort Examples.ascii_isspace Examples.one_page_pdf
           MoreExamples.one_page_pdf_ocr false true).
  - vm_compute. reflexivity.
  - vm_compute. reflexivity.
  - vm_compute. reflexivity.
  - vm_compute. reflexivity.
Defined.


Lemma chat_llm_failure_absorbed_witness :
  Chat.chat Examples.failing_pipeline (fun _ _ _ => Raise BackendError) []
            Examples.empty_acts_world Examples.acts_request
  = (Ok {| Chat.resp_response :=
             py "I'm sorry, I encountered an error processing your request. Please try again later.";
           Chat.resp_context := Chat.resp_context MoreExamples.no_documents_answer;
           Chat.resp_dataset := Chat.resp_dataset MoreExamples.no_documents_answer;
           Chat.resp_raw_context :=
             Chat.resp_raw_context MoreExamples.no_documents_answer |},
     Examples.empty_acts_world, []).
Proof.
  apply (chat_llm_failure_absorbed Examples.failing_pipeline
           MoreExamples.fixed_answer [] Examples.empty_acts_world
           Examples.empty_acts_world Examples.acts_request BackendError
           MoreExamples.no_documents_answer []).
  vm_compute. reflexivity.
Defined.

Lemma add_message_custom_instructions_only_witness :
  Chat.prep_system_message MoreExamples.guided_prepared = py "Answer in French."
  /\ [Examples.five_results_call]
     = [{| Chat.call_dataset_name := Chat.prep_dataset MoreExamples.guided_prepared;
           Chat.call_query := default [] (Some Examples.question);
           Chat.call_n_results := 5; Chat.call_use_hybrid_search := true;
           Chat.call_use_reranking := true |}].
Proof.
  apply (add_message_custom_instructions_only MoreExamples.one_passage_pipeline
           [] MoreExamples.guided_world (Some Examples.acts_chat)
           (Some Examples.question) (Some (py "acts"))
           MoreExamples.guided_prepared [Examples.five_results_call]
           {[py "custom_instructions" := Store.VStr (py "Answer in French.")]}
           (py "Answer in French.")).
  - vm_compute. reflexivity.
  - vm_compute. reflexivity.
  - vm_compute. reflexivity.
  - intros H. vm_compute in H. discriminate H.
Defined.

Lemma get_chat_keeps_valid_messages_witness :
  Messages.chat_messages (MoreExamples.chat_of MoreExamples.tidy_messages)
  = Some (Validated.repaired
            <$> filter (fun m => Validated.kept m = true)
                       MoreExamples.untidy_messages).
Proof.
  apply (get_chat_keeps_valid_messages
           (MoreExamples.chat_of MoreExamples.untidy_messages)
           (MoreExamples.chat_of MoreExamples.tidy_messages)
           MoreExamples.untidy_messages).
  - vm_compute. reflexivity.
  - reflexivity.
Defined.

Lemma get_chat_idempotent_witness :
  Messages.get_chat (Some (MoreExamples.chat_of MoreExamples.tidy_messages))
  = Messages.ChatFound (MoreExamples.chat_of MoreExamples.tidy_messages).
Proof.
  apply (get_chat_idempotent
           (Some (MoreExamples.chat_of MoreExamples.untidy_messages))).
  vm_compute. reflexivity.
Defined.

Lemma get_chat_raises_on_non_string_content_witness :
  Messages.get_chat
    (Some (MoreExamples.chat_of
             [MoreExamples.plain_message "user" "Who is listed?";
              MoreExamples.numeric_message]))
  = Messages.ChatRaised TypeError.
Proof.
  apply (get_chat_raises_on_non_string_content _
           [MoreExamples.plain_message "user" "Who is listed?";
            MoreExamples.numeric_message]).
  - reflexivity.
  - apply Exists_cons_tl, Exists_cons_hd. vm_compute. reflexivity.
Defined.

Lemma write_last_message_changes_last_witness :
  exists stored earlier last_message,
    Some (MoreExamples.chat_of
            [MoreExamples.plain_message "user" "Who is listed?";
             MoreExamples.streamed_message "Generating response..." true])
    = Some stored
    /\ Messages.chat_messages stored = Some (earlier ++ [last_message])
    /\ length earlier = 1.
Proof.
  destruct (write_last_message_changes_last true (py "Article 1")
              (Some (MoreExamples.chat_of
                       [MoreExamples.plain_message "user" "Who is listed?";
                        MoreExamples.streamed_message "Generating response..." true]))
              (MoreExamples.chat_of
                 [MoreExamples.plain_message "user" "Who is listed?";
                  MoreExamples.streamed_message "Article 1" true]))
    as (stored & earlier & last_message & Hs & _ & Hm & _).
  - vm_compute. reflexivity.
  - exists stored, earlier, last_message. split; [exact Hs|]. split; [exact Hm|].
    injection Hs as <-. cbn in Hm. injection Hm as Hm.
    apply (f_equal length) in Hm. rewrite length_app in Hm. cbn in Hm. lia.
Defined.

Lemma finalize_after_update_witness :
  Messages.finalize_message (py "Article 1. Done.")
    (Some (MoreExamples.chat_of
             [MoreExamples.plain_message "user" "Who is listed?";
              MoreExamples.streamed_message "Article 1" true]))
  = Messages.finalize_message (py "Article 1. Done.")
      (Some (MoreExamples.chat_of
               [MoreExamples.plain_message "user" "Who is listed?";
                MoreExamples.streamed_message "Generating response..." true])).
Proof.
  apply (finalize_after_update (py "Article 1") (py "Article 1. Done.")
           (Some (MoreExamples.chat_of
                    [MoreExamples.plain_message "user" "Who is listed?";
                     MoreExamples.streamed_message "Generating response..." true]))
           (MoreExamples.chat_of
              [MoreExamples.plain_message "user" "Who is listed?";
               MoreExamples.streamed_message "Article 1" true])).
  vm_compute. reflexivity.
Defined.

Lemma text_file_fallback_stores_blank_text_witness :
  Blank.blank Examples.ascii_isspace (replicate 60 32%N)
  /\ Ingest.process_file Examples.ascii_isspace true 0 MoreExamples.blank_file
     = [Store.make_chunk (Ingest.chunk_ident (py "blank.txt") 0 0)
          (replicate 60 32%N)
          (Ingest.source_meta (py "blank.txt") "part" 0)].
Proof.
  destruct (text_file_fallback_stores_blank_text Examples.ascii_isspace true 0
              MoreExamples.blank_file (replicate 60 32%N))
    as [H|(Hb & _ & Hp)].
  - vm_compute. reflexivity.
  - vm_compute. reflexivity.
  - reflexivity.
  - vm_compute in H. discriminate H.
  - split; [exact Hb | exact Hp].
Defined.

